(** * Scheduling engine: entities, hours accounting, greedy scheduler

    A shallow embedding of [src/core/models.py] and [src/core/scheduler.py].

    Modelling conventions.
    - A naive [datetime] is an integer number of microseconds since the
      epoch ([Z]); [date()] is the day ordinal obtained by floor division.
    - Python floats holding hours, scores and costs are exact rationals
      ([Q]).  Whole-hour slots are computed exactly by both, so every
      concrete evaluation on such slots is also the value the interpreter
      prints.  Where rounding decides a property of the hours accounting,
      [FloatHours] repeats [_update_hours] on binary64 floats.
    - Objects live in the lists of the owning [Schedule]; a reference to
      an [Employee] or a [Project] is its position in the owning list.
      [x in list] on employees is therefore membership of the reference
      (distinct positions hold distinct entities: [Schedule.add_employee]
      refuses a second employee with an id already present).
    - A method that mutates [self] returns the new state of [self] next to
      its outcome, so that a raise after a mutation stays visible.
    - The module-level generator behind [random.random()] is its output
      sequence together with a cursor. *)

From Stdlib Require Import ZArith QArith Qminmax String List Bool Lia Lqa.
From Stdlib Require Import Permutation Sorted DecimalString.
From Stdlib Require Import Floats.
Import ListNotations.

Open Scope Z_scope.

(** ** Exceptions *)

(** The arguments of the f-string of each [ValueError] raised in the
    sources, instead of the rendered text. *)
Inductive Message : Type :=
| EndMustBeAfterStart (end_ start_ : Z)
| EmployeeNotAvailable (employee_name : string) (slot_start slot_end : Z)
| MustRequireFiveSkills (got : nat)
| SkillsMustBeDifferent
| CannotAssign (employee_name project_name : string)
| EmployeeIdExists (employee_id : Z)
| ProjectIdExists (project_id : Z)
| NoCandidatesAvailable.

Inductive Exception : Type :=
| ValueError (msg : Message).

Inductive Result (A : Type) : Type :=
| Ok (a : A)
| Raise (e : Exception).
Arguments Ok {A} a.
Arguments Raise {A} e.

Definition is_ok {A} (r : Result A) : bool :=
  match r with Ok _ => true | Raise _ => false end.

(** ** Built-ins *)

(** [sum(iterable)]: left fold from [0]. *)
Definition py_sum (l : list Q) : Q := fold_left Qplus l 0%Q.

Definition Qlt_bool (x y : Q) : bool := negb (Qle_bool y x).

(** [enumerate(l)]: every element with its position, which is the
    reference to it when [l] is an owning list. *)
Definition enumerate {A} (l : list A) : list (nat * A) :=
  combine (seq 0 (length l)) l.

(** Writing through a reference: the object at position [k] takes the
    state [x]; no object is created when [k] is not a position of [l]. *)
Fixpoint store {A} (k : nat) (x : A) (l : list A) {struct l} : list A :=
  match l with
  | [] => []
  | y :: l' =>
      match k with
      | O => x :: l'
      | S k' => y :: store k' x l'
      end
  end.

(** [sorted] and [list.sort] are stable; on a key with a total order every
    stable sort returns the same list, here by insertion.  [le x y] reads
    "x may stay before y". *)
Fixpoint insert_by {A} (le : A -> A -> bool) (x : A) (l : list A) : list A :=
  match l with
  | [] => [x]
  | y :: l' => if le x y then x :: y :: l' else y :: insert_by le x l'
  end.

Definition sort_by {A} (le : A -> A -> bool) (l : list A) : list A :=
  fold_right (insert_by le) [] l.

(** [str(n)] for a length. *)
Definition str_of_nat (n : nat) : string :=
  NilEmpty.string_of_uint (Nat.to_uint n).

(** ** Enumerations *)

Inductive SkillType : Type :=
| PRODUCER | EDITOR | GRAPHICS_DESIGNER | COLORIST | AUDIO_ENGINEER.

Definition SkillType_eqb (a b : SkillType) : bool :=
  match a, b with
  | PRODUCER, PRODUCER | EDITOR, EDITOR
  | GRAPHICS_DESIGNER, GRAPHICS_DESIGNER
  | COLORIST, COLORIST | AUDIO_ENGINEER, AUDIO_ENGINEER => true
  | _, _ => false
  end.

Definition SkillType_value (s : SkillType) : string :=
  match s with
  | PRODUCER => "Producer"
  | EDITOR => "Editor"
  | GRAPHICS_DESIGNER => "Graphics Designer"
  | COLORIST => "Colorist"
  | AUDIO_ENGINEER => "Audio Engineer"
  end%string.

Inductive ProjectStatus : Type :=
| PENDING | SCHEDULED | IN_PROGRESS | COMPLETED | CANCELLED.

(** ** datetime *)

Definition datetime := Z.

Definition microseconds_per_day : Z := 86400000000.
Definition microseconds_per_hour : positive := 3600000000.

(** [dt.date()] *)
Definition date (dt : datetime) : Z := dt / microseconds_per_day.

(** [datetime(1970, 1, 1 + day, hour, 0)] *)
Definition at_hour (day hour : Z) : datetime :=
  day * microseconds_per_day + hour * Zpos microseconds_per_hour.

(** ** TimeSlot *)

Module TimeSlot.

Record t : Type := mk { start : datetime; end_ : datetime }.

(** The dataclass constructor followed by [__post_init__]. *)
Definition new (start end_ : datetime) : Result t :=
  if end_ <=? start then Raise (ValueError (EndMustBeAfterStart end_ start))
  else Ok (mk start end_).

Definition valid (s : t) : Prop := start s < end_ s.

(** [(self.end - self.start).total_seconds() / 3600] *)
Definition duration_hours (self : t) : Q :=
  Qmake (end_ self - start self) microseconds_per_hour.

Definition overlaps_with (self other : t) : bool :=
  negb ((end_ self <=? start other) || (start self >=? end_ other)).

Definition contains (self : t) (dt : datetime) : bool :=
  (start self <=? dt) && (dt <? end_ self).

End TimeSlot.

(** ** Assignment *)

Definition eref := nat.
Definition pref := nat.

Module Assignment.

Record t : Type := mk {
  employee : eref;
  project : pref;
  time_slot : TimeSlot.t
}.

End Assignment.

(** ** Employee *)

Module Employee.

Record t : Type := mk {
  id : Z;
  name : string;
  skills : list SkillType;
  regular_hours_worked : Q;
  overtime_hours_worked : Q;
  assignments : list Assignment.t;
  unavailable_slots : list TimeSlot.t;
  MAX_REGULAR_HOURS_PER_DAY : Q;
  REGULAR_RATE : Q;
  OVERTIME_RATE : Q
}.

(** The class-level defaults, read as [Employee.MAX_REGULAR_HOURS_PER_DAY]
    and so on. *)
Definition cls_MAX_REGULAR_HOURS_PER_DAY : Q := 8.
Definition cls_REGULAR_RATE : Q := 1.
Definition cls_OVERTIME_RATE : Q := 13 # 10.

(** [Employee(id=..., name=..., skills=...)] *)
Definition new (id : Z) (name : string) (skills : list SkillType) : t :=
  mk id name skills 0 0 [] []
     cls_MAX_REGULAR_HOURS_PER_DAY cls_REGULAR_RATE cls_OVERTIME_RATE.

Definition set_assignments (self : t) (l : list Assignment.t) : t :=
  mk (id self) (name self) (skills self)
     (regular_hours_worked self) (overtime_hours_worked self)
     l (unavailable_slots self)
     (MAX_REGULAR_HOURS_PER_DAY self) (REGULAR_RATE self) (OVERTIME_RATE self).

Definition add_hours (self : t) (regular overtime : Q) : t :=
  mk (id self) (name self) (skills self)
     (regular_hours_worked self + regular)%Q
     (overtime_hours_worked self + overtime)%Q
     (assignments self) (unavailable_slots self)
     (MAX_REGULAR_HOURS_PER_DAY self) (REGULAR_RATE self) (OVERTIME_RATE self).

Definition has_skill (self : t) (skill : SkillType) : bool :=
  existsb (SkillType_eqb skill) (skills self).

Definition is_available (self : t) (time_slot : TimeSlot.t) : bool :=
  negb (existsb (TimeSlot.overlaps_with time_slot) (unavailable_slots self))
  && negb (existsb (fun a => TimeSlot.overlaps_with time_slot (Assignment.time_slot a))
                   (assignments self)).

(** The generator expression summed in [_update_hours] and in
    [_calculate_employee_score]. *)
Definition daily_hours (self : t) (day : Z) : Q :=
  py_sum (map (fun a => TimeSlot.duration_hours (Assignment.time_slot a))
              (filter (fun a => date (TimeSlot.start (Assignment.time_slot a)) =? day)
                      (assignments self))).

(** The split computed by [_update_hours]. *)
Definition split_hours (cap hours daily : Q) : Q * Q :=
  if Qle_bool daily cap then
    let regular := Qmin hours (cap - daily)%Q in
    let overtime := Qmax 0%Q (hours - regular)%Q in
    (regular, overtime)
  else (0, hours)%Q.

Definition _update_hours (self : t) (time_slot : TimeSlot.t) : t :=
  let hours := TimeSlot.duration_hours time_slot in
  let assignment_date := date (TimeSlot.start time_slot) in
  let daily := daily_hours self assignment_date in
  let '(regular, overtime) :=
    split_hours (MAX_REGULAR_HOURS_PER_DAY self) hours daily in
  add_hours self regular overtime.

Definition add_assignment (self : t) (assignment : Assignment.t) : Result unit * t :=
  if negb (is_available self (Assignment.time_slot assignment)) then
    (Raise (ValueError (EmployeeNotAvailable (name self)
              (TimeSlot.start (Assignment.time_slot assignment))
              (TimeSlot.end_ (Assignment.time_slot assignment)))), self)
  else
    let self1 := set_assignments self (assignments self ++ [assignment]) in
    (Ok tt, _update_hours self1 (Assignment.time_slot assignment)).

Definition get_total_cost (self : t) : Q :=
  let regular_cost := (regular_hours_worked self * REGULAR_RATE self)%Q in
  let overtime_cost := (overtime_hours_worked self * OVERTIME_RATE self)%Q in
  (regular_cost + overtime_cost)%Q.

(** Commits attempted one after the other on the same employee, a refused
    one leaving the employee as [add_assignment] returned it. *)
Definition commit_all (self : t) (l : list Assignment.t) : t :=
  fold_left (fun e a => snd (add_assignment e a)) l self.

(** The commits of [l], attempted one after the other, that
    [add_assignment] accepts (returns from without raising). *)
Fixpoint accepted (self : t) (l : list Assignment.t) : list Assignment.t :=
  match l with
  | [] => []
  | a :: rest =>
      let '(r, self') := add_assignment self a in
      if is_ok r then a :: accepted self' rest else accepted self' rest
  end.

(** Sum of the durations of the committed assignments. *)
Definition committed_hours (self : t) : Q :=
  py_sum (map (fun a => TimeSlot.duration_hours (Assignment.time_slot a))
              (assignments self)).

(** [total_available_hours] is the capacity of the period. *)
Definition get_utilization_rate (self : t) (total_available_hours : Q) : Q :=
  if Qle_bool total_available_hours 0 then 0%Q
  else
    let total_hours :=
      (regular_hours_worked self + overtime_hours_worked self)%Q in
    (total_hours / total_available_hours * 100)%Q.

Definition get_overtime_percentage (self : t) : Q :=
  let total_hours :=
    (regular_hours_worked self + overtime_hours_worked self)%Q in
  if Qle_bool total_hours 0 then 0%Q
  else (overtime_hours_worked self / total_hours * 100)%Q.

Definition reset_hours (self : t) : t :=
  mk (id self) (name self) (skills self) 0 0 [] (unavailable_slots self)
     (MAX_REGULAR_HOURS_PER_DAY self) (REGULAR_RATE self) (OVERTIME_RATE self).

End Employee.

(** ** Hours as binary64 floats *)

(** [Employee.add_assignment] and [Employee._update_hours] once more, the
    two totals being the interpreter's binary64 floats.  Availability and
    the list of assignments are those of the employee carried along. *)
Module FloatHours.

(** [timedelta.total_seconds()]: the microseconds of the difference over
    [10**6], correctly rounded.  The difference of two datetimes of a
    valid slot is positive and below [2**53]. *)
Definition total_seconds (microseconds : Z) : float :=
  (PrimFloat.of_uint63 (Uint63.of_Z microseconds) / 1000000)%float.

(** [TimeSlot.duration_hours] *)
Definition duration_hours (self : TimeSlot.t) : float :=
  (total_seconds (TimeSlot.end_ self - TimeSlot.start self) / 3600)%float.

(** [sum(iterable)] of floats, added left to right from [0].  (An
    interpreter that compensates the sum returns the same float for one
    or two terms.) *)
Definition py_sum (l : list float) : float :=
  fold_left PrimFloat.add l 0%float.

(** [min(a, b)] and [max(a, b)]: the first argument unless the second is
    smaller, respectively larger. *)
Definition py_min (a b : float) : float := if (b <? a)%float then b else a.
Definition py_max (a b : float) : float := if (a <? b)%float then b else a.

Record t : Type := mk {
  employee : Employee.t;
  regular_hours_worked : float;
  overtime_hours_worked : float
}.

(** The totals of a newly constructed employee. *)
Definition new (employee : Employee.t) : t := mk employee 0 0.

Definition daily_hours (self : t) (day : Z) : float :=
  py_sum (map (fun a => duration_hours (Assignment.time_slot a))
              (filter (fun a => date (TimeSlot.start (Assignment.time_slot a)) =? day)
                      (Employee.assignments (employee self)))).

(** [MAX_REGULAR_HOURS_PER_DAY] is the class default, [8.0]. *)
Definition _update_hours (self : t) (time_slot : TimeSlot.t) : t :=
  let hours := duration_hours time_slot in
  let assignment_date := date (TimeSlot.start time_slot) in
  let daily := daily_hours self assignment_date in
  let '(regular, overtime) :=
    if (daily <=? 8)%float then
      let regular := py_min hours (8 - daily)%float in
      let overtime := py_max 0%float (hours - regular)%float in
      (regular, overtime)
    else (0%float, hours) in
  mk (employee self)
     (regular_hours_worked self + regular)%float
     (overtime_hours_worked self + overtime)%float.

Definition add_assignment (self : t) (assignment : Assignment.t)
    : Result unit * t :=
  let e := employee self in
  if negb (Employee.is_available e (Assignment.time_slot assignment)) then
    (Raise (ValueError (EmployeeNotAvailable (Employee.name e)
              (TimeSlot.start (Assignment.time_slot assignment))
              (TimeSlot.end_ (Assignment.time_slot assignment)))), self)
  else
    let self1 :=
      mk (Employee.set_assignments e (Employee.assignments e ++ [assignment]))
         (regular_hours_worked self) (overtime_hours_worked self) in
    (Ok tt, _update_hours self1 (Assignment.time_slot assignment)).

Definition commit_all (self : t) (l : list Assignment.t) : t :=
  fold_left (fun e a => snd (add_assignment e a)) l self.

(** Sum of the durations of the committed assignments. *)
Definition committed_hours (self : t) : float :=
  py_sum (map (fun a => duration_hours (Assignment.time_slot a))
              (Employee.assignments (employee self))).

End FloatHours.

(** ** Assignment.get_cost *)

Definition TimeSlot_eqb (a b : TimeSlot.t) : bool :=
  (TimeSlot.start a =? TimeSlot.start b) && (TimeSlot.end_ a =? TimeSlot.end_ b).

(** [a == b] on assignments: the same employee, the same project, equal
    slots. *)
Definition Assignment_eqb (a b : Assignment.t) : bool :=
  Nat.eqb (Assignment.employee a) (Assignment.employee b)
  && Nat.eqb (Assignment.project a) (Assignment.project b)
  && TimeSlot_eqb (Assignment.time_slot a) (Assignment.time_slot b).

(** [Assignment.get_cost]; [employee] is the state read through
    [self.employee]. *)
Definition Assignment_get_cost (self : Assignment.t) (employee : Employee.t)
    : Q :=
  let hours := TimeSlot.duration_hours (Assignment.time_slot self) in
  let assignment_date := date (TimeSlot.start (Assignment.time_slot self)) in
  let daily_hours :=
    py_sum (map (fun a => TimeSlot.duration_hours (Assignment.time_slot a))
                (filter (fun a =>
                           (date (TimeSlot.start (Assignment.time_slot a))
                            =? assignment_date)
                           && negb (Assignment_eqb a self))
                        (Employee.assignments employee))) in
  let '(regular, overtime) :=
    if Qlt_bool daily_hours Employee.cls_MAX_REGULAR_HOURS_PER_DAY then
      let regular :=
        Qmin hours (Employee.cls_MAX_REGULAR_HOURS_PER_DAY - daily_hours)%Q in
      (regular, Qmax 0%Q (hours - regular)%Q)
    else (0%Q, hours) in
  (regular * Employee.cls_REGULAR_RATE
   + overtime * Employee.cls_OVERTIME_RATE)%Q.

(** ** Project *)

Definition SkillType_eq_dec (a b : SkillType) : {a = b} + {a <> b}.
Proof. decide equality. Defined.

Module Project.

Record t : Type := mk {
  id : Z;
  name : string;
  time_slot : TimeSlot.t;
  required_skills : list SkillType;
  assigned_employees : list eref;
  status : ProjectStatus;
  priority : Z;
  is_fixed : bool
}.

(** [len(set(l))] *)
Definition distinct_count (l : list SkillType) : nat :=
  length (nodup SkillType_eq_dec l).

(** The dataclass constructor followed by [__post_init__]. *)
Definition new (id : Z) (name : string) (time_slot : TimeSlot.t)
    (required_skills : list SkillType) (assigned_employees : list eref)
    (status : ProjectStatus) (priority : Z) (is_fixed : bool) : Result t :=
  if negb (length required_skills =? 5)%nat then
    Raise (ValueError (MustRequireFiveSkills (length required_skills)))
  else if negb (distinct_count required_skills =? 5)%nat then
    Raise (ValueError SkillsMustBeDifferent)
  else
    Ok (mk id name time_slot required_skills assigned_employees
           status priority is_fixed).

Definition set_assigned_employees (self : t) (l : list eref) : t :=
  mk (id self) (name self) (time_slot self) (required_skills self)
     l (status self) (priority self) (is_fixed self).

Definition set_status (self : t) (st : ProjectStatus) : t :=
  mk (id self) (name self) (time_slot self) (required_skills self)
     (assigned_employees self) st (priority self) (is_fixed self).

Definition is_fully_staffed (self : t) : bool :=
  (length (assigned_employees self) =? 5)%nat.

(** [emp.has_skill(skill)] through a reference held by the project. *)
Definition ref_has_skill (emps : list Employee.t) (skill : SkillType)
    (k : eref) : bool :=
  match nth_error emps k with
  | Some emp => Employee.has_skill emp skill
  | None => false
  end.

Definition get_missing_skills (emps : list Employee.t) (self : t)
    : list SkillType :=
  filter (fun required_skill =>
            negb (existsb (ref_has_skill emps required_skill)
                          (assigned_employees self)))
         (required_skills self).

(** [employee] is the reference [k] together with the state read
    through it. *)
Definition can_assign_employee (emps : list Employee.t) (self : t)
    (k : eref) (employee : Employee.t) : bool :=
  if existsb (Nat.eqb k) (assigned_employees self) then false
  else if is_fully_staffed self then false
  else
    let missing_skills := get_missing_skills emps self in
    if negb (existsb (Employee.has_skill employee) missing_skills) then false
    else if negb (Employee.is_available employee (time_slot self)) then false
    else true.

(** [self] is the project at reference [p]; the new states of the
    employee heap and of [self] are returned next to the outcome. *)
Definition assign_employee (emps : list Employee.t) (p : pref) (self : t)
    (k : eref) (employee : Employee.t)
    : Result unit * (list Employee.t * t) :=
  if negb (can_assign_employee emps self k employee) then
    (Raise (ValueError (CannotAssign (Employee.name employee) (name self))),
     (emps, self))
  else
    let self1 :=
      set_assigned_employees self (assigned_employees self ++ [k]) in
    let assignment := Assignment.mk k p (time_slot self1) in
    let '(r, employee') := Employee.add_assignment employee assignment in
    let emps' := store k employee' emps in
    match r with
    | Raise e => (Raise e, (emps', self1))
    | Ok _ =>
        if is_fully_staffed self1
        then (Ok tt, (emps', set_status self1 SCHEDULED))
        else (Ok tt, (emps', self1))
    end.

End Project.

(** ** Schedule *)

Module Schedule.

Record t : Type := mk {
  employees : list Employee.t;
  projects : list Project.t
}.

(** [Schedule()] *)
Definition new : t := mk [] [].

Definition add_employee (self : t) (employee : Employee.t)
    : Result unit * t :=
  if existsb (fun e => Employee.id e =? Employee.id employee) (employees self)
  then (Raise (ValueError (EmployeeIdExists (Employee.id employee))), self)
  else (Ok tt, mk (employees self ++ [employee]) (projects self)).

Definition add_project (self : t) (project : Project.t)
    : Result unit * t :=
  if existsb (fun q => Project.id q =? Project.id project) (projects self)
  then (Raise (ValueError (ProjectIdExists (Project.id project))), self)
  else (Ok tt, mk (employees self) (projects self ++ [project])).

Definition get_employee_by_id (self : t) (employee_id : Z)
    : option Employee.t :=
  find (fun e => Employee.id e =? employee_id) (employees self).

Definition get_project_by_id (self : t) (project_id : Z)
    : option Project.t :=
  find (fun q => Project.id q =? project_id) (projects self).

Definition get_unscheduled_projects (self : t) : list Project.t :=
  filter (fun q => negb (Project.is_fully_staffed q)) (projects self).

Definition get_available_employees (self : t) (time_slot : TimeSlot.t)
    (skill : SkillType) : list (eref * Employee.t) :=
  filter (fun ke => Employee.has_skill (snd ke) skill
                    && Employee.is_available (snd ke) time_slot)
         (enumerate (employees self)).

Definition get_total_cost (self : t) : Q :=
  py_sum (map Employee.get_total_cost (employees self)).

(** The arguments of the message appended to [errors]. *)
Inductive ValidationError : Type :=
| OverlappingAssignments (employee_name : string) (first second : Assignment.t).

Record ValidationStats : Type := mkValidationStats {
  stats_total_employees : nat;
  stats_total_projects : nat;
  stats_fully_staffed_projects : nat;
  stats_total_assignments : nat
}.

Record Validation : Type := mkValidation {
  valid : bool;
  errors : list ValidationError;
  validation_warnings : list string;
  stats : ValidationStats
}.

(** [key=lambda a: a.time_slot.start] *)
Definition by_start (x y : Assignment.t) : bool :=
  TimeSlot.start (Assignment.time_slot x)
  <=? TimeSlot.start (Assignment.time_slot y).

(** [for i in range(len(assignments) - 1)]: the neighbours that overlap. *)
Fixpoint adjacent_overlaps (employee_name : string) (l : list Assignment.t)
    : list ValidationError :=
  match l with
  | a :: rest =>
      match rest with
      | b :: _ =>
          (if TimeSlot.overlaps_with (Assignment.time_slot a)
                                     (Assignment.time_slot b)
           then [OverlappingAssignments employee_name a b] else [])
          ++ adjacent_overlaps employee_name rest
      | [] => []
      end
  | [] => []
  end.

Definition employee_errors (employee : Employee.t) : list ValidationError :=
  adjacent_overlaps (Employee.name employee)
                    (sort_by by_start (Employee.assignments employee)).

Definition not_fully_staffed (n : nat) : string :=
  (str_of_nat n ++ " projects are not fully staffed")%string.

Definition validate_schedule (self : t) : Validation :=
  let errors := flat_map employee_errors (employees self) in
  let unstaffed := get_unscheduled_projects self in
  mkValidation
    (match errors with [] => true | _ :: _ => false end)
    errors
    (match unstaffed with
     | [] => []
     | _ :: _ => [not_fully_staffed (length unstaffed)]
     end)
    (mkValidationStats
       (length (employees self))
       (length (projects self))
       (length (filter Project.is_fully_staffed (projects self)))
       (list_sum (map (fun e => length (Employee.assignments e))
                      (employees self)))).

End Schedule.

(** ** The generator of module [random] *)

Module Random.

(** The hidden generator: the sequence it is going to produce and how many
    values have been drawn.  [random.seed] chooses the sequence; every
    value lies in [[0, 1)]. *)
Record t : Type := mk { outputs : nat -> Q; cursor : nat }.

(** [random.random()] *)
Definition random (g : t) : Q * t :=
  (outputs g (cursor g), mk (outputs g) (S (cursor g))).

(** The same values are about to come out of both generators. *)
Definition same_future (g1 g2 : t) : Prop :=
  forall k : nat, outputs g1 (cursor g1 + k)%nat = outputs g2 (cursor g2 + k)%nat.

End Random.

(** ** Scheduler state *)

(** What a scheduling run reads and writes: the schedule it is given and
    the module-level generator. *)
Record World : Type := mkWorld {
  schedule_of : Schedule.t;
  generator_of : Random.t
}.

(** Computations that may mutate the world and may raise; the world at
    the raise is kept. *)
Definition M (A : Type) : Type := World -> Result A * World.

Definition ret {A} (a : A) : M A := fun w => (Ok a, w).

Definition raise {A} (e : Exception) : M A := fun w => (Raise e, w).

Definition bind {A B} (m : M A) (f : A -> M B) : M B :=
  fun w =>
    match m w with
    | (Ok a, w') => f a w'
    | (Raise e, w') => (Raise e, w')
    end.

Notation "x <- m ;; k" := (bind m (fun x => k))
  (at level 61, m at next level, right associativity).

(** [try: m except ValueError: pass] *)
Definition try_except {A} (m : M A) : M unit :=
  fun w => match m w with (_, w') => (Ok tt, w') end.

Definition project_at (w : World) (p : pref) : option Project.t :=
  nth_error (Schedule.projects (schedule_of w)) p.

(** [project.assign_employee(employee)] on the objects of the world. *)
Definition assign_employee (p : pref) (best : eref * Employee.t) : M unit :=
  fun w =>
    match project_at w p with
    | None => (Ok tt, w)
    | Some project =>
        let s := schedule_of w in
        let '(r, (emps', project')) :=
          Project.assign_employee (Schedule.employees s) p project
                                  (fst best) (snd best) in
        (r, mkWorld (Schedule.mk emps' (store p project' (Schedule.projects s)))
                    (generator_of w))
    end.

(** ** Results *)

Record FailedProject : Type := mkFailed {
  failed_id : Z;
  failed_name : string;
  missing_skills : list string
}.

(** [utilization_variance] is the value whose square root
    ([variance ** 0.5]) the source reports as [utilization_std_dev]. *)
Record Statistics : Type := mkStatistics {
  total_employees : nat;
  total_projects : nat;
  fully_staffed_projects : nat;
  total_cost : Q;
  total_regular_hours : Q;
  total_overtime_hours : Q;
  employees_with_overtime : nat;
  average_utilization : Q;
  utilization_variance : Q
}.

Record Optimization : Type := mkOptimization {
  initial_cost : Q;
  final_cost : Q;
  improvement : Q;
  improvement_percentage : Q;
  improvements_made : nat
}.

Record Results : Type := mkResults {
  success : bool;
  scheduled_projects : nat;
  failed_projects : list FailedProject;
  warnings : list string;
  statistics : Statistics;
  optimization : option Optimization
}.

Definition Q_of_nat (n : nat) : Q := inject_Z (Z.of_nat n).

(** ** GreedyScheduler *)

Module GreedyScheduler.

Record t : Type := mk {
  balance_workload : bool;
  minimize_overtime : bool
}.

(** [GreedyScheduler()] *)
Definition default : t := mk true true.

Definition _calculate_employee_score (self : t) (employee : Employee.t)
    (project : Project.t) : M Q :=
  fun w =>
    let score := 0%Q in
    let score :=
      if balance_workload self then
        let total_hours := (Employee.regular_hours_worked employee
                            + Employee.overtime_hours_worked employee)%Q in
        (score + (1000 - total_hours))%Q
      else score in
    let score :=
      if minimize_overtime self then
        let project_date := date (TimeSlot.start (Project.time_slot project)) in
        let daily_hours := Employee.daily_hours employee project_date in
        let regular_hours_available :=
          Qmax 0 (Employee.cls_MAX_REGULAR_HOURS_PER_DAY - daily_hours)%Q in
        (score + regular_hours_available * 100)%Q
      else score in
    let '(noise, g') := Random.random (generator_of w) in
    (Ok (score + noise)%Q, mkWorld (schedule_of w) g').

(** The loop filling [scored_candidates]. *)
Fixpoint score_all (self : t) (candidates : list (eref * Employee.t))
    (project : Project.t) : M (list (Q * (eref * Employee.t))) :=
  match candidates with
  | [] => ret []
  | emp :: rest =>
      score <- _calculate_employee_score self (snd emp) project ;;
      scored <- score_all self rest project ;;
      ret ((score, emp) :: scored)
  end.

(** [key=lambda x: x[0], reverse=True] *)
Definition by_score_desc (x y : Q * (eref * Employee.t)) : bool :=
  Qle_bool (fst y) (fst x).

Definition _select_best_employee (self : t)
    (candidates : list (eref * Employee.t)) (project : Project.t)
    : M (eref * Employee.t) :=
  match candidates with
  | [] => raise (ValueError NoCandidatesAvailable)
  | [only] => ret only
  | first :: _ =>
      scored_candidates <- score_all self candidates project ;;
      match sort_by by_score_desc scored_candidates with
      | best :: _ => ret (snd best)
      | [] => ret first
      end
  end.

(** The body of [for skill in missing_skills] and what follows the loop. *)
Fixpoint skills_loop (self : t) (p : pref) (skills : list SkillType)
    : M bool :=
  match skills with
  | [] =>
      fun w =>
        match project_at w p with
        | Some project => (Ok (Project.is_fully_staffed project), w)
        | None => (Ok false, w)
        end
  | skill :: rest =>
      fun w =>
        match project_at w p with
        | None => (Ok false, w)
        | Some project =>
            let available :=
              Schedule.get_available_employees
                (schedule_of w) (Project.time_slot project) skill in
            match available with
            | [] => (Ok false, w)
            | _ =>
                (best_employee <- _select_best_employee self available project ;;
                 _ <- try_except (assign_employee p best_employee) ;;
                 skills_loop self p rest) w
            end
        end
  end.

Definition _schedule_project (self : t) (p : pref) : M bool :=
  fun w =>
    match project_at w p with
    | None => (Ok false, w)
    | Some project =>
        let missing_skills :=
          Project.get_missing_skills
            (Schedule.employees (schedule_of w)) project in
        skills_loop self p missing_skills w
    end.

(** [key=lambda p: (-p.priority, p.time_slot.start)], compared as tuples. *)
Definition by_priority_then_start (x y : pref * Project.t) : bool :=
  let kx := (- Project.priority (snd x),
             TimeSlot.start (Project.time_slot (snd x))) in
  let ky := (- Project.priority (snd y),
             TimeSlot.start (Project.time_slot (snd y))) in
  (fst kx <? fst ky) || ((fst kx =? fst ky) && (snd kx <=? snd ky)).

Definition sorted_projects (s : Schedule.t) : list pref :=
  map fst (sort_by by_priority_then_start (enumerate (Schedule.projects s))).

Definition failed_entry (emps : list Employee.t) (project : Project.t)
    : FailedProject :=
  mkFailed (Project.id project) (Project.name project)
           (map SkillType_value (Project.get_missing_skills emps project)).

(** [for project in sorted_projects], threading the two entries of
    [results] the loop writes. *)
Fixpoint projects_loop (self : t) (l : list pref)
    (scheduled : nat) (failed : list FailedProject)
    : M (nat * list FailedProject) :=
  match l with
  | [] => ret (scheduled, failed)
  | p :: rest =>
      fun w =>
        match project_at w p with
        | None => projects_loop self rest scheduled failed w
        | Some project =>
            if Project.is_fully_staffed project then
              projects_loop self rest (scheduled + 1)%nat failed w
            else
              (ok <- _schedule_project self p ;;
               if (ok : bool) then
                 projects_loop self rest (scheduled + 1)%nat failed
               else
                 fun w' =>
                   match project_at w' p with
                   | None => projects_loop self rest scheduled failed w'
                   | Some project' =>
                       projects_loop self rest scheduled
                         (failed ++
                          [failed_entry (Schedule.employees (schedule_of w'))
                                        project'])
                         w'
                   end) w
        end
  end.

Definition _calculate_statistics (schedule : Schedule.t) : Statistics :=
  let emps := Schedule.employees schedule in
  let utilizations :=
    map (fun emp => (Employee.regular_hours_worked emp
                     + Employee.overtime_hours_worked emp)%Q) emps in
  let avg_util := (py_sum utilizations / Q_of_nat (length utilizations))%Q in
  mkStatistics
    (length emps)
    (length (Schedule.projects schedule))
    (length (filter Project.is_fully_staffed (Schedule.projects schedule)))
    (Schedule.get_total_cost schedule)
    (py_sum (map Employee.regular_hours_worked emps))
    (py_sum (map Employee.overtime_hours_worked emps))
    (length (filter (fun e => Qlt_bool 0 (Employee.overtime_hours_worked e)) emps))
    (match emps with [] => 0%Q | _ => avg_util end)
    (match emps with
     | [] | [_] => 0%Q
     | _ => (py_sum (map (fun u => (u - avg_util) ^ 2) utilizations)
             / Q_of_nat (length utilizations))%Q
     end).

Definition could_not_be_staffed (n : nat) : string :=
  (str_of_nat n ++ " projects could not be fully staffed")%string.

Definition schedule (self : t) : M Results :=
  fun w =>
    (out <- projects_loop self (sorted_projects (schedule_of w)) 0%nat [] ;;
     fun w' =>
       let '(scheduled, failed) := out in
       let stats := _calculate_statistics (schedule_of w') in
       match failed with
       | [] => (Ok (mkResults true scheduled failed [] stats None), w')
       | _ :: _ =>
           (Ok (mkResults false scheduled failed
                  [could_not_be_staffed (length failed)] stats None), w')
       end) w.

End GreedyScheduler.

(** ** OptimizedScheduler *)

Module OptimizedScheduler.

Record t : Type := mk {
  max_iterations : Z;
  initial_temperature : Q;
  greedy_scheduler : GreedyScheduler.t
}.

(** [OptimizedScheduler(max_iterations, temperature)] *)
Definition new (max_iterations : Z) (temperature : Q) : t :=
  mk max_iterations temperature (GreedyScheduler.mk true true).

(** [OptimizedScheduler()] *)
Definition default : t := new 100 1.

Definition _attempt_improvement (self : t) (iteration : nat) : M bool :=
  ret false.

(** One turn of [for iteration in range(...)], with its own
    [try ... except Exception: continue]; the loop variables are
    [(best_cost, improvements_made)]. *)
Definition improvement_step (self : t) (iteration : nat)
    (vars : Q * nat) : M (Q * nat) :=
  fun w =>
    match _attempt_improvement self iteration w with
    | (Raise _, w') => (Ok vars, w')
    | (Ok improved, w') =>
        let made := if (improved : bool) then (snd vars + 1)%nat else snd vars in
        let current_cost := Schedule.get_total_cost (schedule_of w') in
        if Qlt_bool current_cost (fst vars)
        then (Ok (current_cost, made), w')
        else (Ok (fst vars, made), w')
    end.

Fixpoint improvement_loop (self : t) (iterations : list nat)
    (vars : Q * nat) : M (Q * nat) :=
  match iterations with
  | [] => ret vars
  | iteration :: rest =>
      vars' <- improvement_step self iteration vars ;;
      improvement_loop self rest vars'
  end.

(** The body of the outer [try]. *)
Definition schedule_body (self : t) : M Results :=
  results <- GreedyScheduler.schedule (greedy_scheduler self) ;;
  if negb (success results) then ret results
  else
    fun w =>
      let initial_cost := Schedule.get_total_cost (schedule_of w) in
      (vars <- improvement_loop self
                 (seq 0 (Z.to_nat (Z.min (max_iterations self) 50)))
                 (initial_cost, 0%nat) ;;
       fun w' =>
         let best_cost := fst vars in
         let opt :=
           mkOptimization initial_cost best_cost
             (initial_cost - best_cost)%Q
             (if Qlt_bool 0 initial_cost
              then ((initial_cost - best_cost) / initial_cost * 100)%Q
              else 0%Q)
             (snd vars) in
         (Ok (mkResults (success results) (scheduled_projects results)
                (failed_projects results) (warnings results)
                (GreedyScheduler._calculate_statistics (schedule_of w'))
                (Some opt)), w')) w.

(** [str(e)] in the fallback warning. *)
Definition optimization_skipped (e : Exception) : string :=
  "Optimization skipped"%string.

Definition schedule (self : t) : M Results :=
  fun w =>
    match schedule_body self w with
    | (Ok results, w') => (Ok results, w')
    | (Raise e, w') =>
        let s := schedule_of w' in
        (Ok (mkResults true
               (length (filter Project.is_fully_staffed (Schedule.projects s)))
               [] [optimization_skipped e]
               (GreedyScheduler._calculate_statistics s) None), w')
    end.

End OptimizedScheduler.

(** ** Strategies *)

Inductive SchedulingStrategy : Type :=
| Greedy (scheduler : GreedyScheduler.t)
| Optimized (scheduler : OptimizedScheduler.t).

Definition strategy_schedule (strategy : SchedulingStrategy) : M Results :=
  match strategy with
  | Greedy g => GreedyScheduler.schedule g
  | Optimized o => OptimizedScheduler.schedule o
  end.

(** ** ConflictDetector *)

Module ConflictDetector.

(** [key=lambda a: a.time_slot.start] *)
Definition by_start (x y : Assignment.t) : bool :=
  TimeSlot.start (Assignment.time_slot x)
  <=? TimeSlot.start (Assignment.time_slot y).

(** The pairs [(assignments[i], assignments[j])], [i < j], that overlap,
    in the order of the two nested loops. *)
Fixpoint overlapping_pairs (l : list Assignment.t)
    : list (Assignment.t * Assignment.t) :=
  match l with
  | [] => []
  | a :: rest =>
      map (fun b => (a, b))
          (filter (fun b => TimeSlot.overlaps_with (Assignment.time_slot a)
                                                   (Assignment.time_slot b))
                  rest)
      ++ overlapping_pairs rest
  end.

Definition find_employee_conflicts (employee : Employee.t)
    : list (Assignment.t * Assignment.t) :=
  let assignments := sort_by by_start (Employee.assignments employee) in
  overlapping_pairs assignments.

(** The arguments of the messages of [validate_project_staffing]. *)
Inductive StaffingMessage : Type :=
| HasEmployees (n : nat)
| MissingSkills (skills : list string)
| SkillNotCovered (skill : string).

Record StaffingResult : Type := mkStaffingResult {
  staffing_valid : bool;
  staffing_errors : list StaffingMessage;
  staffing_warnings : list StaffingMessage
}.

(** [emps] is the heap the references of [project] point into. *)
Definition validate_project_staffing (emps : list Employee.t)
    (project : Project.t) : StaffingResult :=
  let staffed := Project.is_fully_staffed project in
  let errors :=
    if staffed then []
    else [HasEmployees (length (Project.assigned_employees project));
          MissingSkills (map SkillType_value
                             (Project.get_missing_skills emps project))] in
  let assigned_skills :=
    flat_map (fun k => match nth_error emps k with
                       | Some emp => Employee.skills emp
                       | None => []
                       end)
             (Project.assigned_employees project) in
  let warnings :=
    map (fun required_skill => SkillNotCovered (SkillType_value required_skill))
        (filter (fun required_skill =>
                   negb (existsb (SkillType_eqb required_skill) assigned_skills))
                (Project.required_skills project)) in
  mkStaffingResult staffed errors warnings.

End ConflictDetector.

(** ** Invariants of the data model *)

(** The running totals add up to the committed hours. *)
Definition hours_consistent (e : Employee.t) : Prop :=
  (Employee.regular_hours_worked e + Employee.overtime_hours_worked e
   == Employee.committed_hours e)%Q.

(** The slot lasts a multiple of 1/1024 hour, that is of 3515625
    microseconds, as whole, half and quarter hours do.  The durations of
    such slots are dyadic rationals: they, their sums and the splits at
    the cap of 8 are held exactly by the floats of the code. *)
Definition dyadic_hours (s : TimeSlot.t) : bool :=
  (TimeSlot.end_ s - TimeSlot.start s) mod 3515625 =? 0.

(** An employee before any commit, as the constructor leaves the fields
    of the hours accounting. *)
Definition newly_constructed (e : Employee.t) : Prop :=
  Employee.assignments e = []
  /\ Employee.regular_hours_worked e = 0%Q
  /\ Employee.overtime_hours_worked e = 0%Q
  /\ Employee.MAX_REGULAR_HOURS_PER_DAY e = Employee.cls_MAX_REGULAR_HOURS_PER_DAY.

(** In a schedule whose projects have slots of dyadic hours, the totals
    of every employee add up to the hours of the assignments held, all of
    them for slots of dyadic hours. *)
Definition dyadic_hour_totals (s : Schedule.t) : Prop :=
  Forall (fun q => dyadic_hours (Project.time_slot q) = true)
         (Schedule.projects s)
  /\ Forall (fun e =>
               hours_consistent e
               /\ Forall (fun a => dyadic_hours (Assignment.time_slot a) = true)
                         (Employee.assignments e))
            (Schedule.employees s).

(** The invariant of the totals as worded, on the floats of the code:
    after any sequence of successful commits on a new employee, the two
    totals add up to the sum of the durations of the assignments held. *)
Definition float_totals_add_up : Prop :=
  forall (e : Employee.t) (l : list Assignment.t),
    newly_constructed e ->
    Employee.accepted e l = l ->
    let f := FloatHours.commit_all (FloatHours.new e) l in
    (FloatHours.regular_hours_worked f + FloatHours.overtime_hours_worked f
     =? FloatHours.committed_hours f)%float = true.

Definition disjoint_slots (a b : TimeSlot.t) : bool :=
  negb (TimeSlot.overlaps_with a b).

(** No two slots of the list overlap. *)
Fixpoint pairwise_disjoint (l : list TimeSlot.t) : bool :=
  match l with
  | [] => true
  | s :: rest => forallb (disjoint_slots s) rest && pairwise_disjoint rest
  end.

(** No two assignments of the employee overlap and none overlaps an
    unavailable slot. *)
Definition conflict_free (e : Employee.t) : bool :=
  pairwise_disjoint (map Assignment.time_slot (Employee.assignments e))
  && forallb (fun a => forallb (disjoint_slots (Assignment.time_slot a))
                               (Employee.unavailable_slots e))
             (Employee.assignments e).

(** Schedules populated the way [DataGenerator.create_schedule] does it:
    from [Schedule()] by [add_employee] and [add_project]. *)
Inductive populated : Schedule.t -> Prop :=
| populated_new : populated Schedule.new
| populated_employee s e r s' :
    populated s -> Schedule.add_employee s e = (r, s') -> populated s'
| populated_project s q r s' :
    populated s -> Schedule.add_project s q = (r, s') -> populated s'.

(** The project as [assign_employee] leaves it after appending [k]. *)
Definition project_with (q : Project.t) (k : eref) : Project.t :=
  let q1 := Project.set_assigned_employees q (Project.assigned_employees q ++ [k]) in
  if Project.is_fully_staffed q1 then Project.set_status q1 SCHEDULED else q1.

(** The employee at reference [k] after the commit to project [p]. *)
Definition employee_with (e : Employee.t) (k : eref) (p : pref)
    (q : Project.t) : Employee.t :=
  snd (Employee.add_assignment e (Assignment.mk k p (Project.time_slot q))).

(** The schedule after employee [k] was committed to project [p]. *)
Definition committed (s : Schedule.t) (p : pref) (q : Project.t)
    (k : eref) (e : Employee.t) : Schedule.t :=
  Schedule.mk (store k (employee_with e k p q) (Schedule.employees s))
              (store p (project_with q k) (Schedule.projects s)).

(** Number of fully staffed projects of a schedule. *)
Definition staffed_count (s : Schedule.t) : nat :=
  length (filter Project.is_fully_staffed (Schedule.projects s)).

(** Every employee of the schedule is free of conflicts. *)
Definition all_conflict_free (s : Schedule.t) : Prop :=
  Forall (fun e => conflict_free e = true) (Schedule.employees s).

(** ** Two runs side by side *)

(** Two worlds a run cannot tell apart: the same schedule, and generators
    about to produce the same values. *)
Definition same_inputs (w1 w2 : World) : Prop :=
  schedule_of w1 = schedule_of w2
  /\ Random.same_future (generator_of w1) (generator_of w2).

(** [m] returns the same result from worlds it cannot tell apart, and
    leaves worlds that cannot be told apart. *)
Definition deterministic {A} (m : M A) : Prop :=
  forall w1 w2, same_inputs w1 w2 ->
    fst (m w1) = fst (m w2) /\ same_inputs (snd (m w1)) (snd (m w2)).

(** Reproducibility as worded: the seed (the sequence the generator
    produces), the schedule and the strategy fix the outcome of a run,
    whatever has been drawn from the generator before the run. *)
Definition reproducible_from_seed : Prop :=
  forall (strategy : SchedulingStrategy) (s : Schedule.t) (g1 g2 : Random.t),
    Random.outputs g1 = Random.outputs g2 ->
    fst (strategy_schedule strategy (mkWorld s g1))
    = fst (strategy_schedule strategy (mkWorld s g2))
    /\ schedule_of (snd (strategy_schedule strategy (mkWorld s g1)))
       = schedule_of (snd (strategy_schedule strategy (mkWorld s g2))).

(** ** A refused commit, as worded *)

(** With two candidates for a skill: when the commit of the best one is
    refused and the project can take the other one, the other one is on
    the project by the time the scheduler leaves the skill. *)
Definition next_candidate_tried : Prop :=
  forall (g : GreedyScheduler.t) (p : pref) (skill : SkillType) (w w1 : World)
         (q : Project.t) (c1 c2 : eref * Employee.t),
    project_at w p = Some q ->
    Schedule.get_available_employees
      (schedule_of w) (Project.time_slot q) skill = [c1; c2] ->
    GreedyScheduler._select_best_employee g [c1; c2] q w = (Ok c1, w1) ->
    is_ok (fst (assign_employee p c1 w1)) = false ->
    Project.can_assign_employee
      (Schedule.employees (schedule_of w1)) q (fst c2) (snd c2) = true ->
    exists q',
      project_at (snd (GreedyScheduler.skills_loop g p [skill] w)) p = Some q'
      /\ In (fst c2) (Project.assigned_employees q').

(** ** An under-staffed project *)

(** The employee at reference [k] holds the skill [r] and no other. *)
Definition holds_only (es : list Employee.t) (k : eref) (r : SkillType)
    : Prop :=
  exists e, nth_error es k = Some e /\ Employee.skills e = [r].

(** The schedule reached from employees [es] and the single project [q0]
    once the holders [ks] of the skills [done] have been committed, one
    for each skill and in that order. *)
Definition after_commits (es : list Employee.t) (q0 : Project.t)
    (done : list SkillType) (ks : list eref) (s : Schedule.t) : Prop :=
  Schedule.projects s = [Project.set_assigned_employees q0 ks]
  /\ Forall2 (holds_only es) ks done
  /\ length (Schedule.employees s) = length es
  /\ forall k e,
       nth_error es k = Some e ->
       nth_error (Schedule.employees s) k
       = Some (if existsb (Employee.has_skill e) done
               then employee_with e k 0%nat q0 else e).

(** The failure case as worded: whenever 4 employees cover 4 of the 5
    skills of a single project, the project is reported with exactly the
    uncovered skill as missing, and 4 employees are on it. *)
Definition reports_only_uncovered_skill : Prop :=
  forall (g : GreedyScheduler.t) (w : World) (q0 : Project.t) (X : SkillType),
    Schedule.projects (schedule_of w) = [q0] ->
    Project.assigned_employees q0 = [] ->
    length (Project.required_skills q0) = 5%nat ->
    NoDup (Project.required_skills q0) ->
    In X (Project.required_skills q0) ->
    length (Schedule.employees (schedule_of w)) = 4%nat ->
    (forall r, In r (Project.required_skills q0) -> r <> X ->
       exists e, In e (Schedule.employees (schedule_of w))
                 /\ Employee.has_skill e r = true) ->
    (forall e, In e (Schedule.employees (schedule_of w)) ->
       Employee.has_skill e X = false) ->
    exists r w' q',
      GreedyScheduler.schedule g w = (Ok r, w')
      /\ failed_projects r
         = [mkFailed (Project.id q0) (Project.name q0) [SkillType_value X]]
      /\ Schedule.projects (schedule_of w') = [q']
      /\ length (Project.assigned_employees q') = 4%nat.

(** ** Further invariants of a schedule *)

(** No project has more than five assignees. *)
Definition staffing_bounded (s : Schedule.t) : Prop :=
  Forall (fun q => (length (Project.assigned_employees q) <= 5)%nat)
         (Schedule.projects s).

(** A project is marked [SCHEDULED] exactly when it has five assignees. *)
Definition status_consistent (s : Schedule.t) : Prop :=
  Forall (fun q => Project.is_fully_staffed q = true
                   <-> Project.status q = SCHEDULED)
         (Schedule.projects s).

(** The two sides of an assignment agree: an assignee of a project holds
    the assignment to it, for the slot of the project, and an assignment
    held by an employee names him and a project he is an assignee of. *)
Definition back_references_consistent (s : Schedule.t) : Prop :=
  (forall p q k,
     nth_error (Schedule.projects s) p = Some q ->
     In k (Project.assigned_employees q) ->
     exists e, nth_error (Schedule.employees s) k = Some e
               /\ In (Assignment.mk k p (Project.time_slot q))
                     (Employee.assignments e))
  /\ (forall k e a,
        nth_error (Schedule.employees s) k = Some e ->
        In a (Employee.assignments e) ->
        Assignment.employee a = k
        /\ exists q, nth_error (Schedule.projects s) (Assignment.project a) = Some q
                     /\ In k (Project.assigned_employees q)
                     /\ Assignment.time_slot a = Project.time_slot q).

(** [e] is [e0] with assignments appended and hours changed. *)
Definition employee_extends (e0 e : Employee.t) : Prop :=
  Employee.id e = Employee.id e0
  /\ Employee.name e = Employee.name e0
  /\ Employee.skills e = Employee.skills e0
  /\ Employee.unavailable_slots e = Employee.unavailable_slots e0
  /\ exists l, Employee.assignments e = Employee.assignments e0 ++ l.

(** [q] is [q0] with assignees appended and the status changed. *)
Definition project_extends (q0 q : Project.t) : Prop :=
  Project.id q = Project.id q0
  /\ Project.name q = Project.name q0
  /\ Project.time_slot q = Project.time_slot q0
  /\ Project.required_skills q = Project.required_skills q0
  /\ Project.priority q = Project.priority q0
  /\ Project.is_fixed q = Project.is_fixed q0
  /\ exists l, Project.assigned_employees q = Project.assigned_employees q0 ++ l.

(** [s] holds the entities of [s0], each at its place and extended. *)
Definition schedule_extends (s0 s : Schedule.t) : Prop :=
  Forall2 employee_extends (Schedule.employees s0) (Schedule.employees s)
  /\ Forall2 project_extends (Schedule.projects s0) (Schedule.projects s).

(** The order in which the scheduler takes the projects: higher priority
    first, and the earlier start first among equal priorities. *)
Definition visited_before (x y : pref * Project.t) : Prop :=
  Project.priority (snd y) < Project.priority (snd x)
  \/ (Project.priority (snd x) = Project.priority (snd y)
      /\ TimeSlot.start (Project.time_slot (snd x))
         <= TimeSlot.start (Project.time_slot (snd y))).

(** Every slot an employee is assigned has its end after its start, as
    every slot built by the constructor of [TimeSlot] has. *)
Definition all_slots_valid (s : Schedule.t) : Prop :=
  Forall (fun e => Forall (fun a => TimeSlot.valid (Assignment.time_slot a))
                          (Employee.assignments e))
         (Schedule.employees s).

(** A project as the constructor returns it by default: nobody assigned
    yet; it requires five skills at most. *)
Definition unstaffed (q : Project.t) : Prop :=
  Project.assigned_employees q = []
  /\ (length (Project.required_skills q) <= 5)%nat.

(** No employee is twice among the assignees of a project. *)
Definition assignees_distinct (s : Schedule.t) : Prop :=
  Forall (fun q => NoDup (Project.assigned_employees q)) (Schedule.projects s).

(** Every project has room for one more assignee per skill it misses. *)
Definition room_for_missing_skills (s : Schedule.t) : Prop :=
  Forall (fun q => (length (Project.get_missing_skills (Schedule.employees s) q)
                    + length (Project.assigned_employees q) <= 5)%nat)
         (Schedule.projects s).

(** ** Inputs used by the evaluations below *)

(** Two slots of the same day: 09:00-14:00 and 14:00-18:00. *)
Definition slot_5h : TimeSlot.t := TimeSlot.mk (at_hour 0 9) (at_hour 0 14).
Definition slot_4h : TimeSlot.t := TimeSlot.mk (at_hour 0 14) (at_hour 0 18).

Definition commit_5h : Assignment.t := Assignment.mk 0%nat 0%nat slot_5h.
Definition commit_4h : Assignment.t := Assignment.mk 0%nat 1%nat slot_4h.

Definition fresh_editor : Employee.t := Employee.new 1 "Avery" [EDITOR].

Definition all_five : list SkillType :=
  [PRODUCER; EDITOR; GRAPHICS_DESIGNER; COLORIST; AUDIO_ENGINEER].

(** A schedule populated through [add_employee] and [add_project]. *)
Definition small_schedule : Schedule.t :=
  let s0 := Schedule.new in
  let s1 := snd (Schedule.add_employee s0 fresh_editor) in
  let s2 := snd (Schedule.add_employee s1 (Employee.new 2 "Blake" [COLORIST])) in
  snd (Schedule.add_project s2
         (Project.mk 7 "News" slot_5h all_five [] PENDING 5 true)).

(** A generator whose draws alternate between 0.9 and 0.1. *)
Definition alternating (n : nat) : Q :=
  if Nat.even n then 9 # 10 else 1 # 10.

Definition seeded : Random.t := Random.mk alternating 0.

(** Two editors with nothing to tell them apart but the noise, and one
    project that needs an editor first. *)
Definition tie_schedule : Schedule.t :=
  Schedule.mk
    [Employee.new 1 "Avery" [EDITOR]; Employee.new 2 "Blake" [EDITOR]]
    [Project.mk 7 "News" slot_5h
       [EDITOR; PRODUCER; GRAPHICS_DESIGNER; COLORIST; AUDIO_ENGINEER]
       [] PENDING 5 true].

(** A producer who also edits, an editor, and an editor who also does
    graphics; one project needing the five skills. *)
Definition blake : eref * Employee.t :=
  (1%nat, Employee.new 2 "Blake" [EDITOR]).
Definition casey : eref * Employee.t :=
  (2%nat, Employee.new 3 "Casey" [EDITOR; GRAPHICS_DESIGNER]).

Definition stale_schedule : Schedule.t :=
  Schedule.mk
    [Employee.new 1 "Avery" [PRODUCER; EDITOR]; snd blake; snd casey]
    [Project.mk 7 "News" slot_5h all_five [] PENDING 5 true].

(** The world once the producer has been committed: the editor skill is
    covered, and still on the list of skills the loop goes through. *)
Definition after_producer : World :=
  snd (GreedyScheduler.skills_loop GreedyScheduler.default 0%nat [PRODUCER]
         (mkWorld stale_schedule seeded)).

Definition news : Project.t :=
  Project.mk 7 "News" slot_5h all_five [] PENDING 5 true.

Definition an_editor : Employee.t := Employee.new 1 "Avery" [EDITOR].
Definition a_designer : Employee.t := Employee.new 2 "Blake" [GRAPHICS_DESIGNER].
Definition a_colorist : Employee.t := Employee.new 3 "Casey" [COLORIST].
Definition an_engineer : Employee.t := Employee.new 4 "Drew" [AUDIO_ENGINEER].
Definition a_producer : Employee.t := Employee.new 5 "Ellis" [PRODUCER].

(** Nobody produces: the uncovered skill is the one declared first. *)
Definition no_producer : Schedule.t :=
  Schedule.mk [an_editor; a_designer; a_colorist; an_engineer] [news].

(** Nobody does audio: the uncovered skill is the one declared last. *)
Definition no_engineer : Schedule.t :=
  Schedule.mk [an_editor; a_producer; a_designer; a_colorist] [news].

(** One holder for each of the five skills. *)
Definition full_team : Schedule.t :=
  Schedule.mk [an_editor; a_producer; a_designer; a_colorist; an_engineer]
              [news].

(** A second project, right after the first: 14:00-18:00. *)
Definition sports : Project.t :=
  Project.mk 8 "Sports" slot_4h all_five [] PENDING 5 true.

(** The full team and two projects that touch without overlapping. *)
Definition two_projects : Schedule.t :=
  Schedule.mk [an_editor; a_producer; a_designer; a_colorist; an_engineer]
              [news; sports].

(** The audio engineer is away from 09:00 to 14:00. *)
Definition away_in_the_morning : Employee.t :=
  Employee.mk 4 "Drew" [AUDIO_ENGINEER] 0 0 [] [slot_5h]
    Employee.cls_MAX_REGULAR_HOURS_PER_DAY Employee.cls_REGULAR_RATE
    Employee.cls_OVERTIME_RATE.

Definition engineer_away : Schedule.t :=
  Schedule.mk
    [an_editor; a_producer; a_designer; a_colorist; away_in_the_morning]
    [news; sports].

(** 13:00-15:00, across the two slots above. *)
Definition slot_across : TimeSlot.t :=
  TimeSlot.mk (at_hour 0 13) (at_hour 0 15).

Definition commit_across : Assignment.t := Assignment.mk 0%nat 2%nat slot_across.

(** An employee holding two assignments that overlap. *)
Definition double_booked : Employee.t :=
  Employee.set_assignments fresh_editor [commit_5h; commit_across].

(** 09:00-13:14 and 14:00-17:51 of the same day: 254 and 231 minutes. *)
Definition slot_254min : TimeSlot.t :=
  TimeSlot.mk (at_hour 0 9) (at_hour 0 9 + 254 * 60000000).
Definition slot_231min : TimeSlot.t :=
  TimeSlot.mk (at_hour 0 14) (at_hour 0 14 + 231 * 60000000).

Definition commit_254min : Assignment.t := Assignment.mk 0%nat 0%nat slot_254min.
Definition commit_231min : Assignment.t := Assignment.mk 0%nat 1%nat slot_231min.

(** The slots that start and end on a half hour between 08:00 and 17:30
    of day 0, and every two commits of such slots. *)
Definition half_hour (n : nat) : datetime :=
  at_hour 0 8 + Z.of_nat n * 1800000000.

Definition half_hour_slots : list TimeSlot.t :=
  flat_map (fun s =>
              map (fun d => TimeSlot.mk (half_hour s) (half_hour (s + 1 + d)))
                  (seq 0 (19 - s)))
           (seq 0 19).

Definition half_hour_commit_pairs : list (list Assignment.t) :=
  map (fun ab => [Assignment.mk 0%nat 0%nat (fst ab);
                  Assignment.mk 0%nat 1%nat (snd ab)])
      (list_prod half_hour_slots half_hour_slots).


(** * Properties *)

(** ** Hours accounting *)

Lemma py_sum_app (l : list Q) (x : Q) : py_sum (l ++ [x]) = (py_sum l + x)%Q.
Proof. unfold py_sum. rewrite fold_left_app. reflexivity. Qed.

Lemma split_hours_total (cap hours daily : Q) :
  (fst (Employee.split_hours cap hours daily)
   + snd (Employee.split_hours cap hours daily) == hours)%Q.
Proof.
  unfold Employee.split_hours.
  destruct (Qle_bool daily cap) eqn:Hle; cbn [fst snd].
  - apply Qle_bool_iff in Hle.
    destruct (Q.min_spec hours (cap - daily)) as [[Hlt Hmin] | [Hge Hmin]];
      rewrite Hmin.
    + destruct (Q.max_spec 0 (hours - hours)) as [[H0 Hmax] | [H0 Hmax]];
        rewrite Hmax; lra.
    + destruct (Q.max_spec 0 (hours - (cap - daily))) as [[H0 Hmax] | [H0 Hmax]];
        rewrite Hmax; lra.
  - lra.
Qed.

Lemma add_assignment_refused (e : Employee.t) (a : Assignment.t) :
  Employee.is_available e (Assignment.time_slot a) = false ->
  Employee.add_assignment e a
  = (Raise (ValueError (EmployeeNotAvailable (Employee.name e)
              (TimeSlot.start (Assignment.time_slot a))
              (TimeSlot.end_ (Assignment.time_slot a)))), e).
Proof. intros H. unfold Employee.add_assignment. rewrite H. reflexivity. Qed.

Lemma add_assignment_accepted (e : Employee.t) (a : Assignment.t) :
  Employee.is_available e (Assignment.time_slot a) = true ->
  Employee.add_assignment e a
  = (Ok tt, Employee._update_hours
              (Employee.set_assignments e (Employee.assignments e ++ [a]))
              (Assignment.time_slot a)).
Proof. intros H. unfold Employee.add_assignment. rewrite H. reflexivity. Qed.

Lemma update_hours_fields (e : Employee.t) (ts : TimeSlot.t) :
  let e' := Employee._update_hours e ts in
  Employee.id e' = Employee.id e
  /\ Employee.name e' = Employee.name e
  /\ Employee.skills e' = Employee.skills e
  /\ Employee.assignments e' = Employee.assignments e
  /\ Employee.unavailable_slots e' = Employee.unavailable_slots e.
Proof.
  unfold Employee._update_hours.
  destruct (Employee.split_hours _ _ _) as [regular overtime].
  cbn. repeat split.
Qed.

Lemma add_assignment_hours_consistent (e : Employee.t) (a : Assignment.t) :
  hours_consistent e -> hours_consistent (snd (Employee.add_assignment e a)).
Proof.
  intros He. unfold Employee.add_assignment.
  destruct (negb _); [exact He|]. cbn [snd].
  unfold hours_consistent, Employee.committed_hours, Employee._update_hours in *.
  set (e1 := Employee.set_assignments e (Employee.assignments e ++ [a])).
  pose proof (split_hours_total (Employee.MAX_REGULAR_HOURS_PER_DAY e1)
                (TimeSlot.duration_hours (Assignment.time_slot a))
                (Employee.daily_hours e1
                   (date (TimeSlot.start (Assignment.time_slot a))))) as Hs.
  destruct (Employee.split_hours _ _ _) as [regular overtime].
  cbn [fst snd] in Hs.
  cbn -[py_sum Qplus]. subst e1. cbn -[py_sum Qplus].
  rewrite map_app. cbn [map]. rewrite py_sum_app. lra.
Qed.

Lemma commit_all_hours_consistent (e : Employee.t) (l : list Assignment.t) :
  hours_consistent e -> hours_consistent (Employee.commit_all e l).
Proof.
  revert e. induction l as [|a l IH]; intros e He; [exact He|].
  cbn. apply IH. apply add_assignment_hours_consistent. exact He.
Qed.

(** The list of assignments grows by the accepted commits, in order. *)
Lemma commit_all_accepted (e : Employee.t) (l : list Assignment.t) :
  Employee.assignments (Employee.commit_all e l)
  = Employee.assignments e ++ Employee.accepted e l.
Proof.
  revert e. induction l as [|a l IH]; intros e.
  - cbn. rewrite app_nil_r. reflexivity.
  - cbn [Employee.commit_all Employee.accepted fold_left].
    change (fold_left (fun e0 a0 => snd (Employee.add_assignment e0 a0)) l
              (snd (Employee.add_assignment e a)))
      with (Employee.commit_all (snd (Employee.add_assignment e a)) l).
    rewrite IH.
    destruct (Employee.is_available e (Assignment.time_slot a)) eqn:Hav.
    + rewrite (add_assignment_accepted e a Hav). cbn [snd is_ok].
      destruct (update_hours_fields
                  (Employee.set_assignments e (Employee.assignments e ++ [a]))
                  (Assignment.time_slot a)) as (_ & _ & _ & Hasg & _).
      rewrite Hasg. cbn [Employee.set_assignments Employee.assignments].
      rewrite <- app_assoc. reflexivity.
    + rewrite (add_assignment_refused e a Hav). cbn [snd is_ok]. reflexivity.
Qed.

Lemma newly_constructed_hours_consistent (e : Employee.t) :
  newly_constructed e -> hours_consistent e.
Proof.
  intros (Ha & Hr & Ho & _).
  unfold hours_consistent, Employee.committed_hours.
  rewrite Ha, Hr, Ho. reflexivity.
Qed.

(** C3.  On an employee as the constructor leaves him, after any
    sequence of commits for slots of dyadic hours (whole, half and
    quarter hours among them, on which the float arithmetic of the code
    is exact), the assignments held are the commits that were accepted,
    in order, and [regular_hours_worked + overtime_hours_worked] is the
    sum of their durations.  When every commit succeeds the accepted
    commits are the whole sequence. *)
Theorem hours_total_is_committed_hours (e : Employee.t) (l : list Assignment.t) :
  newly_constructed e ->
  Forall (fun a => dyadic_hours (Assignment.time_slot a) = true) l ->
  let e' := Employee.commit_all e l in
  Employee.assignments e' = Employee.accepted e l
  /\ (Employee.regular_hours_worked e' + Employee.overtime_hours_worked e'
      == py_sum (map (fun a => TimeSlot.duration_hours (Assignment.time_slot a))
                     (Employee.accepted e l)))%Q
  /\ (Forall (fun a => dyadic_hours (Assignment.time_slot a) = true)
             (Employee.assignments e')).
Proof.
  intros He Hl e'.
  assert (Hasg : Employee.assignments e' = Employee.accepted e l).
  { unfold e'. rewrite commit_all_accepted.
    destruct He as (Ha & _). rewrite Ha. reflexivity. }
  split; [exact Hasg|]. split.
  - rewrite <- Hasg.
    exact (commit_all_hours_consistent e l
             (newly_constructed_hours_consistent e He)).
  - rewrite Hasg. clear Hasg e' He. revert e.
    induction Hl as [|a l Ha _ IH]; intros e; cbn [Employee.accepted].
    + constructor.
    + destruct (Employee.add_assignment e a) as [r e1].
      destruct (is_ok r); [constructor; [exact Ha|]|]; apply IH.
Qed.

Lemma hours_total_is_committed_hours_witness :
  let l := [commit_5h; commit_across; commit_4h] in
  let e' := Employee.commit_all fresh_editor l in
  Employee.accepted fresh_editor l = [commit_5h; commit_4h]
  /\ Employee.assignments e' = Employee.accepted fresh_editor l
  /\ (Employee.regular_hours_worked e' + Employee.overtime_hours_worked e'
      == py_sum (map (fun a => TimeSlot.duration_hours (Assignment.time_slot a))
                     (Employee.accepted fresh_editor l)))%Q
  /\ (Forall (fun a => dyadic_hours (Assignment.time_slot a) = true)
             (Employee.assignments e')).
Proof.
  intros l e'. split; [reflexivity|].
  apply (hours_total_is_committed_hours fresh_editor l).
  - repeat split.
  - repeat constructor.
Defined.

(** The two totals, as floats, after commits of 254 and of 231 minutes
    on one day: [regular + overtime] is [8.083333333333332] and the sum
    of the two durations is [8.083333333333334], one unit in the last
    place above.  Both commits are accepted. *)
Lemma float_totals_miss_committed_hours :
  (let f := FloatHours.commit_all (FloatHours.new fresh_editor)
              [commit_254min; commit_231min] in
   Employee.assignments (FloatHours.employee f)
   = [commit_254min; commit_231min]
   /\ (FloatHours.regular_hours_worked f + FloatHours.overtime_hours_worked f
       = 0x1.02aaaaaaaaaaap+3)%float
   /\ FloatHours.committed_hours f = 0x1.02aaaaaaaaaabp+3%float
   /\ (FloatHours.regular_hours_worked f + FloatHours.overtime_hours_worked f
       <? FloatHours.committed_hours f)%float = true)
  /\ ~ float_totals_add_up.
Proof.
  split; [vm_compute; repeat split|].
  intros H.
  specialize (H fresh_editor [commit_254min; commit_231min]).
  cbv zeta in H.
  assert (Hn : newly_constructed fresh_editor) by (repeat split).
  specialize (H Hn eq_refl). vm_compute in H. discriminate H.
Qed.

(** On such slots the floats agree with the sum: every two commits, one
    after the other, of slots that start and end on a half hour between
    08:00 and 17:30 of one day. *)
Lemma float_totals_add_up_on_half_hours :
  forallb
    (fun l =>
       let f := FloatHours.commit_all (FloatHours.new fresh_editor) l in
       (FloatHours.regular_hours_worked f + FloatHours.overtime_hours_worked f
        =? FloatHours.committed_hours f)%float)
    half_hour_commit_pairs = true.
Proof. vm_compute. reflexivity. Qed.

(** C1.  The split the code records for 5h then 4h on one day: the sum in
    [_update_hours] runs after the append and so counts the slot being
    committed; the first commit is split 3/2 and the second 0/4. *)
Theorem update_hours_5h_then_4h :
  let first := Employee.add_assignment fresh_editor commit_5h in
  let second := Employee.add_assignment (snd first) commit_4h in
  fst first = Ok tt
  /\ (Employee.regular_hours_worked (snd first) == 3)%Q
  /\ (Employee.overtime_hours_worked (snd first) == 2)%Q
  /\ fst second = Ok tt
  /\ (Employee.regular_hours_worked (snd second) == 3)%Q
  /\ (Employee.overtime_hours_worked (snd second) == 6)%Q.
Proof. vm_compute. repeat split. Qed.

(** C2.  The totals the code reaches for the same two slots of one day in
    the two commit orders: 3 regular and 6 overtime for 5h then 4h,
    4 regular and 5 overtime for 4h then 5h. *)
Theorem same_day_totals_depend_on_order :
  let e54 := Employee.commit_all fresh_editor [commit_5h; commit_4h] in
  let e45 := Employee.commit_all fresh_editor [commit_4h; commit_5h] in
  Permutation (Employee.assignments e54) (Employee.assignments e45)
  /\ (Employee.regular_hours_worked e54 == 3)%Q
  /\ (Employee.overtime_hours_worked e54 == 6)%Q
  /\ (Employee.regular_hours_worked e45 == 4)%Q
  /\ (Employee.overtime_hours_worked e45 == 5)%Q
  /\ ~ (Employee.overtime_hours_worked e54 == Employee.overtime_hours_worked e45)%Q.
Proof.
  vm_compute. repeat split; try discriminate.
  apply perm_swap.
Qed.

(** ** Construction of a project *)

Lemma nodup_length_le (l : list SkillType) :
  (length (nodup SkillType_eq_dec l) <= length l)%nat.
Proof.
  induction l as [|x l IH]; cbn; [lia|].
  destruct (in_dec SkillType_eq_dec x l); cbn; lia.
Qed.

Lemma distinct_count_full (l : list SkillType) :
  Project.distinct_count l = length l <-> NoDup l.
Proof.
  unfold Project.distinct_count. split.
  - induction l as [|x l IH]; cbn; [constructor|].
    pose proof (nodup_length_le l) as Hle.
    destruct (in_dec SkillType_eq_dec x l) as [Hin | Hnin]; cbn; intros H.
    + lia.
    + constructor; [exact Hnin | apply IH; lia].
  - intros H. rewrite (nodup_fixed_point SkillType_eq_dec H). reflexivity.
Qed.

(** C8.  The constructor of [Project] returns a project exactly when
    [required_skills] holds 5 skills, all different; in every other case
    (4 skills, a duplicate, ...) it raises the [ValueError] of
    [__post_init__] and no project is returned. *)
Theorem project_needs_five_distinct_skills
    (i : Z) (n : string) (ts : TimeSlot.t) (rs : list SkillType)
    (asg : list eref) (st : ProjectStatus) (pr : Z) (fx : bool) :
  match Project.new i n ts rs asg st pr fx with
  | Ok q => q = Project.mk i n ts rs asg st pr fx
            /\ length rs = 5%nat /\ NoDup rs
  | Raise (ValueError msg) =>
      ~ (length rs = 5%nat /\ NoDup rs)
      /\ (msg = MustRequireFiveSkills (length rs) \/ msg = SkillsMustBeDifferent)
  end.
Proof.
  unfold Project.new.
  destruct (length rs =? 5)%nat eqn:Hlen; cbn [negb].
  - apply Nat.eqb_eq in Hlen.
    destruct (Project.distinct_count rs =? 5)%nat eqn:Hd; cbn [negb].
    + apply Nat.eqb_eq in Hd. repeat split; [exact Hlen|].
      apply distinct_count_full. congruence.
    + apply Nat.eqb_neq in Hd. split; [|right; reflexivity].
      intros [_ Hnd]. apply distinct_count_full in Hnd. congruence.
  - apply Nat.eqb_neq in Hlen. split; [|left; reflexivity].
    intros [H _]. contradiction.
Qed.

(** Four skills, and five with a duplicate, are both refused. *)
Lemma project_four_skills_or_duplicate_refused :
  Project.new 1 "P" slot_5h [PRODUCER; EDITOR; COLORIST; AUDIO_ENGINEER]
              [] PENDING 5 true
  = Raise (ValueError (MustRequireFiveSkills 4))
  /\ Project.new 1 "P" slot_5h
                 [PRODUCER; EDITOR; COLORIST; AUDIO_ENGINEER; EDITOR]
                 [] PENDING 5 true
     = Raise (ValueError SkillsMustBeDifferent).
Proof. split; reflexivity. Qed.

(** ** Lookups by id *)

Lemma NoDup_snoc {A} (l : list A) (x : A) :
  NoDup l -> ~ In x l -> NoDup (l ++ [x]).
Proof.
  intros Hl Hx. induction Hl as [|y l Hy Hl IH]; cbn.
  - constructor; [intros []|constructor].
  - constructor.
    + rewrite in_app_iff. intros [H | [H | []]]; [contradiction|].
      subst. apply Hx. left. reflexivity.
    + apply IH. intros H. apply Hx. right. exact H.
Qed.

Lemma existsb_id_false {A} (key : A -> Z) (l : list A) (i : Z) :
  existsb (fun x => key x =? i) l = false -> ~ In i (map key l).
Proof.
  induction l as [|y l IH]; cbn; [intros _ []|].
  intros H. apply orb_false_iff in H. destruct H as [Hy Hl].
  apply Z.eqb_neq in Hy. intros [E | E]; [contradiction|].
  exact (IH Hl E).
Qed.

Lemma populated_unique_ids (s : Schedule.t) :
  populated s ->
  NoDup (map Employee.id (Schedule.employees s))
  /\ NoDup (map Project.id (Schedule.projects s)).
Proof.
  induction 1 as [| s e r s' Hs [IHe IHp] Hadd | s q r s' Hs [IHe IHp] Hadd].
  - cbn. split; constructor.
  - unfold Schedule.add_employee in Hadd.
    destruct (existsb _ _) eqn:Hex; inversion Hadd; subst; clear Hadd.
    + split; assumption.
    + cbn. split; [|exact IHp]. rewrite map_app. cbn.
      apply NoDup_snoc; [exact IHe|]. apply existsb_id_false. exact Hex.
  - unfold Schedule.add_project in Hadd.
    destruct (existsb _ _) eqn:Hex; inversion Hadd; subst; clear Hadd.
    + split; assumption.
    + cbn. split; [exact IHe|]. rewrite map_app. cbn.
      apply NoDup_snoc; [exact IHp|]. apply existsb_id_false. exact Hex.
Qed.

Lemma find_by_id {A} (key : A -> Z) (l : list A) (i : Z) :
  NoDup (map key l) ->
  match find (fun x => key x =? i) l with
  | None => forall x, In x l -> key x <> i
  | Some x => In x l /\ key x = i
              /\ forall y, In y l -> key y = i -> y = x
  end.
Proof.
  induction l as [|a l IH]; cbn; [intros _ x []|].
  intros Hnd. inversion Hnd as [|? ? Ha Hl]; subst.
  destruct (key a =? i) eqn:Ha'.
  - apply Z.eqb_eq in Ha'. split; [left; reflexivity|]. split; [exact Ha'|].
    intros y [E | Hy] Hk; [symmetry; exact E|].
    exfalso. apply Ha. rewrite Ha', <- Hk. apply in_map. exact Hy.
  - apply Z.eqb_neq in Ha'. specialize (IH Hl).
    destruct (find _ l) as [x|].
    + destruct IH as (Hin & Hk & Hu). split; [right; exact Hin|].
      split; [exact Hk|]. intros y [E | Hy] Hy'; [subst; contradiction|].
      apply Hu; assumption.
    + intros x [E | Hx]; [subst; exact Ha'|]. apply IH. exact Hx.
Qed.

(** C10.  In a schedule populated through [add_employee] and
    [add_project], a lookup by id returns [None] when no entity carries
    the id and otherwise the one entity that carries it; it never
    raises. *)
Theorem lookup_by_id_total (s : Schedule.t) (i : Z) :
  populated s ->
  match Schedule.get_employee_by_id s i with
  | None => forall e, In e (Schedule.employees s) -> Employee.id e <> i
  | Some e => In e (Schedule.employees s) /\ Employee.id e = i
              /\ forall e', In e' (Schedule.employees s) ->
                            Employee.id e' = i -> e' = e
  end
  /\ match Schedule.get_project_by_id s i with
     | None => forall q, In q (Schedule.projects s) -> Project.id q <> i
     | Some q => In q (Schedule.projects s) /\ Project.id q = i
                 /\ forall q', In q' (Schedule.projects s) ->
                               Project.id q' = i -> q' = q
     end.
Proof.
  intros Hs. destruct (populated_unique_ids s Hs) as [He Hp].
  split.
  - exact (find_by_id Employee.id (Schedule.employees s) i He).
  - exact (find_by_id Project.id (Schedule.projects s) i Hp).
Qed.

Lemma lookup_by_id_total_witness :
  populated small_schedule
  /\ match Schedule.get_employee_by_id small_schedule 2 with
     | None => forall e, In e (Schedule.employees small_schedule) ->
                         Employee.id e <> 2
     | Some e => In e (Schedule.employees small_schedule) /\ Employee.id e = 2
                 /\ forall e', In e' (Schedule.employees small_schedule) ->
                               Employee.id e' = 2 -> e' = e
     end
  /\ match Schedule.get_project_by_id small_schedule 2 with
     | None => forall q, In q (Schedule.projects small_schedule) ->
                         Project.id q <> 2
     | Some q => In q (Schedule.projects small_schedule) /\ Project.id q = 2
                 /\ forall q', In q' (Schedule.projects small_schedule) ->
                               Project.id q' = 2 -> q' = q
     end.
Proof.
  assert (Hs : populated small_schedule).
  { unfold small_schedule.
    eapply populated_project; [|apply surjective_pairing].
    eapply populated_employee; [|apply surjective_pairing].
    eapply populated_employee; [|apply surjective_pairing].
    apply populated_new. }
  split; [exact Hs|].
  exact (lookup_by_id_total small_schedule 2 Hs).
Defined.

(** ** References and owning lists *)

Lemma store_length {A} (k : nat) (x : A) (l : list A) :
  length (store k x l) = length l.
Proof.
  revert k. induction l as [|y l IH]; intros k; [reflexivity|].
  destruct k; cbn; [reflexivity|]. rewrite IH. reflexivity.
Qed.

Lemma nth_error_store_same {A} (k : nat) (x y : A) (l : list A) :
  nth_error l k = Some y -> nth_error (store k x l) k = Some x.
Proof.
  revert k. induction l as [|z l IH]; intros k H.
  - destruct k; discriminate.
  - destruct k; cbn in *; [reflexivity|]. apply IH. exact H.
Qed.

Lemma nth_error_store_other {A} (k j : nat) (x : A) (l : list A) :
  j <> k -> nth_error (store k x l) j = nth_error l j.
Proof.
  revert k j. induction l as [|z l IH]; intros k j H.
  - reflexivity.
  - destruct k, j; cbn; try reflexivity; [contradiction|].
    apply IH. intros E. apply H. rewrite E. reflexivity.
Qed.

Lemma Forall_store {A} (P : A -> Prop) (k : nat) (x : A) (l : list A) :
  P x -> Forall P l -> Forall P (store k x l).
Proof.
  intros Hx Hl. revert k. induction Hl as [|y l Hy Hl IH]; intros k.
  - constructor.
  - destruct k; cbn; constructor; auto.
Qed.

Lemma in_combine_seq {A} (l : list A) (n k : nat) (x : A) :
  In (k, x) (combine (seq n (length l)) l)
  <-> (n <= k)%nat /\ nth_error l (k - n) = Some x.
Proof.
  revert n. induction l as [|y l IH]; intros n; cbn.
  - split; [intros []|]. intros [_ H]. destruct (k - n)%nat; discriminate.
  - rewrite IH. split.
    + intros [E | [Hle Hn]].
      * inversion E; subst. rewrite Nat.sub_diag. split; [lia|reflexivity].
      * split; [lia|]. replace (k - n)%nat with (S (k - S n)) by lia. exact Hn.
    + intros [Hle Hn]. destruct (Nat.eq_dec n k) as [E | E].
      * subst. rewrite Nat.sub_diag in Hn. cbn in Hn. left. congruence.
      * right. split; [lia|].
        replace (k - n)%nat with (S (k - S n)) in Hn by lia. exact Hn.
Qed.

Lemma in_enumerate {A} (l : list A) (k : nat) (x : A) :
  In (k, x) (enumerate l) <-> nth_error l k = Some x.
Proof.
  unfold enumerate. rewrite in_combine_seq, Nat.sub_0_r.
  split; [intros [_ H]; exact H|]. intros H. split; [lia|exact H].
Qed.

Lemma in_enumerate_snd {A} (l : list A) (kx : nat * A) :
  In kx (enumerate l) -> In (snd kx) l.
Proof.
  destruct kx as [k x]. rewrite in_enumerate. apply nth_error_In.
Qed.

(** ** Sorting *)

Lemma insert_by_perm {A} (le : A -> A -> bool) (x : A) (l : list A) :
  Permutation (insert_by le x l) (x :: l).
Proof.
  induction l as [|y l IH]; cbn; [reflexivity|].
  destruct (le x y); [reflexivity|].
  rewrite IH. apply perm_swap.
Qed.

Lemma sort_by_perm {A} (le : A -> A -> bool) (l : list A) :
  Permutation (sort_by le l) l.
Proof.
  induction l as [|x l IH]; cbn; [reflexivity|].
  rewrite insert_by_perm. constructor. exact IH.
Qed.

(** ** Overlap *)

Lemma overlaps_with_sym (a b : TimeSlot.t) :
  TimeSlot.overlaps_with a b = TimeSlot.overlaps_with b a.
Proof.
  unfold TimeSlot.overlaps_with. f_equal.
  rewrite orb_comm. rewrite !Z.geb_leb. reflexivity.
Qed.

Lemma overlaps_with_self (a : TimeSlot.t) :
  TimeSlot.valid a -> TimeSlot.overlaps_with a a = true.
Proof.
  unfold TimeSlot.valid, TimeSlot.overlaps_with. intros H.
  rewrite Z.geb_leb.
  replace (TimeSlot.end_ a <=? TimeSlot.start a) with false
    by (symmetry; apply Z.leb_gt; lia).
  reflexivity.
Qed.

Lemma touching_slots_do_not_overlap (a b : TimeSlot.t) :
  TimeSlot.end_ a = TimeSlot.start b -> TimeSlot.overlaps_with a b = false.
Proof.
  unfold TimeSlot.overlaps_with. intros H. rewrite H, Z.leb_refl. reflexivity.
Qed.

(** ** Commits keep an employee free of conflicts *)

Lemma pairwise_disjoint_snoc (l : list TimeSlot.t) (x : TimeSlot.t) :
  pairwise_disjoint l = true ->
  forallb (fun s => disjoint_slots s x) l = true ->
  pairwise_disjoint (l ++ [x]) = true.
Proof.
  induction l as [|s l IH]; cbn; [reflexivity|].
  intros H1 H2.
  apply andb_true_iff in H1. destruct H1 as [Hs Hl].
  apply andb_true_iff in H2. destruct H2 as [Hsx Hlx].
  rewrite forallb_app, Hs, (IH Hl Hlx). cbn. rewrite Hsx. reflexivity.
Qed.

Lemma pairwise_disjoint_perm (l l' : list TimeSlot.t) :
  Permutation l l' -> pairwise_disjoint l = true -> pairwise_disjoint l' = true.
Proof.
  induction 1 as [| x l l' Hp IH | x y l | l l' l'' _ IH1 _ IH2]; cbn.
  - trivial.
  - intros H. apply andb_true_iff in H. destruct H as [Hx Hl].
    rewrite (IH Hl), andb_true_r.
    apply forallb_forall. intros s Hs.
    rewrite forallb_forall in Hx. apply Hx.
    apply Permutation_in with (l := l'); [symmetry; exact Hp | exact Hs].
  - intros H. repeat (apply andb_true_iff in H; destruct H as [? H]).
    repeat (match goal with H : _ && _ = true |- _ =>
                              apply andb_true_iff in H; destruct H end).
    unfold disjoint_slots in *. rewrite overlaps_with_sym.
    repeat (apply andb_true_iff; split); assumption.
  - auto.
Qed.

Lemma is_available_true (e : Employee.t) (ts : TimeSlot.t) :
  Employee.is_available e ts = true ->
  forallb (disjoint_slots ts) (Employee.unavailable_slots e) = true
  /\ forallb (fun a => disjoint_slots ts (Assignment.time_slot a))
             (Employee.assignments e) = true.
Proof.
  unfold Employee.is_available. intros H.
  apply andb_true_iff in H. destruct H as [Hu Ha].
  apply negb_true_iff in Hu, Ha. split.
  - apply forallb_forall. intros u Hin. unfold disjoint_slots.
    apply negb_true_iff.
    destruct (TimeSlot.overlaps_with ts u) eqn:E; [|reflexivity].
    rewrite <- Hu. symmetry. apply existsb_exists. exists u. split; assumption.
  - apply forallb_forall. intros a Hin. unfold disjoint_slots.
    apply negb_true_iff.
    destruct (TimeSlot.overlaps_with ts (Assignment.time_slot a)) eqn:E;
      [|reflexivity].
    rewrite <- Ha. symmetry. apply existsb_exists. exists a. split; assumption.
Qed.

Lemma add_assignment_conflict_free (e : Employee.t) (a : Assignment.t) :
  conflict_free e = true ->
  conflict_free (snd (Employee.add_assignment e a)) = true.
Proof.
  intros He. unfold Employee.add_assignment.
  destruct (Employee.is_available e (Assignment.time_slot a)) eqn:Hav;
    cbn [negb snd]; [|exact He].
  destruct (is_available_true _ _ Hav) as [Hu Ha].
  unfold conflict_free in *.
  destruct (update_hours_fields
              (Employee.set_assignments e (Employee.assignments e ++ [a]))
              (Assignment.time_slot a)) as (_ & _ & _ & Hasg & Hun).
  rewrite Hasg, Hun. cbn.
  apply andb_true_iff in He. destruct He as [Hpd Hfa].
  rewrite map_app. cbn [map].
  rewrite pairwise_disjoint_snoc; [| exact Hpd |].
  - rewrite forallb_app, Hfa. cbn. rewrite Hu. reflexivity.
  - rewrite forallb_forall in Ha. apply forallb_forall. intros s Hs.
    apply in_map_iff in Hs. destruct Hs as (b & <- & Hb).
    unfold disjoint_slots in *. rewrite overlaps_with_sym. apply Ha. exact Hb.
Qed.

(** ** The conflict detector on a conflict-free employee *)

Lemma overlapping_pairs_nil (l : list Assignment.t) :
  pairwise_disjoint (map Assignment.time_slot l) = true ->
  ConflictDetector.overlapping_pairs l = [].
Proof.
  induction l as [|a l IH]; cbn; [reflexivity|].
  intros H. apply andb_true_iff in H. destruct H as [Ha Hl].
  rewrite (IH Hl), app_nil_r.
  replace (filter _ l) with (@nil Assignment.t); [reflexivity|].
  symmetry. clear IH Hl. induction l as [|b l IH]; cbn in *; [reflexivity|].
  apply andb_true_iff in Ha. destruct Ha as [Hb Hl].
  unfold disjoint_slots in Hb. apply negb_true_iff in Hb. rewrite Hb.
  apply IH. exact Hl.
Qed.

Lemma conflict_free_no_conflicts (e : Employee.t) :
  conflict_free e = true -> ConflictDetector.find_employee_conflicts e = [].
Proof.
  unfold conflict_free, ConflictDetector.find_employee_conflicts. intros H.
  apply andb_true_iff in H. destruct H as [H _].
  apply overlapping_pairs_nil.
  apply pairwise_disjoint_perm with (l := map Assignment.time_slot
                                              (Employee.assignments e));
    [|exact H].
  apply Permutation_map. symmetry. apply sort_by_perm.
Qed.

(** ** Selection of a candidate *)

Lemma score_all_spec (g : GreedyScheduler.t)
    (cands : list (eref * Employee.t)) (project : Project.t) (w : World) :
  exists scored w',
    GreedyScheduler.score_all g cands project w = (Ok scored, w')
    /\ schedule_of w' = schedule_of w
    /\ map snd scored = cands.
Proof.
  revert w. induction cands as [|c cands IH]; intros w; cbn.
  - exists [], w. repeat split.
  - unfold bind.
    match goal with
    | |- context [GreedyScheduler.score_all g cands project ?w1] =>
        destruct (IH w1) as (scored & w' & Hrun & Hs & Hm)
    end.
    rewrite Hrun. unfold ret.
    eexists. exists w'. split; [reflexivity|]. split; [exact Hs|].
    cbn. rewrite Hm. reflexivity.
Qed.

Lemma select_best_spec (g : GreedyScheduler.t)
    (cands : list (eref * Employee.t)) (project : Project.t) (w : World) :
  cands <> [] ->
  exists best w',
    GreedyScheduler._select_best_employee g cands project w = (Ok best, w')
    /\ schedule_of w' = schedule_of w
    /\ In best cands.
Proof.
  intros Hne. destruct cands as [|c1 [|c2 cands]]; [contradiction | |].
  - exists c1, w. cbn. repeat split. left. reflexivity.
  - unfold GreedyScheduler._select_best_employee.
    destruct (score_all_spec g (c1 :: c2 :: cands) project w)
      as (scored & w' & Hrun & Hs & Hm).
    unfold bind. rewrite Hrun.
    destruct (sort_by GreedyScheduler.by_score_desc scored) as [|best rest] eqn:Hsort.
    + exists c1, w'. cbn. repeat split; [exact Hs | left; reflexivity].
    + exists (snd best), w'. cbn [ret]. repeat split; [exact Hs|].
      rewrite <- Hm. apply in_map.
      apply Permutation_in with (l := sort_by GreedyScheduler.by_score_desc scored).
      * apply sort_by_perm.
      * rewrite Hsort. left. reflexivity.
Qed.

Lemma available_employee (s : Schedule.t) (ts : TimeSlot.t)
    (skill : SkillType) (ke : eref * Employee.t) :
  In ke (Schedule.get_available_employees s ts skill) ->
  nth_error (Schedule.employees s) (fst ke) = Some (snd ke)
  /\ Employee.has_skill (snd ke) skill = true
  /\ Employee.is_available (snd ke) ts = true.
Proof.
  unfold Schedule.get_available_employees. rewrite filter_In.
  intros [Hin Hp]. apply andb_true_iff in Hp.
  destruct ke as [k e]. apply in_enumerate in Hin. cbn. tauto.
Qed.

(** ** A commit is refused before anything is written *)

Lemma can_assign_available (emps : list Employee.t) (q : Project.t)
    (k : eref) (e : Employee.t) :
  Project.can_assign_employee emps q k e = true ->
  Employee.is_available e (Project.time_slot q) = true.
Proof.
  unfold Project.can_assign_employee.
  destruct (existsb _ _); [discriminate|].
  destruct (Project.is_fully_staffed q); [discriminate|].
  destruct (negb (existsb _ _)); [discriminate|].
  destruct (Employee.is_available e (Project.time_slot q)); [reflexivity|].
  discriminate.
Qed.

Lemma project_assign_refused (emps : list Employee.t) (p : pref)
    (q : Project.t) (k : eref) (e : Employee.t) :
  Project.can_assign_employee emps q k e = false ->
  Project.assign_employee emps p q k e
  = (Raise (ValueError (CannotAssign (Employee.name e) (Project.name q))),
     (emps, q)).
Proof. intros H. unfold Project.assign_employee. rewrite H. reflexivity. Qed.

Lemma project_assign_accepted (emps : list Employee.t) (p : pref)
    (q : Project.t) (k : eref) (e : Employee.t) :
  Project.can_assign_employee emps q k e = true ->
  let q1 := Project.set_assigned_employees q (Project.assigned_employees q ++ [k]) in
  let e' := snd (Employee.add_assignment e (Assignment.mk k p (Project.time_slot q))) in
  Project.assign_employee emps p q k e
  = (Ok tt, (store k e' emps,
             if Project.is_fully_staffed q1
             then Project.set_status q1 SCHEDULED else q1)).
Proof.
  intros H. pose proof (can_assign_available _ _ _ _ H) as Hav.
  unfold Project.assign_employee. rewrite H. cbn [negb Project.time_slot
    Project.set_assigned_employees].
  rewrite add_assignment_accepted by exact Hav. cbn [snd].
  destruct (Project.is_fully_staffed _); reflexivity.
Qed.

Lemma project_assign_raises_unchanged (emps : list Employee.t) (p : pref)
    (q : Project.t) (k : eref) (e : Employee.t) :
  is_ok (fst (Project.assign_employee emps p q k e)) = false ->
  snd (Project.assign_employee emps p q k e) = (emps, q).
Proof.
  destruct (Project.can_assign_employee emps q k e) eqn:H.
  - rewrite (project_assign_accepted _ p _ _ _ H). cbn. discriminate.
  - rewrite (project_assign_refused _ p _ _ _ H). reflexivity.
Qed.

Lemma store_same {A} (k : nat) (x : A) (l : list A) :
  nth_error l k = Some x -> store k x l = l.
Proof.
  revert k. induction l as [|y l IH]; intros k H; [reflexivity|].
  destruct k; cbn in *; [congruence|]. rewrite IH by exact H. reflexivity.
Qed.

Lemma assign_employee_refused (p : pref) (q : Project.t) (k : eref)
    (e : Employee.t) (w : World) :
  project_at w p = Some q ->
  Project.can_assign_employee (Schedule.employees (schedule_of w)) q k e = false ->
  assign_employee p (k, e) w
  = (Raise (ValueError (CannotAssign (Employee.name e) (Project.name q))), w).
Proof.
  intros Hq Hc. unfold assign_employee. rewrite Hq. cbn [fst snd].
  rewrite (project_assign_refused _ p _ _ _ Hc).
  unfold project_at in Hq. rewrite (store_same _ _ _ Hq).
  destruct w as [[emps projs] gen]. reflexivity.
Qed.

Lemma assign_employee_accepted (p : pref) (q : Project.t) (k : eref)
    (e : Employee.t) (w : World) :
  project_at w p = Some q ->
  Project.can_assign_employee (Schedule.employees (schedule_of w)) q k e = true ->
  assign_employee p (k, e) w
  = (Ok tt, mkWorld (committed (schedule_of w) p q k e) (generator_of w)).
Proof.
  intros Hq Hc. unfold assign_employee. rewrite Hq. cbn [fst snd].
  rewrite (project_assign_accepted _ p _ _ _ Hc). reflexivity.
Qed.

(** ** Invariants of a greedy run *)

Section GreedyInvariant.

Variable Inv : Schedule.t -> Prop.

(** Every accepted commit of an employee of the schedule to a project of
    the schedule keeps the invariant. *)
Hypothesis Inv_commit :
  forall (s : Schedule.t) (p : pref) (q : Project.t) (k : eref) (e : Employee.t),
    Inv s ->
    nth_error (Schedule.projects s) p = Some q ->
    nth_error (Schedule.employees s) k = Some e ->
    Project.can_assign_employee (Schedule.employees s) q k e = true ->
    Inv (committed s p q k e).

Variable g : GreedyScheduler.t.

Lemma skills_loop_inv (p : pref) (skills : list SkillType) (w : World) :
  exists b w',
    GreedyScheduler.skills_loop g p skills w = (Ok b, w')
    /\ (Inv (schedule_of w) -> Inv (schedule_of w')).
Proof.
  revert w. induction skills as [|skill rest IH]; intros w; cbn.
  - destruct (project_at w p); eexists; exists w; (split; [reflexivity|tauto]).
  - destruct (project_at w p) as [q|] eqn:Hq;
      [|exists false, w; split; [reflexivity|tauto]].
    destruct (Schedule.get_available_employees _ _ skill) as [|c cs] eqn:Hav;
      [exists false, w; split; [reflexivity|tauto]|].
    destruct (select_best_spec g (c :: cs) q w) as (best & w1 & Hsel & Hs1 & Hin);
      [discriminate|].
    unfold bind at 1. rewrite Hsel.
    rewrite <- Hav in Hin. apply available_employee in Hin.
    destruct Hin as (Hnth & _ & _).
    assert (Hq1 : project_at w1 p = Some q)
      by (unfold project_at in *; rewrite Hs1; exact Hq).
    destruct best as [k e]. cbn [fst snd] in Hnth.
    unfold bind, try_except.
    destruct (Project.can_assign_employee
                (Schedule.employees (schedule_of w1)) q k e) eqn:Hc.
    + rewrite (assign_employee_accepted _ _ _ _ _ Hq1 Hc).
      match goal with
      | |- context [GreedyScheduler.skills_loop g p rest ?w2] =>
          destruct (IH w2) as (b & w' & Hrun & Hinv)
      end.
      exists b, w'. split; [exact Hrun|]. intros HI. apply Hinv. cbn.
      apply Inv_commit.
      * rewrite Hs1. exact HI.
      * exact Hq1.
      * rewrite Hs1. exact Hnth.
      * exact Hc.
    + rewrite (assign_employee_refused _ _ _ _ _ Hq1 Hc).
      destruct (IH w1) as (b & w' & Hrun & Hinv).
      exists b, w'. split; [exact Hrun|]. rewrite <- Hs1. exact Hinv.
Qed.

Lemma schedule_project_inv (p : pref) (w : World) :
  exists b w',
    GreedyScheduler._schedule_project g p w = (Ok b, w')
    /\ (Inv (schedule_of w) -> Inv (schedule_of w')).
Proof.
  unfold GreedyScheduler._schedule_project.
  destruct (project_at w p); [apply skills_loop_inv|].
  exists false, w. split; [reflexivity|tauto].
Qed.

Lemma projects_loop_inv (l : list pref) (n : nat)
    (failed : list FailedProject) (w : World) :
  exists out w',
    GreedyScheduler.projects_loop g l n failed w = (Ok out, w')
    /\ (Inv (schedule_of w) -> Inv (schedule_of w')).
Proof.
  revert n failed w. induction l as [|p rest IH]; intros n failed w; cbn.
  - exists (n, failed), w. split; [reflexivity|tauto].
  - destruct (project_at w p) as [q|]; [|apply IH].
    destruct (Project.is_fully_staffed q); [apply IH|].
    destruct (schedule_project_inv p w) as (b & w1 & Hrun & Hinv).
    unfold bind. rewrite Hrun.
    destruct b.
    + destruct (IH (n + 1)%nat failed w1) as (out & w' & Hrun' & Hinv').
      exists out, w'. split; [exact Hrun'|tauto].
    + destruct (project_at w1 p) as [q'|].
      * match goal with
        | |- context [GreedyScheduler.projects_loop g rest n ?f w1] =>
            destruct (IH n f w1) as (out & w' & Hrun' & Hinv')
        end.
        exists out, w'. split; [exact Hrun'|tauto].
      * destruct (IH n failed w1) as (out & w' & Hrun' & Hinv').
        exists out, w'. split; [exact Hrun'|tauto].
Qed.

(** A greedy run returns normally and keeps the invariant. *)
Lemma schedule_inv (w : World) :
  exists r w',
    GreedyScheduler.schedule g w = (Ok r, w')
    /\ (Inv (schedule_of w) -> Inv (schedule_of w')).
Proof.
  unfold GreedyScheduler.schedule.
  destruct (projects_loop_inv (GreedyScheduler.sorted_projects (schedule_of w))
              0%nat [] w) as ([n failed] & w' & Hrun & Hinv).
  unfold bind. rewrite Hrun.
  destruct failed; eexists; exists w'; (split; [reflexivity|exact Hinv]).
Qed.

End GreedyInvariant.

(** ** The optimized strategy *)

Lemma improvement_loop_noop (o : OptimizedScheduler.t) (its : list nat)
    (vars : Q * nat) (w : World) :
  exists best,
    OptimizedScheduler.improvement_loop o its vars w = (Ok (best, snd vars), w).
Proof.
  revert vars. induction its as [|it its IH]; intros vars; cbn.
  - exists (fst vars). destruct vars. reflexivity.
  - unfold bind, OptimizedScheduler.improvement_step.
    cbn [OptimizedScheduler._attempt_improvement ret].
    destruct (Qlt_bool _ _);
      match goal with
      | |- context [OptimizedScheduler.improvement_loop o its ?v w] =>
          destruct (IH v) as (best & Hrun)
      end; exists best; rewrite Hrun; reflexivity.
Qed.

Lemma greedy_returns (g : GreedyScheduler.t) (w : World) :
  exists r w', GreedyScheduler.schedule g w = (Ok r, w').
Proof.
  destruct (schedule_inv (fun _ => True) (fun _ _ _ _ _ _ _ _ _ => I) g w)
    as (r & w' & Hrun & _).
  exists r, w'. exact Hrun.
Qed.

(** The optimized scheduler ends in the world its greedy scheduler ends
    in and reports the same outcome. *)
Lemma optimized_runs_greedy (o : OptimizedScheduler.t) (w : World) :
  exists ro rg w',
    OptimizedScheduler.schedule o w = (Ok ro, w')
    /\ GreedyScheduler.schedule (OptimizedScheduler.greedy_scheduler o) w
       = (Ok rg, w')
    /\ staffed_count (schedule_of w') = fully_staffed_projects (statistics rg)
    /\ success ro = success rg
    /\ scheduled_projects ro = scheduled_projects rg
    /\ failed_projects ro = failed_projects rg
    /\ warnings ro = warnings rg
    /\ statistics ro = statistics rg.
Proof.
  destruct (greedy_returns (OptimizedScheduler.greedy_scheduler o) w)
    as (rg & w' & Hg).
  assert (Hstat : statistics rg = GreedyScheduler._calculate_statistics (schedule_of w')).
  { unfold GreedyScheduler.schedule, bind in Hg.
    destruct (GreedyScheduler.projects_loop _ _ _ _ w) as [[[n failed]|e] w1];
      [|discriminate].
    destruct failed; inversion Hg; subst; reflexivity. }
  unfold OptimizedScheduler.schedule, OptimizedScheduler.schedule_body.
  unfold bind at 1. rewrite Hg.
  destruct (success rg) eqn:Hsucc; cbn [negb].
  - unfold bind.
    match goal with
    | |- context [OptimizedScheduler.improvement_loop o ?its ?v w'] =>
        destruct (improvement_loop_noop o its v w') as (best & Hloop)
    end.
    rewrite Hloop.
    eexists. exists rg, w'. split; [reflexivity|]. split; [reflexivity|].
    cbn. rewrite Hstat. repeat split. symmetry. exact Hsucc.
  - exists rg, rg, w'. cbn. rewrite Hstat. repeat split.
Qed.

(** C9.  The optimized strategy ends in the world the greedy strategy
    (with its default options) ends in: same assignments, same number of
    fully staffed projects, same counts, failures and statistics; its
    improvement pass changes nothing. *)
Theorem optimized_is_greedy (max_iterations : Z) (temperature : Q) (w : World) :
  exists ro rg w',
    OptimizedScheduler.schedule
      (OptimizedScheduler.new max_iterations temperature) w = (Ok ro, w')
    /\ GreedyScheduler.schedule GreedyScheduler.default w = (Ok rg, w')
    /\ staffed_count (schedule_of w') = fully_staffed_projects (statistics rg)
    /\ success ro = success rg
    /\ scheduled_projects ro = scheduled_projects rg
    /\ failed_projects ro = failed_projects rg
    /\ warnings ro = warnings rg
    /\ statistics ro = statistics rg.
Proof.
  exact (optimized_runs_greedy
           (OptimizedScheduler.new max_iterations temperature) w).
Qed.

(** ** No conflict after a run *)

Lemma commit_keeps_conflict_free (s : Schedule.t) (p : pref) (q : Project.t)
    (k : eref) (e : Employee.t) :
  all_conflict_free s ->
  nth_error (Schedule.projects s) p = Some q ->
  nth_error (Schedule.employees s) k = Some e ->
  Project.can_assign_employee (Schedule.employees s) q k e = true ->
  all_conflict_free (committed s p q k e).
Proof.
  unfold all_conflict_free. intros Hs _ He _. cbn.
  apply Forall_store; [|exact Hs].
  apply add_assignment_conflict_free.
  rewrite Forall_forall in Hs. apply Hs. apply nth_error_In with (n := k).
  exact He.
Qed.

Lemma strategy_returns (strategy : SchedulingStrategy) (w : World) :
  exists g r w',
    strategy_schedule strategy w = (Ok r, w')
    /\ GreedyScheduler.schedule g w = (fst (GreedyScheduler.schedule g w), w').
Proof.
  destruct strategy as [g | o]; cbn.
  - destruct (greedy_returns g w) as (r & w' & Hg).
    exists g, r, w'. rewrite Hg. split; reflexivity.
  - destruct (optimized_runs_greedy o w) as (ro & rg & w' & Ho & Hg & _).
    exists (OptimizedScheduler.greedy_scheduler o), ro, w'.
    rewrite Hg. split; [exact Ho | reflexivity].
Qed.

(** C4.  After a run of either strategy on a schedule whose employees
    are free of conflicts, every employee still is (no two assignments
    overlap, none overlaps an unavailable slot) and the conflict detector
    returns no pair; a commit for a slot the employee is not available
    for raises and leaves employee and project as they were. *)
Theorem run_leaves_no_conflict (strategy : SchedulingStrategy) (w : World) :
  all_conflict_free (schedule_of w) ->
  (exists r w',
     strategy_schedule strategy w = (Ok r, w')
     /\ Forall (fun e => conflict_free e = true
                         /\ ConflictDetector.find_employee_conflicts e = [])
               (Schedule.employees (schedule_of w')))
  /\ (forall e a,
        Employee.is_available e (Assignment.time_slot a) = false ->
        exists x, Employee.add_assignment e a = (Raise x, e))
  /\ (forall emps p q k e,
        Employee.is_available e (Project.time_slot q) = false ->
        exists x, Project.assign_employee emps p q k e = (Raise x, (emps, q))).
Proof.
  intros Hw. split; [|split].
  - destruct (strategy_returns strategy w) as (g & r & w' & Hrun & Hg).
    exists r, w'. split; [exact Hrun|].
    destruct (schedule_inv all_conflict_free commit_keeps_conflict_free g w)
      as (r1 & w1 & Hrun1 & Hinv).
    rewrite Hrun1 in Hg. inversion Hg; subst w1.
    specialize (Hinv Hw). unfold all_conflict_free in Hinv.
    eapply Forall_impl; [|exact Hinv].
    intros e He. split; [exact He|].
    apply conflict_free_no_conflicts. exact He.
  - intros e a H. eexists. apply add_assignment_refused. exact H.
  - intros emps p q k e H. eexists. apply project_assign_refused.
    destruct (Project.can_assign_employee emps q k e) eqn:Hc; [|reflexivity].
    apply can_assign_available in Hc. congruence.
Qed.

(** The team of five and two projects that touch: after the run every
    employee holds the two assignments, 09:00-14:00 and 14:00-18:00, and
    a further commit across them is refused. *)
Lemma run_leaves_no_conflict_witness :
  let w := mkWorld two_projects seeded in
  let run := strategy_schedule (Greedy GreedyScheduler.default) w in
  map (fun e => map Assignment.time_slot (Employee.assignments e))
      (Schedule.employees (schedule_of (snd run)))
  = repeat [slot_5h; slot_4h] 5
  /\ (exists r w',
        run = (Ok r, w')
        /\ Forall (fun e => conflict_free e = true
                            /\ ConflictDetector.find_employee_conflicts e = [])
                  (Schedule.employees (schedule_of w')))
  /\ Forall (fun e => exists x,
               Employee.add_assignment e commit_across = (Raise x, e))
            (Schedule.employees (schedule_of (snd run))).
Proof.
  intros w run.
  assert (H : all_conflict_free (schedule_of w)) by (repeat constructor).
  pose proof (run_leaves_no_conflict (Greedy GreedyScheduler.default) w H)
    as (Hrun & Hcommit & _).
  split; [vm_compute; reflexivity|].
  split; [exact Hrun|].
  apply Forall_forall. intros e He. apply Hcommit.
  revert e He. apply Forall_forall. vm_compute. repeat constructor.
Defined.

(** ** Determinism in the state of the generator *)

Lemma same_inputs_refl (w : World) : same_inputs w w.
Proof. split; [reflexivity|]. intros k. reflexivity. Qed.

Lemma det_ret {A} (a : A) : deterministic (ret a).
Proof. intros w1 w2 H. split; [reflexivity|exact H]. Qed.

Lemma det_raise {A} (e : Exception) : deterministic (@raise A e).
Proof. intros w1 w2 H. split; [reflexivity|exact H]. Qed.

Lemma det_bind {A B} (m : M A) (f : A -> M B) :
  deterministic m -> (forall a, deterministic (f a)) ->
  deterministic (bind m f).
Proof.
  intros Hm Hf w1 w2 H. unfold bind.
  destruct (Hm w1 w2 H) as [Hr Hw].
  destruct (m w1) as [r1 w1'], (m w2) as [r2 w2']. cbn in Hr, Hw. subst r2.
  destruct r1 as [a|e]; [apply Hf; exact Hw|].
  split; [reflexivity|exact Hw].
Qed.

Lemma det_try_except {A} (m : M A) :
  deterministic m -> deterministic (try_except m).
Proof.
  intros Hm w1 w2 H. unfold try_except.
  destruct (Hm w1 w2 H) as [_ Hw].
  destruct (m w1) as [r1 w1'], (m w2) as [r2 w2'].
  split; [reflexivity|exact Hw].
Qed.

Lemma det_score (g : GreedyScheduler.t) (e : Employee.t) (q : Project.t) :
  deterministic (GreedyScheduler._calculate_employee_score g e q).
Proof.
  intros w1 w2 [Hs Hg]. unfold GreedyScheduler._calculate_employee_score.
  cbn. pose proof (Hg 0%nat) as H0. rewrite !Nat.add_0_r in H0.
  rewrite H0. split; [reflexivity|]. split; [exact Hs|].
  intros k. cbn. specialize (Hg (S k)).
  rewrite !Nat.add_succ_r in Hg. exact Hg.
Qed.

Lemma det_score_all (g : GreedyScheduler.t)
    (cands : list (eref * Employee.t)) (q : Project.t) :
  deterministic (GreedyScheduler.score_all g cands q).
Proof.
  induction cands as [|c cands IH]; cbn [GreedyScheduler.score_all].
  - apply det_ret.
  - apply det_bind; [apply det_score|]. intros score.
    apply det_bind; [exact IH|]. intros scored. apply det_ret.
Qed.

Lemma det_select_best (g : GreedyScheduler.t)
    (cands : list (eref * Employee.t)) (q : Project.t) :
  deterministic (GreedyScheduler._select_best_employee g cands q).
Proof.
  unfold GreedyScheduler._select_best_employee.
  destruct cands as [|c1 [|c2 cands]].
  - apply det_raise.
  - apply det_ret.
  - apply det_bind; [apply det_score_all|]. intros scored.
    destruct (sort_by _ scored); apply det_ret.
Qed.

Lemma det_assign_employee (p : pref) (best : eref * Employee.t) :
  deterministic (assign_employee p best).
Proof.
  intros w1 w2 [Hs Hg]. unfold assign_employee, project_at.
  rewrite <- Hs.
  destruct (nth_error _ p) as [q|]; [|split; [reflexivity|split; assumption]].
  destruct (Project.assign_employee _ p q (fst best) (snd best))
    as [r [emps' q']].
  split; [reflexivity|]. split; [reflexivity|exact Hg].
Qed.

Lemma det_skills_loop (g : GreedyScheduler.t) (p : pref)
    (skills : list SkillType) :
  deterministic (GreedyScheduler.skills_loop g p skills).
Proof.
  induction skills as [|skill rest IH]; cbn [GreedyScheduler.skills_loop].
  - intros w1 w2 H. unfold project_at. replace (schedule_of w2)
      with (schedule_of w1) by apply H.
    destruct (nth_error _ p); (split; [reflexivity|exact H]).
  - intros w1 w2 H. unfold project_at. replace (schedule_of w2)
      with (schedule_of w1) by apply H.
    destruct (nth_error _ p) as [q|]; [|split; [reflexivity|exact H]].
    destruct (Schedule.get_available_employees _ _ skill) as [|c cs];
      [split; [reflexivity|exact H]|].
    revert w1 w2 H.
    apply det_bind; [apply det_select_best|]. intros best.
    apply det_bind; [apply det_try_except, det_assign_employee|].
    intros _. exact IH.
Qed.

Lemma det_schedule_project (g : GreedyScheduler.t) (p : pref) :
  deterministic (GreedyScheduler._schedule_project g p).
Proof.
  intros w1 w2 H. unfold GreedyScheduler._schedule_project, project_at.
  replace (schedule_of w2) with (schedule_of w1) by apply H.
  destruct (nth_error _ p) as [q|]; [|split; [reflexivity|exact H]].
  apply det_skills_loop. exact H.
Qed.

Lemma det_projects_loop (g : GreedyScheduler.t) (l : list pref)
    (n : nat) (failed : list FailedProject) :
  deterministic (GreedyScheduler.projects_loop g l n failed).
Proof.
  revert n failed. induction l as [|p rest IH]; intros n failed;
    cbn [GreedyScheduler.projects_loop].
  - apply det_ret.
  - intros w1 w2 H. unfold project_at.
    replace (schedule_of w2) with (schedule_of w1) by apply H.
    destruct (nth_error _ p) as [q|]; [|apply IH; exact H].
    destruct (Project.is_fully_staffed q); [apply IH; exact H|].
    revert w1 w2 H.
    apply det_bind; [apply det_schedule_project|]. intros [|].
    + apply IH.
    + intros w1 w2 H. unfold project_at.
      replace (schedule_of w2) with (schedule_of w1) by apply H.
      destruct (nth_error _ p) as [q'|]; apply IH; exact H.
Qed.

Lemma det_greedy (g : GreedyScheduler.t) :
  deterministic (GreedyScheduler.schedule g).
Proof.
  intros w1 w2 H. unfold GreedyScheduler.schedule.
  replace (schedule_of w2) with (schedule_of w1) by apply H.
  generalize (GreedyScheduler.sorted_projects (schedule_of w1)). intros l.
  revert w1 w2 H.
  apply det_bind; [apply det_projects_loop|]. intros [n failed] w1 w2 H.
  replace (schedule_of w2) with (schedule_of w1) by apply H.
  destruct failed; (split; [reflexivity|exact H]).
Qed.

Lemma det_improvement_loop (o : OptimizedScheduler.t) (its : list nat)
    (vars : Q * nat) :
  deterministic (OptimizedScheduler.improvement_loop o its vars).
Proof.
  revert vars. induction its as [|it its IH]; intros vars;
    cbn [OptimizedScheduler.improvement_loop].
  - apply det_ret.
  - apply det_bind; [|intros v; apply IH].
    intros w1 w2 H. unfold OptimizedScheduler.improvement_step.
    cbn [OptimizedScheduler._attempt_improvement ret].
    replace (schedule_of w2) with (schedule_of w1) by apply H.
    destruct (Qlt_bool _ _); (split; [reflexivity|exact H]).
Qed.

Lemma det_optimized (o : OptimizedScheduler.t) :
  deterministic (OptimizedScheduler.schedule o).
Proof.
  assert (Hbody : deterministic (OptimizedScheduler.schedule_body o)).
  { unfold OptimizedScheduler.schedule_body.
    apply det_bind; [apply det_greedy|]. intros results.
    destruct (negb (success results)); [apply det_ret|].
    intros w1 w2 H.
    replace (schedule_of w2) with (schedule_of w1) by apply H.
    generalize (Schedule.get_total_cost (schedule_of w1)). intros cost.
    revert w1 w2 H.
    apply det_bind; [apply det_improvement_loop|]. intros vars w1 w2 H.
    replace (schedule_of w2) with (schedule_of w1) by apply H.
    split; [reflexivity|exact H]. }
  intros w1 w2 H. unfold OptimizedScheduler.schedule.
  destruct (Hbody w1 w2 H) as [Hr Hw].
  destruct (OptimizedScheduler.schedule_body o w1) as [r1 w1'],
           (OptimizedScheduler.schedule_body o w2) as [r2 w2'].
  cbn in Hr, Hw. subst r2.
  destruct r1; [split; [reflexivity|exact Hw]|].
  replace (schedule_of w2') with (schedule_of w1') by apply Hw.
  split; [reflexivity|exact Hw].
Qed.

(** C6.  Two runs of the same strategy on the same schedule, started
    with the module-level generator about to produce the same values,
    return the same results (counts, failures, statistics) and leave the
    same schedule (assignments), and the generators again agree. *)
Theorem same_generator_state_same_run
    (strategy : SchedulingStrategy) (w1 w2 : World) :
  schedule_of w1 = schedule_of w2 ->
  Random.same_future (generator_of w1) (generator_of w2) ->
  fst (strategy_schedule strategy w1) = fst (strategy_schedule strategy w2)
  /\ schedule_of (snd (strategy_schedule strategy w1))
     = schedule_of (snd (strategy_schedule strategy w2))
  /\ Random.same_future (generator_of (snd (strategy_schedule strategy w1)))
                        (generator_of (snd (strategy_schedule strategy w2))).
Proof.
  intros Hs Hg.
  assert (H : same_inputs w1 w2) by (split; assumption).
  assert (Hd : deterministic (strategy_schedule strategy))
    by (destruct strategy; [apply det_greedy | apply det_optimized]).
  destruct (Hd w1 w2 H) as [Hr [Hs' Hg']]. auto.
Qed.

Lemma same_generator_state_same_run_witness :
  let w1 := mkWorld tie_schedule (Random.mk alternating 0) in
  let w2 := mkWorld tie_schedule (Random.mk alternating 2) in
  fst (strategy_schedule (Greedy GreedyScheduler.default) w1)
  = fst (strategy_schedule (Greedy GreedyScheduler.default) w2)
  /\ schedule_of (snd (strategy_schedule (Greedy GreedyScheduler.default) w1))
     = schedule_of (snd (strategy_schedule (Greedy GreedyScheduler.default) w2)).
Proof.
  intros w1 w2.
  assert (Hg : Random.same_future (generator_of w1) (generator_of w2)).
  { intros k. cbn. unfold alternating.
    replace (k + 2)%nat with (S (S k)) by lia. reflexivity. }
  destruct (same_generator_state_same_run
              (Greedy GreedyScheduler.default) w1 w2 eq_refl Hg) as (Hr & Hs & _).
  split; assumption.
Defined.

(** The same seed does not fix the outcome: the generator is the one of
    the module, and a run started one draw later breaks the tie between
    the two editors the other way. *)
Lemma same_seed_different_runs :
  map Project.assigned_employees
      (Schedule.projects
         (schedule_of (snd (GreedyScheduler.schedule GreedyScheduler.default
                              (mkWorld tie_schedule (Random.mk alternating 0))))))
  = [[0%nat]]
  /\ map Project.assigned_employees
         (Schedule.projects
            (schedule_of (snd (GreedyScheduler.schedule GreedyScheduler.default
                                 (mkWorld tie_schedule (Random.mk alternating 1))))))
     = [[1%nat]]
  /\ ~ reproducible_from_seed.
Proof.
  split; [vm_compute; reflexivity|]. split; [vm_compute; reflexivity|].
  intros H.
  destruct (H (Greedy GreedyScheduler.default) tie_schedule
              (Random.mk alternating 0) (Random.mk alternating 1) eq_refl)
    as [_ Hs].
  vm_compute in Hs. discriminate Hs.
Qed.

(** ** A refused commit *)

Lemma assign_employee_raise_unchanged (p : pref) (q : Project.t)
    (best : eref * Employee.t) (w : World) :
  project_at w p = Some q ->
  is_ok (fst (assign_employee p best w)) = false ->
  snd (assign_employee p best w) = w.
Proof.
  intros Hq Hr. destruct best as [k e].
  destruct (Project.can_assign_employee
              (Schedule.employees (schedule_of w)) q k e) eqn:Hc.
  - rewrite (assign_employee_accepted _ _ _ _ _ Hq Hc) in Hr. discriminate.
  - rewrite (assign_employee_refused _ _ _ _ _ Hq Hc). reflexivity.
Qed.

(** C5.  When the commit of the selected candidate is refused, the
    schedule is left as it was and the loop goes on with the next skill
    of the list computed on entry; the project is not given up, and no
    other candidate is tried for the skill. *)
Theorem refused_commit_moves_to_next_skill
    (g : GreedyScheduler.t) (p : pref) (skill : SkillType)
    (rest : list SkillType) (w w1 : World) (q : Project.t)
    (best : eref * Employee.t) :
  project_at w p = Some q ->
  Schedule.get_available_employees
    (schedule_of w) (Project.time_slot q) skill <> [] ->
  GreedyScheduler._select_best_employee g
    (Schedule.get_available_employees
       (schedule_of w) (Project.time_slot q) skill) q w = (Ok best, w1) ->
  is_ok (fst (assign_employee p best w1)) = false ->
  schedule_of w1 = schedule_of w
  /\ GreedyScheduler.skills_loop g p (skill :: rest) w
     = GreedyScheduler.skills_loop g p rest w1.
Proof.
  intros Hq Hne Hsel Hraise.
  destruct (select_best_spec g _ q w Hne) as (b & w' & Hsel' & Hs & _).
  rewrite Hsel in Hsel'. inversion Hsel'; subst b w'. clear Hsel'.
  split; [exact Hs|].
  assert (Hq1 : project_at w1 p = Some q)
    by (unfold project_at in *; rewrite Hs; exact Hq).
  cbn [GreedyScheduler.skills_loop]. rewrite Hq.
  destruct (Schedule.get_available_employees _ _ skill) as [|c cs] eqn:Hav;
    [contradiction|].
  unfold bind at 1. rewrite Hsel.
  unfold bind, try_except.
  pose proof (assign_employee_raise_unchanged p q best w1 Hq1 Hraise) as Hw.
  destruct (assign_employee p best w1) as [r w2]. cbn in Hw. subst w2.
  reflexivity.
Qed.

Lemma refused_commit_moves_to_next_skill_witness :
  schedule_of after_producer = schedule_of after_producer
  /\ GreedyScheduler.skills_loop GreedyScheduler.default 0%nat
       [EDITOR; GRAPHICS_DESIGNER] after_producer
     = GreedyScheduler.skills_loop GreedyScheduler.default 0%nat
         [GRAPHICS_DESIGNER]
         (mkWorld (schedule_of after_producer) (Random.mk alternating 2)).
Proof.
  refine (refused_commit_moves_to_next_skill GreedyScheduler.default 0%nat
            EDITOR [GRAPHICS_DESIGNER] after_producer
            (mkWorld (schedule_of after_producer) (Random.mk alternating 2))
            (Project.mk 7 "News" slot_5h all_five [0%nat] PENDING 5 true)
            blake _ _ _ _).
  - reflexivity.
  - vm_compute. discriminate.
  - vm_compute. reflexivity.
  - vm_compute. reflexivity.
Defined.

(** The other candidate is not tried: with the editor skill already
    covered by the producer, the best-scored editor is refused, the editor
    who could have been committed (he also covers graphics) is passed
    over, and the scheduler leaves the skill with the project unchanged. *)
Lemma next_candidate_not_tried :
  map Project.assigned_employees
      (Schedule.projects (schedule_of after_producer)) = [[0%nat]]
  /\ map Project.assigned_employees
         (Schedule.projects
            (schedule_of (snd (GreedyScheduler.skills_loop
                                 GreedyScheduler.default 0%nat [EDITOR]
                                 after_producer)))) = [[0%nat]]
  /\ ~ next_candidate_tried.
Proof.
  split; [reflexivity|]. split; [vm_compute; reflexivity|].
  intros H.
  destruct (H GreedyScheduler.default 0%nat EDITOR after_producer
              (mkWorld (schedule_of after_producer) (Random.mk alternating 2))
              (Project.mk 7 "News" slot_5h all_five [0%nat] PENDING 5 true)
              blake casey)
    as (q' & Hq' & Hin).
  - reflexivity.
  - vm_compute. reflexivity.
  - vm_compute. reflexivity.
  - vm_compute. reflexivity.
  - vm_compute. reflexivity.
  - vm_compute in Hq'. inversion Hq'; subst q'. cbn in Hin.
    destruct Hin as [E | []]. discriminate E.
Qed.

(** ** An under-staffed project *)

Lemma SkillType_eqb_eq (a b : SkillType) : SkillType_eqb a b = true <-> a = b.
Proof. destruct a, b; cbn; split; congruence. Qed.

Lemma has_skill_singleton (e : Employee.t) (r r' : SkillType) :
  Employee.skills e = [r'] ->
  Employee.has_skill e r = true <-> r = r'.
Proof.
  intros H. unfold Employee.has_skill. rewrite H. cbn.
  rewrite orb_false_r. apply SkillType_eqb_eq.
Qed.

Lemma employee_with_skills (e : Employee.t) (k : eref) (p : pref)
    (q : Project.t) :
  Employee.skills (employee_with e k p q) = Employee.skills e.
Proof.
  unfold employee_with, Employee.add_assignment.
  destruct (negb _); [reflexivity|]. cbn [snd].
  destruct (update_hours_fields
              (Employee.set_assignments e
                 (Employee.assignments e ++ [Assignment.mk k p (Project.time_slot q)]))
              (Project.time_slot q)) as (_ & _ & Hs & _).
  cbn in Hs. exact Hs.
Qed.

Lemma enumerate_NoDup {A} (l : list A) : NoDup (enumerate l).
Proof.
  unfold enumerate. generalize 0%nat.
  induction l as [|a l IH]; intros n; cbn; constructor; [|apply IH].
  rewrite in_combine_seq. lia.
Qed.

Lemma filter_single {A} (f : A -> bool) (l : list A) (x : A) :
  NoDup l -> In x l -> f x = true ->
  (forall y, In y l -> f y = true -> y = x) ->
  filter f l = [x].
Proof.
  intros Hnd Hin Hx Hu.
  pose proof (NoDup_filter f Hnd) as Hnd'.
  assert (Hall : forall y, In y (filter f l) -> y = x)
    by (intros y Hy; apply filter_In in Hy; apply Hu; tauto).
  assert (Hx' : In x (filter f l)) by (apply filter_In; tauto).
  destruct (filter f l) as [|a [|b rest]].
  - destruct Hx'.
  - rewrite (Hall a (or_introl eq_refl)). reflexivity.
  - exfalso. inversion Hnd' as [|? ? Hna _]; subst. apply Hna.
    rewrite (Hall a (or_introl eq_refl)).
    rewrite <- (Hall b (or_intror (or_introl eq_refl))). left. reflexivity.
Qed.

Lemma filter_none {A} (f : A -> bool) (l : list A) :
  (forall y, In y l -> f y = false) -> filter f l = [].
Proof.
  induction l as [|a l IH]; intros H; cbn; [reflexivity|].
  rewrite (H a (or_introl eq_refl)). apply IH.
  intros y Hy. apply H. right. exact Hy.
Qed.

Lemma filter_all {A} (f : A -> bool) (l : list A) :
  (forall y, In y l -> f y = true) -> filter f l = l.
Proof.
  induction l as [|a l IH]; intros H; cbn; [reflexivity|].
  rewrite (H a (or_introl eq_refl)). f_equal. apply IH.
  intros y Hy. apply H. right. exact Hy.
Qed.

Lemma Forall2_in_l {A B} (R : A -> B -> Prop) (l : list A) (l' : list B) (x : A) :
  Forall2 R l l' -> In x l -> exists y, In y l' /\ R x y.
Proof.
  induction 1 as [|a b l l' Hab _ IH]; intros Hin; [destruct Hin|].
  destruct Hin as [E | Hin].
  - subst. exists b. split; [left; reflexivity|exact Hab].
  - destruct (IH Hin) as (y & Hy & Hr). exists y. split; [right|]; assumption.
Qed.

Lemma Forall2_in_r {A B} (R : A -> B -> Prop) (l : list A) (l' : list B) (y : B) :
  Forall2 R l l' -> In y l' -> exists x, In x l /\ R x y.
Proof.
  induction 1 as [|a b l l' Hab _ IH]; intros Hin; [destruct Hin|].
  destruct Hin as [E | Hin].
  - subst. exists a. split; [left; reflexivity|exact Hab].
  - destruct (IH Hin) as (x & Hx & Hr). exists x. split; [right|]; assumption.
Qed.

Lemma existsb_false_iff {A} (f : A -> bool) (l : list A) :
  existsb f l = false <-> forall x, In x l -> f x = false.
Proof.
  split.
  - intros H x Hx. destruct (f x) eqn:E; [|reflexivity].
    rewrite <- H. symmetry. apply existsb_exists. exists x. tauto.
  - intros H. destruct (existsb f l) eqn:E; [|reflexivity].
    apply existsb_exists in E. destruct E as (x & Hx & Hf).
    rewrite (H x Hx) in Hf. discriminate.
Qed.

Lemma NoDup_singletons (l : list SkillType) :
  NoDup l -> NoDup (map (fun r => [r]) l).
Proof.
  induction 1 as [|a l Ha _ IH]; cbn; constructor; [|exact IH].
  rewrite in_map_iff. intros (x & E & Hx). inversion E; subst. contradiction.
Qed.

Lemma NoDup_app_l {A} (l l' : list A) : NoDup (l ++ l') -> NoDup l.
Proof.
  induction l as [|a l IH]; cbn; intros H; [constructor|].
  inversion H as [|? ? Ha Hl]; subst. constructor; [|apply IH; exact Hl].
  intros Hin. apply Ha. apply in_or_app. left. exact Hin.
Qed.

Lemma NoDup_app_disjoint {A} (l l' : list A) (x : A) :
  NoDup (l ++ l') -> In x l -> In x l' -> False.
Proof.
  induction l as [|a l IH]; cbn; intros H Hx Hx'; [destruct Hx|].
  inversion H as [|? ? Ha Hl]; subst.
  destruct Hx as [E | Hx]; [|exact (IH Hl Hx Hx')].
  subst. apply Ha. apply in_or_app. right. exact Hx'.
Qed.

Section Understaffed.

Variable g : GreedyScheduler.t.
Variable es : list Employee.t.
Variable q0 : Project.t.
Variables pre post : list SkillType.
Variable X : SkillType.

Hypothesis H_asg : Project.assigned_employees q0 = [].
Hypothesis H_req : Project.required_skills q0 = pre ++ X :: post.
Hypothesis H_nodup : NoDup (pre ++ X :: post).
Hypothesis H_len : length (pre ++ X :: post) = 5%nat.
Hypothesis H_perm :
  Permutation (map Employee.skills es) (map (fun r => [r]) (pre ++ post)).
Hypothesis H_free :
  Forall (fun e => Employee.is_available e (Project.time_slot q0) = true) es.

Lemma U_single (k : eref) (e : Employee.t) :
  nth_error es k = Some e ->
  exists r, In r (pre ++ post) /\ Employee.skills e = [r].
Proof.
  intros H. apply nth_error_In in H.
  apply (in_map Employee.skills) in H.
  apply (Permutation_in _ H_perm) in H.
  apply in_map_iff in H. destruct H as (r & E & Hr).
  exists r. split; [exact Hr | symmetry; exact E].
Qed.

Lemma U_holder (r : SkillType) :
  In r (pre ++ post) -> exists k, holds_only es k r.
Proof.
  intros H. apply (in_map (fun r => [r])) in H.
  apply (Permutation_in _ (Permutation_sym H_perm)) in H.
  apply in_map_iff in H. destruct H as (e & E & He).
  apply In_nth_error in He. destruct He as (k & Hk).
  exists k, e. split; assumption.
Qed.

Lemma U_unique (k j : eref) (r : SkillType) :
  holds_only es k r -> holds_only es j r -> k = j.
Proof.
  intros (e & He & Hs) (e' & He' & Hs').
  assert (Hnd : NoDup (map Employee.skills es)).
  { apply (Permutation_NoDup (Permutation_sym H_perm)).
    apply NoDup_singletons. exact (NoDup_remove_1 _ _ _ H_nodup). }
  rewrite NoDup_nth_error in Hnd. apply Hnd.
  - rewrite length_map. apply nth_error_Some. congruence.
  - rewrite !nth_error_map, He, He'. cbn. congruence.
Qed.

Lemma U_X_unheld (k : eref) (e : Employee.t) :
  nth_error es k = Some e -> Employee.has_skill e X = false.
Proof.
  intros H. destruct (U_single k e H) as (r & Hr & Hs).
  destruct (Employee.has_skill e X) eqn:E; [|reflexivity].
  apply (has_skill_singleton e X r Hs) in E. subst r.
  exfalso. exact (NoDup_remove_2 _ _ _ H_nodup Hr).
Qed.

Lemma U_state (done : list SkillType) (ks : list eref) (s : Schedule.t)
    (j : eref) (y : Employee.t) :
  after_commits es q0 done ks s ->
  nth_error (Schedule.employees s) j = Some y ->
  exists e, nth_error es j = Some e /\ Employee.skills y = Employee.skills e.
Proof.
  intros (_ & _ & Hlen & Hst) Hy.
  destruct (nth_error es j) as [e|] eqn:He.
  - exists e. split; [reflexivity|].
    rewrite (Hst j e He) in Hy. inversion Hy.
    destruct (existsb _ done); [apply employee_with_skills | reflexivity].
  - exfalso. apply nth_error_None in He.
    assert (j < length (Schedule.employees s))%nat
      by (apply nth_error_Some; congruence).
    lia.
Qed.

Lemma U_fail (done : list SkillType) (ks : list eref)
    (rest : list SkillType) (w : World) :
  after_commits es q0 done ks (schedule_of w) ->
  GreedyScheduler.skills_loop g 0%nat (X :: rest) w = (Ok false, w).
Proof.
  intros St. pose proof St as (Hp & _).
  cbn [GreedyScheduler.skills_loop]. unfold project_at. rewrite Hp. cbn [nth_error].
  unfold Schedule.get_available_employees.
  rewrite filter_none; [reflexivity|].
  intros [j y] Hin. apply in_enumerate in Hin. cbn [snd].
  destruct (U_state _ _ _ _ _ St Hin) as (e & He & Hs).
  apply andb_false_iff. left.
  pose proof (U_X_unheld j e He) as Hx.
  unfold Employee.has_skill in *. rewrite Hs. exact Hx.
Qed.

Lemma U_done_not_held (done : list SkillType) (e : Employee.t)
    (r : SkillType) :
  Employee.skills e = [r] -> ~ In r done ->
  existsb (Employee.has_skill e) done = false.
Proof.
  intros Hs Hr. apply existsb_false_iff. intros r' Hr'.
  destruct (Employee.has_skill e r') eqn:E; [|reflexivity].
  apply (has_skill_singleton e r' r Hs) in E. subst. contradiction.
Qed.

Lemma U_step (done : list SkillType) (ks : list eref) (r : SkillType)
    (rest : list SkillType) (w : World) :
  after_commits es q0 done ks (schedule_of w) ->
  In r pre -> ~ In r done -> (length done < 4)%nat ->
  exists k w',
    after_commits es q0 (done ++ [r]) (ks ++ [k]) (schedule_of w')
    /\ generator_of w' = generator_of w
    /\ GreedyScheduler.skills_loop g 0%nat (r :: rest) w
       = GreedyScheduler.skills_loop g 0%nat rest w'.
Proof.
  intros St Hr Hnd Hlt. pose proof St as (Hp & Hf2 & Hlen & Hst).
  destruct (U_holder r) as (k & e & He & Hs);
    [apply in_or_app; left; exact Hr|].
  assert (Hhold : holds_only es k r) by (exists e; split; assumption).
  assert (Hrr : Employee.has_skill e r = true)
    by (apply (has_skill_singleton e r r Hs); reflexivity).
  assert (Hcur : nth_error (Schedule.employees (schedule_of w)) k = Some e).
  { rewrite (Hst k e He), (U_done_not_held done e r Hs Hnd). reflexivity. }
  assert (Hfree : Employee.is_available e (Project.time_slot q0) = true).
  { rewrite Forall_forall in H_free. apply H_free.
    apply nth_error_In with (n := k). exact He. }
  set (q := Project.set_assigned_employees q0 ks).
  assert (Hq : project_at w 0%nat = Some q)
    by (unfold project_at; rewrite Hp; reflexivity).
  assert (Hks : length ks = length done) by (apply (Forall2_length Hf2)).
  (* the holder of [r] is the only candidate *)
  assert (Hav : Schedule.get_available_employees
                  (schedule_of w) (Project.time_slot q) r = [(k, e)]).
  { unfold Schedule.get_available_employees.
    apply filter_single.
    - apply enumerate_NoDup.
    - apply in_enumerate. exact Hcur.
    - cbn [snd]. rewrite Hrr. exact Hfree.
    - intros [j y] Hin Hy. apply in_enumerate in Hin. cbn [snd] in Hy.
      apply andb_true_iff in Hy. destruct Hy as [Hy _].
      destruct (U_state _ _ _ _ _ St Hin) as (ej & Hej & Hsj).
      destruct (U_single j ej Hej) as (rj & _ & Hsj').
      assert (r = rj).
      { apply (has_skill_singleton y r rj); [congruence | exact Hy]. }
      subst rj.
      assert (j = k) by (apply (U_unique j k r); [exists ej; tauto | exact Hhold]).
      subst j. f_equal. congruence. }
  (* nobody on the project covers [r] *)
  assert (Huncovered : forall k', In k' ks ->
            Project.ref_has_skill (Schedule.employees (schedule_of w)) r k' = false).
  { intros k' Hk'.
    destruct (Forall2_in_l _ _ _ _ Hf2 Hk') as (r' & Hr' & e' & He' & Hs').
    unfold Project.ref_has_skill. rewrite (Hst k' e' He').
    match goal with |- Employee.has_skill ?t r = false => set (y := t) end.
    assert (Hy : Employee.skills y = [r']).
    { subst y. destruct (existsb _ done);
        [rewrite employee_with_skills|]; exact Hs'. }
    destruct (Employee.has_skill y r) eqn:E; [|reflexivity].
    apply (has_skill_singleton y r r' Hy) in E. subst r'. contradiction. }
  assert (Hcan : Project.can_assign_employee
                   (Schedule.employees (schedule_of w)) q k e = true).
  { unfold Project.can_assign_employee.
    replace (existsb (Nat.eqb k) (Project.assigned_employees q)) with false.
    2:{ symmetry. apply existsb_false_iff. intros k' Hk'.
        apply Nat.eqb_neq. intros E. subst k'.
        destruct (Forall2_in_l _ _ _ _ Hf2 Hk') as (r' & Hr' & e' & He' & Hs').
        apply Hnd. replace r with r'; [exact Hr'|]. congruence. }
    replace (Project.is_fully_staffed q) with false
      by (symmetry; unfold Project.is_fully_staffed; cbn;
          apply Nat.eqb_neq; lia).
    replace (existsb (Employee.has_skill e)
               (Project.get_missing_skills
                  (Schedule.employees (schedule_of w)) q)) with true.
    2:{ symmetry. apply existsb_exists. exists r. split; [|exact Hrr].
        unfold Project.get_missing_skills. apply filter_In. split.
        - cbn. rewrite H_req. apply in_or_app. left. exact Hr.
        - apply negb_true_iff. apply existsb_false_iff. exact Huncovered. }
    cbn [negb]. replace (Project.time_slot q) with (Project.time_slot q0)
      by reflexivity.
    rewrite Hfree. reflexivity. }
  exists k, (mkWorld (committed (schedule_of w) 0%nat q k e) (generator_of w)).
  split; [|split; [reflexivity|]].
  - unfold after_commits, committed.
    cbn [schedule_of Schedule.projects Schedule.employees].
    split; [|split; [|split]].
    + rewrite Hp. cbn [store]. unfold project_with.
      replace (Project.is_fully_staffed _) with false
        by (symmetry; unfold Project.is_fully_staffed; cbn;
            rewrite length_app; cbn; apply Nat.eqb_neq; lia).
      reflexivity.
    + apply Forall2_app; [exact Hf2|]. constructor; [exact Hhold|constructor].
    + rewrite store_length. exact Hlen.
    + intros j ej Hej. rewrite existsb_app. cbn [existsb].
      rewrite orb_false_r.
      destruct (Nat.eq_dec j k) as [E | E].
      * subst j. rewrite (nth_error_store_same _ _ _ _ Hcur).
        assert (ej = e) by congruence. subst ej.
        rewrite Hrr, orb_true_r. reflexivity.
      * rewrite (nth_error_store_other _ _ _ _ E), (Hst j ej Hej).
        replace (Employee.has_skill ej r) with false;
          [rewrite orb_false_r; reflexivity|].
        symmetry. destruct (Employee.has_skill ej r) eqn:Hj; [|reflexivity].
        exfalso. apply E. apply (U_unique j k r); [|exact Hhold].
        exists ej. split; [exact Hej|].
        destruct (U_single j ej Hej) as (rj & _ & Hsj).
        apply (has_skill_singleton ej r rj Hsj) in Hj. congruence.
  - cbn [GreedyScheduler.skills_loop]. rewrite Hq, Hav.
    cbn [GreedyScheduler._select_best_employee].
    unfold bind, ret, try_except.
    rewrite (assign_employee_accepted _ _ _ _ _ Hq Hcan). reflexivity.
Qed.

Lemma U_loop (todo done : list SkillType) (ks : list eref) (w : World) :
  after_commits es q0 done ks (schedule_of w) ->
  done ++ todo = pre ->
  exists ks' w',
    after_commits es q0 pre ks' (schedule_of w')
    /\ generator_of w' = generator_of w
    /\ GreedyScheduler.skills_loop g 0%nat (todo ++ X :: post) w
       = (Ok false, w').
Proof.
  revert done ks w. induction todo as [|r rest IH]; intros done ks w St Hpre.
  - rewrite app_nil_r in Hpre. subst done. exists ks, w.
    split; [exact St|]. split; [reflexivity|]. cbn [app].
    exact (U_fail pre ks post w St).
  - assert (Hr : In r pre)
      by (rewrite <- Hpre; apply in_or_app; right; left; reflexivity).
    assert (Hnd : ~ In r done).
    { assert (Hn : NoDup (done ++ r :: rest))
        by (rewrite Hpre; exact (NoDup_app_l _ _ H_nodup)).
      intros Hin. apply (NoDup_remove_2 _ _ _ Hn).
      apply in_or_app. left. exact Hin. }
    assert (Hlt : (length done < 4)%nat).
    { rewrite <- Hpre in H_len. rewrite !length_app in H_len.
      cbn in H_len. lia. }
    destruct (U_step done ks r (rest ++ X :: post) w St Hr Hnd Hlt)
      as (k & w1 & St1 & Hg1 & Hrun1).
    destruct (IH (done ++ [r]) (ks ++ [k]) w1 St1) as (ks' & w' & St' & Hg' & Hrun').
    { rewrite <- app_assoc. exact Hpre. }
    exists ks', w'. split; [exact St'|]. split; [congruence|].
    cbn [app]. rewrite Hrun1. exact Hrun'.
Qed.

Lemma U_missing (ks : list eref) (s : Schedule.t) :
  after_commits es q0 pre ks s ->
  Project.get_missing_skills (Schedule.employees s)
    (Project.set_assigned_employees q0 ks) = X :: post.
Proof.
  intros St. pose proof St as (Hp & Hf2 & Hlen & Hst).
  unfold Project.get_missing_skills.
  cbn [Project.required_skills Project.assigned_employees
       Project.set_assigned_employees].
  rewrite H_req, filter_app.
  (* what a committed employee covers is the skill of [pre] he holds *)
  assert (Hcov : forall k r r', In k ks -> holds_only es k r' ->
             Project.ref_has_skill (Schedule.employees s) r k = true <-> r = r').
  { intros k r r' Hk (e & He & Hs).
    unfold Project.ref_has_skill. rewrite (Hst k e He).
    apply has_skill_singleton.
    destruct (existsb _ pre); [rewrite employee_with_skills|]; exact Hs. }
  rewrite filter_none, filter_all; [reflexivity | |].
  - intros r Hr. apply negb_true_iff. apply existsb_false_iff. intros k Hk.
    destruct (Forall2_in_l _ _ _ _ Hf2 Hk) as (r' & Hr' & Hh).
    destruct (Project.ref_has_skill _ r k) eqn:E; [|reflexivity].
    apply (Hcov k r r' Hk Hh) in E. subst r'. exfalso.
    exact (NoDup_app_disjoint _ _ _ H_nodup Hr' Hr).
  - intros r Hr. apply negb_false_iff. apply existsb_exists.
    destruct (Forall2_in_r _ _ _ _ Hf2 Hr) as (k & Hk & Hh).
    exists k. split; [exact Hk|]. apply (Hcov k r r Hk Hh). reflexivity.
Qed.

(** The run on the schedule of [es] and the single project [q0]. *)
Lemma U_run (w : World) :
  Schedule.employees (schedule_of w) = es ->
  Schedule.projects (schedule_of w) = [q0] ->
  exists r ks w',
    GreedyScheduler.schedule g w = (Ok r, w')
    /\ success r = false
    /\ scheduled_projects r = 0%nat
    /\ failed_projects r
       = [mkFailed (Project.id q0) (Project.name q0)
                   (map SkillType_value (X :: post))]
    /\ after_commits es q0 pre ks (schedule_of w')
    /\ generator_of w' = generator_of w.
Proof.
  intros Hes Hps.
  assert (Hq0 : Project.set_assigned_employees q0 [] = q0)
    by (destruct q0; cbn in *; subst; reflexivity).
  assert (St0 : after_commits es q0 [] [] (schedule_of w)).
  { split; [|split; [|split]].
    - rewrite Hps, Hq0. reflexivity.
    - constructor.
    - rewrite Hes. reflexivity.
    - intros k e He. rewrite Hes. exact He. }
  destruct (U_loop pre [] [] w St0 eq_refl) as (ks & w' & St & Hg & Hrun).
  pose proof St as (Hp' & _).
  assert (Hsorted : GreedyScheduler.sorted_projects (schedule_of w) = [0%nat])
    by (unfold GreedyScheduler.sorted_projects; rewrite Hps; reflexivity).
  assert (Hat : project_at w 0%nat = Some q0)
    by (unfold project_at; rewrite Hps; reflexivity).
  assert (Hmiss0 : Project.get_missing_skills
                     (Schedule.employees (schedule_of w)) q0 = pre ++ X :: post).
  { unfold Project.get_missing_skills. rewrite H_asg, H_req.
    apply filter_all. reflexivity. }
  assert (Hproj : GreedyScheduler._schedule_project g 0%nat w = (Ok false, w')).
  { unfold GreedyScheduler._schedule_project. rewrite Hat, Hmiss0. exact Hrun. }
  exists (mkResults false 0%nat
            [mkFailed (Project.id q0) (Project.name q0)
                      (map SkillType_value (X :: post))]
            [GreedyScheduler.could_not_be_staffed 1]
            (GreedyScheduler._calculate_statistics (schedule_of w')) None),
         ks, w'.
  split; [|split; [reflexivity|]; split; [reflexivity|];
           split; [reflexivity|]; split; [exact St | exact Hg]].
  assert (Hloop : GreedyScheduler.projects_loop g [0%nat] 0%nat [] w
                  = (Ok (0%nat, [mkFailed (Project.id q0) (Project.name q0)
                                    (map SkillType_value (X :: post))]), w')).
  { cbn [GreedyScheduler.projects_loop]. rewrite Hat.
    replace (Project.is_fully_staffed q0) with false
      by (unfold Project.is_fully_staffed; rewrite H_asg; reflexivity).
    unfold bind. rewrite Hproj.
    unfold project_at. rewrite Hp'. cbn [nth_error].
    unfold GreedyScheduler.failed_entry. rewrite (U_missing ks _ St).
    reflexivity. }
  unfold GreedyScheduler.schedule. rewrite Hsorted.
  unfold bind. rewrite Hloop. reflexivity.
Qed.

End Understaffed.

(** ** Every project is accounted for *)

Lemma sorted_projects_in (s : Schedule.t) (p : pref) :
  In p (GreedyScheduler.sorted_projects s) ->
  (p < length (Schedule.projects s))%nat.
Proof.
  unfold GreedyScheduler.sorted_projects. rewrite in_map_iff.
  intros ([p' q] & E & Hin). cbn in E. subst p'.
  apply (Permutation_in _ (sort_by_perm _ _)) in Hin.
  apply in_enumerate in Hin. apply nth_error_Some. congruence.
Qed.

Lemma sorted_projects_length (s : Schedule.t) :
  length (GreedyScheduler.sorted_projects s) = length (Schedule.projects s).
Proof.
  unfold GreedyScheduler.sorted_projects.
  rewrite length_map, (Permutation_length (sort_by_perm _ _)).
  unfold enumerate. rewrite length_combine, length_seq. apply Nat.min_id.
Qed.

Lemma commit_keeps_project_count (n : nat) (s : Schedule.t) (p : pref)
    (q : Project.t) (k : eref) (e : Employee.t) :
  length (Schedule.projects s) = n ->
  nth_error (Schedule.projects s) p = Some q ->
  nth_error (Schedule.employees s) k = Some e ->
  Project.can_assign_employee (Schedule.employees s) q k e = true ->
  length (Schedule.projects (committed s p q k e)) = n.
Proof. intros H _ _ _. cbn. rewrite store_length. exact H. Qed.

Lemma projects_loop_counts (g : GreedyScheduler.t) (l : list pref) (n : nat)
    (failed : list FailedProject) (w : World) :
  (forall p, In p l -> (p < length (Schedule.projects (schedule_of w)))%nat) ->
  exists n' failed' w',
    GreedyScheduler.projects_loop g l n failed w = (Ok (n', failed'), w')
    /\ (n' + length failed' = n + length failed + length l)%nat.
Proof.
  revert n failed w. induction l as [|p rest IH]; intros n failed w Hl.
  - exists n, failed, w. cbn. split; [reflexivity|lia].
  - cbn [GreedyScheduler.projects_loop].
    assert (Hp : (p < length (Schedule.projects (schedule_of w)))%nat)
      by (apply Hl; left; reflexivity).
    assert (Hrest : forall p', In p' rest ->
              (p' < length (Schedule.projects (schedule_of w)))%nat)
      by (intros p' H; apply Hl; right; exact H).
    unfold project_at at 1.
    destruct (nth_error (Schedule.projects (schedule_of w)) p) as [q|] eqn:Hq;
      [|apply nth_error_None in Hq; lia].
    destruct (Project.is_fully_staffed q).
    + destruct (IH (n + 1)%nat failed w Hrest) as (n' & f' & w' & Hrun & Hc).
      exists n', f', w'. split; [exact Hrun|]. cbn [length]. lia.
    + destruct (schedule_project_inv
                  (fun s => length (Schedule.projects s)
                            = length (Schedule.projects (schedule_of w)))
                  (commit_keeps_project_count _) g p w)
        as (b & w1 & Hrun1 & Hlen).
      specialize (Hlen eq_refl).
      unfold bind. rewrite Hrun1.
      assert (Hrest1 : forall p', In p' rest ->
                (p' < length (Schedule.projects (schedule_of w1)))%nat)
        by (intros p' H; rewrite Hlen; apply Hrest; exact H).
      destruct b.
      * destruct (IH (n + 1)%nat failed w1 Hrest1) as (n' & f' & w' & Hrun & Hc).
        exists n', f', w'. split; [exact Hrun|]. cbn [length]. lia.
      * unfold project_at.
        destruct (nth_error (Schedule.projects (schedule_of w1)) p) as [q'|] eqn:Hq';
          [|apply nth_error_None in Hq'; lia].
        match goal with
        | |- context [GreedyScheduler.projects_loop g rest n ?f w1] =>
            destruct (IH n f w1 Hrest1) as (n' & f' & w' & Hrun & Hc)
        end.
        exists n', f', w'. split; [exact Hrun|].
        rewrite length_app in Hc. cbn [length] in *. lia.
Qed.

Lemma schedule_counts (g : GreedyScheduler.t) (w : World) :
  exists r w',
    GreedyScheduler.schedule g w = (Ok r, w')
    /\ (scheduled_projects r + length (failed_projects r)
        = length (Schedule.projects (schedule_of w)))%nat.
Proof.
  destruct (projects_loop_counts g
              (GreedyScheduler.sorted_projects (schedule_of w)) 0%nat [] w
              (sorted_projects_in _)) as (n & failed & w' & Hrun & Hc).
  rewrite sorted_projects_length in Hc. cbn [length] in Hc.
  unfold GreedyScheduler.schedule, bind. rewrite Hrun.
  destruct failed; eexists; exists w'; (split; [reflexivity|]); cbn in *; lia.
Qed.


(** * Further properties of the entities and of the scheduler *)

(** ** Time slots *)

(** X1.  The constructor of [TimeSlot] raises exactly when the end is not
    after the start; a slot it returns has the given bounds and a
    positive duration. *)
Theorem timeslot_new_spec (s e : datetime) :
  match TimeSlot.new s e with
  | Ok t => s < e /\ t = TimeSlot.mk s e /\ (0 < TimeSlot.duration_hours t)%Q
  | Raise x => e <= s /\ x = ValueError (EndMustBeAfterStart e s)
  end.
Proof.
  unfold TimeSlot.new. destruct (e <=? s) eqn:H.
  - apply Z.leb_le in H. split; [exact H | reflexivity].
  - apply Z.leb_gt in H. split; [exact H|]. split; [reflexivity|].
    unfold TimeSlot.duration_hours, Qlt. cbn. lia.
Qed.

(** X2.  Two well-formed slots overlap exactly when some instant lies in
    both of them. *)
Theorem overlap_iff_common_instant (a b : TimeSlot.t) :
  TimeSlot.valid a -> TimeSlot.valid b ->
  (TimeSlot.overlaps_with a b = true
   <-> exists t, TimeSlot.contains a t = true /\ TimeSlot.contains b t = true).
Proof.
  unfold TimeSlot.valid, TimeSlot.overlaps_with, TimeSlot.contains.
  intros Ha Hb. rewrite negb_true_iff, orb_false_iff, Z.geb_leb.
  rewrite !Z.leb_gt. split.
  - intros [H1 H2]. exists (Z.max (TimeSlot.start a) (TimeSlot.start b)).
    rewrite !andb_true_iff, !Z.leb_le, !Z.ltb_lt. lia.
  - intros (t & H1 & H2).
    rewrite andb_true_iff, Z.leb_le, Z.ltb_lt in H1, H2. lia.
Qed.

Lemma overlap_iff_common_instant_witness :
  TimeSlot.overlaps_with slot_5h (TimeSlot.mk (at_hour 0 13) (at_hour 0 15)) = true
  <-> exists t, TimeSlot.contains slot_5h t = true
                /\ TimeSlot.contains (TimeSlot.mk (at_hour 0 13) (at_hour 0 15)) t = true.
Proof.
  apply (overlap_iff_common_instant slot_5h
           (TimeSlot.mk (at_hour 0 13) (at_hour 0 15))); reflexivity.
Defined.

(** X3.  Overlap does not depend on the order of the two slots, a slot
    that ends when or before the other starts does not overlap it, and a
    well-formed slot overlaps itself. *)
Theorem overlap_symmetric_half_open (a b : TimeSlot.t) :
  TimeSlot.overlaps_with a b = TimeSlot.overlaps_with b a
  /\ (TimeSlot.end_ a <= TimeSlot.start b -> TimeSlot.overlaps_with a b = false)
  /\ (TimeSlot.valid a -> TimeSlot.overlaps_with a a = true).
Proof.
  split; [apply overlaps_with_sym|]. split.
  - intros H. unfold TimeSlot.overlaps_with.
    apply Z.leb_le in H. rewrite H. reflexivity.
  - apply overlaps_with_self.
Qed.

Lemma overlap_symmetric_half_open_witness :
  TimeSlot.overlaps_with slot_5h slot_4h = TimeSlot.overlaps_with slot_4h slot_5h
  /\ TimeSlot.overlaps_with slot_5h slot_4h = false
  /\ TimeSlot.overlaps_with slot_5h slot_5h = true.
Proof.
  destruct (overlap_symmetric_half_open slot_5h slot_4h) as (H1 & H2 & H3).
  split; [exact H1|]. split; [apply H2; vm_compute; discriminate|].
  apply H3. reflexivity.
Defined.

(** ** Commits on one employee *)

(** X4.  Once an assignment has been committed, a commit for any slot
    that overlaps it is refused and leaves the employee as he was; in
    particular the same well-formed slot cannot be committed twice. *)
Theorem no_double_booking (e : Employee.t) (a b : Assignment.t) :
  fst (Employee.add_assignment e a) = Ok tt ->
  TimeSlot.overlaps_with (Assignment.time_slot b) (Assignment.time_slot a) = true ->
  let e' := snd (Employee.add_assignment e a) in
  Employee.is_available e' (Assignment.time_slot b) = false
  /\ exists x, Employee.add_assignment e' b = (Raise x, e').
Proof.
  intros Hok Hov e'.
  assert (Hav : Employee.is_available e' (Assignment.time_slot b) = false).
  { subst e'. unfold Employee.add_assignment in *.
    destruct (negb (Employee.is_available e (Assignment.time_slot a)));
      [discriminate|]. cbn [snd].
    destruct (update_hours_fields
                (Employee.set_assignments e (Employee.assignments e ++ [a]))
                (Assignment.time_slot a)) as (_ & _ & _ & Hasg & _).
    unfold Employee.is_available. rewrite Hasg. cbn.
    rewrite existsb_app. cbn. rewrite Hov, orb_true_r. cbn.
    apply andb_false_r. }
  split; [exact Hav|]. eexists. apply add_assignment_refused. exact Hav.
Qed.

Lemma no_double_booking_witness :
  let e' := snd (Employee.add_assignment fresh_editor commit_5h) in
  Employee.is_available e' slot_5h = false
  /\ exists x, Employee.add_assignment e' commit_5h = (Raise x, e').
Proof.
  apply (no_double_booking fresh_editor commit_5h commit_5h); reflexivity.
Defined.

Lemma duration_hours_positive (s : TimeSlot.t) :
  TimeSlot.valid s -> (0 < TimeSlot.duration_hours s)%Q.
Proof.
  unfold TimeSlot.valid, TimeSlot.duration_hours, Qlt. cbn. lia.
Qed.

Lemma split_hours_nonneg (cap hours daily : Q) :
  (0 <= hours)%Q ->
  (0 <= fst (Employee.split_hours cap hours daily))%Q
  /\ (0 <= snd (Employee.split_hours cap hours daily))%Q.
Proof.
  intros Hh. unfold Employee.split_hours.
  destruct (Qle_bool daily cap) eqn:Hle; cbn [fst snd].
  - apply Qle_bool_iff in Hle. split.
    + destruct (Q.min_spec hours (cap - daily)) as [[_ E] | [_ E]];
        rewrite E; lra.
    + apply Q.le_max_l.
  - split; [lra | exact Hh].
Qed.

(** X5.  Committing an assignment with a well-formed slot never lowers
    the regular or the overtime total of the employee, whether the commit
    is accepted or refused. *)
Theorem commit_never_lowers_hours (e : Employee.t) (a : Assignment.t) :
  TimeSlot.valid (Assignment.time_slot a) ->
  let e' := snd (Employee.add_assignment e a) in
  (Employee.regular_hours_worked e <= Employee.regular_hours_worked e')%Q
  /\ (Employee.overtime_hours_worked e <= Employee.overtime_hours_worked e')%Q.
Proof.
  intros Hv e'. subst e'. unfold Employee.add_assignment.
  destruct (negb _); cbn [snd]; [split; lra|].
  unfold Employee._update_hours.
  set (e1 := Employee.set_assignments e (Employee.assignments e ++ [a])).
  pose proof (split_hours_nonneg (Employee.MAX_REGULAR_HOURS_PER_DAY e1)
                (TimeSlot.duration_hours (Assignment.time_slot a))
                (Employee.daily_hours e1
                   (date (TimeSlot.start (Assignment.time_slot a))))) as Hs.
  destruct (Employee.split_hours _ _ _) as [regular overtime].
  cbn [fst snd] in Hs. cbn.
  pose proof (duration_hours_positive _ Hv).
  destruct Hs as [Hr Ho]; [lra|]. split; lra.
Qed.

Lemma commit_never_lowers_hours_witness :
  let e' := snd (Employee.add_assignment fresh_editor commit_5h) in
  (Employee.regular_hours_worked fresh_editor <= Employee.regular_hours_worked e')%Q
  /\ (Employee.overtime_hours_worked fresh_editor
      <= Employee.overtime_hours_worked e')%Q.
Proof.
  apply (commit_never_lowers_hours fresh_editor commit_5h). reflexivity.
Defined.

(** X6.  With non-negative totals the overtime percentage lies between 0
    and 100 and the utilization rate is never negative; a capacity that
    is not positive gives a utilization of 0, and an employee without
    hours an overtime percentage of 0, instead of a division by zero. *)
Theorem percentages_are_bounded (e : Employee.t) (capacity : Q) :
  (0 <= Employee.regular_hours_worked e)%Q ->
  (0 <= Employee.overtime_hours_worked e)%Q ->
  (0 <= Employee.get_overtime_percentage e)%Q
  /\ (Employee.get_overtime_percentage e <= 100)%Q
  /\ (0 <= Employee.get_utilization_rate e capacity)%Q
  /\ ((capacity <= 0)%Q -> Employee.get_utilization_rate e capacity = 0%Q)
  /\ ((Employee.regular_hours_worked e + Employee.overtime_hours_worked e <= 0)%Q ->
      Employee.get_overtime_percentage e = 0%Q).
Proof.
  intros Hr Ho.
  unfold Employee.get_overtime_percentage, Employee.get_utilization_rate.
  set (total := (Employee.regular_hours_worked e
                 + Employee.overtime_hours_worked e)%Q).
  assert (Ht : (0 <= total)%Q) by (subst total; lra).
  repeat split.
  - destruct (Qle_bool total 0) eqn:E; [lra|].
    assert (Hpos : (0 < total)%Q).
    { destruct (Qlt_le_dec 0 total) as [H | H]; [exact H|].
      apply Qle_bool_iff in H. congruence. }
    assert (0 <= Employee.overtime_hours_worked e / total)%Q
      by (apply Qle_shift_div_l; [exact Hpos | lra]).
    lra.
  - destruct (Qle_bool total 0) eqn:E; [lra|].
    assert (Hpos : (0 < total)%Q).
    { destruct (Qlt_le_dec 0 total) as [H | H]; [exact H|].
      apply Qle_bool_iff in H. congruence. }
    assert (Employee.overtime_hours_worked e / total <= 1)%Q
      by (apply Qle_shift_div_r; [exact Hpos | subst total; lra]).
    lra.
  - destruct (Qle_bool capacity 0) eqn:E; [lra|].
    assert (Hpos : (0 < capacity)%Q).
    { destruct (Qlt_le_dec 0 capacity) as [H | H]; [exact H|].
      apply Qle_bool_iff in H. congruence. }
    assert (0 <= total / capacity)%Q
      by (apply Qle_shift_div_l; [exact Hpos | lra]).
    lra.
  - intros H. apply Qle_bool_iff in H. rewrite H. reflexivity.
  - intros H. apply Qle_bool_iff in H. rewrite H. reflexivity.
Qed.

Lemma percentages_are_bounded_witness :
  let e := Employee.commit_all fresh_editor [commit_5h; commit_4h] in
  (0 <= Employee.get_overtime_percentage e)%Q
  /\ (Employee.get_overtime_percentage e <= 100)%Q.
Proof.
  intros e.
  assert (Hr : (0 <= Employee.regular_hours_worked e)%Q)
    by (vm_compute; discriminate).
  assert (Ho : (0 <= Employee.overtime_hours_worked e)%Q)
    by (vm_compute; discriminate).
  destruct (percentages_are_bounded e 2920 Hr Ho) as (H1 & H2 & _).
  split; assumption.
Defined.

Lemma add_assignment_frame (e : Employee.t) (a : Assignment.t) :
  let e' := snd (Employee.add_assignment e a) in
  Employee.id e' = Employee.id e
  /\ Employee.name e' = Employee.name e
  /\ Employee.skills e' = Employee.skills e
  /\ Employee.unavailable_slots e' = Employee.unavailable_slots e
  /\ Employee.MAX_REGULAR_HOURS_PER_DAY e' = Employee.MAX_REGULAR_HOURS_PER_DAY e
  /\ Employee.REGULAR_RATE e' = Employee.REGULAR_RATE e
  /\ Employee.OVERTIME_RATE e' = Employee.OVERTIME_RATE e
  /\ exists l, Employee.assignments e' = Employee.assignments e ++ l
               /\ (l = [] /\ e' = e \/ l = [a]).
Proof.
  unfold Employee.add_assignment.
  destruct (negb _); cbn [snd].
  - repeat split. exists []. rewrite app_nil_r. split; [reflexivity|].
    left. split; reflexivity.
  - unfold Employee._update_hours.
    destruct (Employee.split_hours _ _ _) as [regular overtime].
    cbn. repeat split. exists [a]. split; [reflexivity|]. right. reflexivity.
Qed.

Lemma commit_all_frame (l : list Assignment.t) (e : Employee.t) :
  let e' := Employee.commit_all e l in
  Employee.id e' = Employee.id e
  /\ Employee.name e' = Employee.name e
  /\ Employee.skills e' = Employee.skills e
  /\ Employee.unavailable_slots e' = Employee.unavailable_slots e
  /\ Employee.MAX_REGULAR_HOURS_PER_DAY e' = Employee.MAX_REGULAR_HOURS_PER_DAY e
  /\ Employee.REGULAR_RATE e' = Employee.REGULAR_RATE e
  /\ Employee.OVERTIME_RATE e' = Employee.OVERTIME_RATE e
  /\ exists l', Employee.assignments e' = Employee.assignments e ++ l'.
Proof.
  revert e. induction l as [|a l IH]; intros e; cbn.
  - repeat split. exists []. rewrite app_nil_r. reflexivity.
  - destruct (IH (snd (Employee.add_assignment e a)))
      as (H1 & H2 & H3 & H4 & H5 & H6 & H7 & l' & H8).
    destruct (add_assignment_frame e a)
      as (G1 & G2 & G3 & G4 & G5 & G6 & G7 & l1 & G8 & _).
    cbn zeta in *. unfold Employee.commit_all in *.
    rewrite H1, H2, H3, H4, H5, H6, H7, H8, G1, G2, G3, G4, G5, G6, G7, G8.
    repeat split. exists (l1 ++ l'). rewrite app_assoc. reflexivity.
Qed.

Lemma skipn_length_app {A} (l l' : list A) : skipn (length l) (l ++ l') = l'.
Proof. induction l as [|a l IH]; [reflexivity | exact IH]. Qed.

Lemma replay_of_accepted (l : list Assignment.t) (e : Employee.t) :
  Employee.commit_all e
    (skipn (length (Employee.assignments e))
           (Employee.assignments (Employee.commit_all e l)))
  = Employee.commit_all e l.
Proof.
  revert e. induction l as [|a l IH]; intros e.
  - cbn. rewrite <- (app_nil_r (Employee.assignments e)) at 2.
    rewrite skipn_length_app. reflexivity.
  - change (Employee.commit_all e (a :: l))
      with (Employee.commit_all (snd (Employee.add_assignment e a)) l).
    set (e1 := snd (Employee.add_assignment e a)).
    destruct (add_assignment_frame e a) as (_ & _ & _ & _ & _ & _ & _ & l1 & G & Hl1).
    fold e1 in G, Hl1.
    destruct Hl1 as [[El1 Ee1] | El1].
    + rewrite Ee1. apply IH.
    + subst l1.
      destruct (commit_all_frame l e1) as (_ & _ & _ & _ & _ & _ & _ & l' & H).
      cbn zeta in H. specialize (IH e1). rewrite H in IH |- *.
      rewrite skipn_length_app in IH.
      rewrite G, <- app_assoc, skipn_length_app. cbn [app].
      change (Employee.commit_all e (a :: l'))
        with (Employee.commit_all (snd (Employee.add_assignment e a)) l').
      exact IH.
Qed.

(** X7.  Resetting an employee and committing again the assignments he
    held, in the order he held them, gives back the employee as he was:
    this holds for every employee reached by commits from one without
    hours and assignments, whatever commits were refused on the way. *)
Theorem reset_then_replay (e0 : Employee.t) (l : list Assignment.t) :
  Employee.assignments e0 = [] ->
  Employee.regular_hours_worked e0 = 0%Q ->
  Employee.overtime_hours_worked e0 = 0%Q ->
  let e := Employee.commit_all e0 l in
  Employee.reset_hours e = e0
  /\ Employee.commit_all (Employee.reset_hours e) (Employee.assignments e) = e.
Proof.
  intros Ha Hr Ho. cbn zeta.
  assert (Hreset : Employee.reset_hours (Employee.commit_all e0 l) = e0).
  { destruct (commit_all_frame l e0) as (H1 & H2 & H3 & H4 & H5 & H6 & H7 & _).
    cbn zeta in *.
    unfold Employee.reset_hours. rewrite H1, H2, H3, H4, H5, H6, H7.
    clear H1 H2 H3 H4 H5 H6 H7.
    destruct e0; cbn in *; subst; reflexivity. }
  split; [exact Hreset|]. rewrite Hreset.
  pose proof (replay_of_accepted l e0) as H. rewrite Ha in H. exact H.
Qed.

Lemma reset_then_replay_witness :
  let e := Employee.commit_all fresh_editor [commit_5h; commit_5h; commit_4h] in
  Employee.reset_hours e = fresh_editor
  /\ Employee.commit_all (Employee.reset_hours e) (Employee.assignments e) = e.
Proof.
  apply (reset_then_replay fresh_editor [commit_5h; commit_5h; commit_4h]);
    reflexivity.
Defined.

(** ** What a commit changes *)

Lemma employee_with_accepted (e : Employee.t) (k : eref) (p : pref)
    (q : Project.t) :
  Employee.is_available e (Project.time_slot q) = true ->
  let e' := employee_with e k p q in
  Employee.id e' = Employee.id e
  /\ Employee.name e' = Employee.name e
  /\ Employee.skills e' = Employee.skills e
  /\ Employee.unavailable_slots e' = Employee.unavailable_slots e
  /\ Employee.assignments e'
     = Employee.assignments e ++ [Assignment.mk k p (Project.time_slot q)].
Proof.
  intros Hav. unfold employee_with.
  rewrite add_assignment_accepted by exact Hav. cbn [snd].
  destruct (update_hours_fields
              (Employee.set_assignments e
                 (Employee.assignments e ++ [Assignment.mk k p (Project.time_slot q)]))
              (Project.time_slot q)) as (H1 & H2 & H3 & H4 & H5).
  cbn in *. repeat split; assumption.
Qed.

Lemma project_with_fields (q : Project.t) (k : eref) :
  let q' := project_with q k in
  Project.id q' = Project.id q
  /\ Project.name q' = Project.name q
  /\ Project.time_slot q' = Project.time_slot q
  /\ Project.required_skills q' = Project.required_skills q
  /\ Project.priority q' = Project.priority q
  /\ Project.is_fixed q' = Project.is_fixed q
  /\ Project.assigned_employees q' = Project.assigned_employees q ++ [k]
  /\ (Project.is_fully_staffed q' = true -> Project.status q' = SCHEDULED)
  /\ (Project.is_fully_staffed q' = false -> Project.status q' = Project.status q).
Proof.
  unfold project_with.
  destruct (Project.is_fully_staffed
              (Project.set_assigned_employees q
                 (Project.assigned_employees q ++ [k]))) eqn:E;
    cbn; repeat split; try reflexivity; unfold Project.is_fully_staffed in *;
    cbn in *; congruence.
Qed.

Lemma can_assign_not_full (emps : list Employee.t) (q : Project.t)
    (k : eref) (e : Employee.t) :
  Project.can_assign_employee emps q k e = true ->
  Project.is_fully_staffed q = false
  /\ existsb (Nat.eqb k) (Project.assigned_employees q) = false
  /\ existsb (Employee.has_skill e) (Project.get_missing_skills emps q) = true
  /\ Employee.is_available e (Project.time_slot q) = true.
Proof.
  unfold Project.can_assign_employee.
  destruct (existsb (Nat.eqb k) _); [discriminate|].
  destruct (Project.is_fully_staffed q); [discriminate|].
  destruct (existsb (Employee.has_skill e) _); [|discriminate].
  destruct (Employee.is_available e _); [|discriminate].
  repeat split.
Qed.

(** Either strategy returns normally and keeps what every accepted commit
    keeps. *)
Lemma strategy_inv (Inv : Schedule.t -> Prop) :
  (forall s p q k e,
     Inv s ->
     nth_error (Schedule.projects s) p = Some q ->
     nth_error (Schedule.employees s) k = Some e ->
     Project.can_assign_employee (Schedule.employees s) q k e = true ->
     Inv (committed s p q k e)) ->
  forall (strategy : SchedulingStrategy) (w : World),
  exists r w',
    strategy_schedule strategy w = (Ok r, w')
    /\ (Inv (schedule_of w) -> Inv (schedule_of w')).
Proof.
  intros Hc strategy w.
  destruct (strategy_returns strategy w) as (g & r & w' & Hrun & Hg).
  destruct (schedule_inv Inv Hc g w) as (r1 & w1 & Hrun1 & Hinv).
  rewrite Hrun1 in Hg. inversion Hg; subst w1.
  exists r, w'. split; [exact Hrun | exact Hinv].
Qed.

Lemma Forall_store_at {A} (P : A -> Prop) (k : nat) (x y : A) (l : list A) :
  nth_error l k = Some x -> (P x -> P y) -> Forall P l -> Forall P (store k y l).
Proof.
  intros Hk Hxy Hl. apply Forall_store; [|exact Hl].
  apply Hxy. rewrite Forall_forall in Hl. apply Hl.
  apply nth_error_In with (n := k). exact Hk.
Qed.

(** ** Five assignees at most *)

(** X8.  A project with five assignees refuses every further employee,
    and a run of either strategy on a schedule where no project has more
    than five assignees leaves no project with more than five. *)
Theorem never_more_than_five (strategy : SchedulingStrategy) (w : World) :
  staffing_bounded (schedule_of w) ->
  (exists r w',
     strategy_schedule strategy w = (Ok r, w')
     /\ staffing_bounded (schedule_of w'))
  /\ forall emps p q k e,
       length (Project.assigned_employees q) = 5%nat ->
       exists x, Project.assign_employee emps p q k e = (Raise x, (emps, q)).
Proof.
  intros Hw. split.
  - destruct (strategy_inv staffing_bounded) with (strategy := strategy) (w := w)
      as (r & w' & Hrun & Hinv).
    + intros s p q k e Hs Hq _ Hc. unfold staffing_bounded in *. cbn.
      apply (Forall_store_at _ _ q); [exact Hq | | exact Hs].
      intros Hle. destruct (can_assign_not_full _ _ _ _ Hc) as (Hnf & _).
      destruct (project_with_fields q k) as (_ & _ & _ & _ & _ & _ & Ha & _).
      rewrite Ha, length_app. cbn.
      unfold Project.is_fully_staffed in Hnf. apply Nat.eqb_neq in Hnf. lia.
    + exists r, w'. split; [exact Hrun | exact (Hinv Hw)].
  - intros emps p q k e H5. eexists. apply project_assign_refused.
    unfold Project.can_assign_employee, Project.is_fully_staffed.
    rewrite H5. cbn. destruct (existsb _ _); reflexivity.
Qed.

Lemma never_more_than_five_witness :
  staffing_bounded tie_schedule
  /\ exists r w',
       strategy_schedule (Greedy GreedyScheduler.default)
                         (mkWorld tie_schedule seeded) = (Ok r, w')
       /\ staffing_bounded (schedule_of w').
Proof.
  assert (H : staffing_bounded tie_schedule)
    by (repeat constructor).
  split; [exact H|].
  exact (proj1 (never_more_than_five (Greedy GreedyScheduler.default)
                  (mkWorld tie_schedule seeded) H)).
Defined.

(** X9.  A run of either strategy keeps the status of the projects in
    step with their staffing: if, before the run, the projects marked
    [SCHEDULED] are exactly those with five assignees, the same holds
    after it. *)
Theorem status_follows_staffing (strategy : SchedulingStrategy) (w : World) :
  status_consistent (schedule_of w) ->
  exists r w',
    strategy_schedule strategy w = (Ok r, w')
    /\ status_consistent (schedule_of w').
Proof.
  intros Hw.
  destruct (strategy_inv status_consistent) with (strategy := strategy) (w := w)
    as (r & w' & Hrun & Hinv).
  - intros s p q k e Hs Hq _ Hc. unfold status_consistent in *. cbn.
    apply (Forall_store_at _ _ q); [exact Hq | | exact Hs].
    intros Hiff. destruct (can_assign_not_full _ _ _ _ Hc) as (Hnf & _).
    destruct (project_with_fields q k)
      as (_ & _ & _ & _ & _ & _ & _ & Hfull & Hnot).
    destruct (Project.is_fully_staffed (project_with q k)) eqn:E.
    + rewrite (Hfull eq_refl). tauto.
    + rewrite (Hnot eq_refl). split; [discriminate|].
      intros Hst. apply Hiff in Hst. congruence.
  - exists r, w'. split; [exact Hrun | exact (Hinv Hw)].
Qed.

Lemma status_follows_staffing_witness :
  status_consistent no_engineer
  /\ exists r w',
       strategy_schedule (Greedy GreedyScheduler.default)
                         (mkWorld no_engineer seeded) = (Ok r, w')
       /\ status_consistent (schedule_of w').
Proof.
  assert (H : status_consistent no_engineer).
  { repeat constructor; cbn; discriminate. }
  split; [exact H|].
  exact (status_follows_staffing (Greedy GreedyScheduler.default)
           (mkWorld no_engineer seeded) H).
Defined.

(** ** The two sides of an assignment *)

Lemma commit_keeps_back_references (s : Schedule.t) (p : pref) (q : Project.t)
    (k : eref) (e : Employee.t) :
  back_references_consistent s ->
  nth_error (Schedule.projects s) p = Some q ->
  nth_error (Schedule.employees s) k = Some e ->
  Project.can_assign_employee (Schedule.employees s) q k e = true ->
  back_references_consistent (committed s p q k e).
Proof.
  intros [H1 H2] Hq He Hc.
  destruct (can_assign_not_full _ _ _ _ Hc) as (_ & _ & _ & Hav).
  destruct (employee_with_accepted e k p q Hav) as (_ & _ & _ & _ & Hasg).
  destruct (project_with_fields q k) as (_ & _ & Hts & _ & _ & _ & Hass & _).
  unfold back_references_consistent, committed.
  cbn [Schedule.projects Schedule.employees].
  (* the employee at a reference still holds what he held *)
  assert (Hemp : forall k1 e1 a,
            nth_error (Schedule.employees s) k1 = Some e1 ->
            In a (Employee.assignments e1) ->
            exists e1', nth_error (store k (employee_with e k p q)
                                         (Schedule.employees s)) k1 = Some e1'
                        /\ In a (Employee.assignments e1')).
  { intros k1 e1 a Hk1 Hin. destruct (Nat.eq_dec k1 k) as [E | E].
    - subst k1. rewrite (nth_error_store_same _ _ _ _ He).
      eexists. split; [reflexivity|]. rewrite Hasg. apply in_or_app. left.
      congruence.
    - rewrite (nth_error_store_other _ _ _ _ E). exists e1. tauto. }
  (* the project at a reference still has the assignees it had *)
  assert (Hproj : forall p1 q1 k1,
            nth_error (Schedule.projects s) p1 = Some q1 ->
            In k1 (Project.assigned_employees q1) ->
            exists q1', nth_error (store p (project_with q k)
                                         (Schedule.projects s)) p1 = Some q1'
                        /\ In k1 (Project.assigned_employees q1')
                        /\ Project.time_slot q1' = Project.time_slot q1).
  { intros p1 q1 k1 Hp1 Hin. destruct (Nat.eq_dec p1 p) as [E | E].
    - subst p1. rewrite (nth_error_store_same _ _ _ _ Hq).
      eexists. split; [reflexivity|]. assert (q1 = q) by congruence. subst q1.
      split; [rewrite Hass; apply in_or_app; left; exact Hin | exact Hts].
    - rewrite (nth_error_store_other _ _ _ _ E). exists q1. tauto. }
  split.
  - intros p1 q1 k1 Hp1 Hin.
    destruct (Nat.eq_dec p1 p) as [E | E].
    + subst p1. rewrite (nth_error_store_same _ _ _ _ Hq) in Hp1.
      inversion Hp1; subst q1. clear Hp1.
      rewrite Hass in Hin. rewrite Hts.
      apply in_app_or in Hin. destruct Hin as [Hin | [Hin | []]].
      * destruct (H1 p q k1 Hq Hin) as (e1 & Hk1 & Ha).
        exact (Hemp k1 e1 _ Hk1 Ha).
      * subst k1. rewrite (nth_error_store_same _ _ _ _ He).
        eexists. split; [reflexivity|]. rewrite Hasg.
        apply in_or_app. right. left. reflexivity.
    + rewrite (nth_error_store_other _ _ _ _ E) in Hp1.
      destruct (H1 p1 q1 k1 Hp1 Hin) as (e1 & Hk1 & Ha).
      exact (Hemp k1 e1 _ Hk1 Ha).
  - intros k1 e1 a Hk1 Hin.
    assert (Hold : forall e0, nth_error (Schedule.employees s) k1 = Some e0 ->
                     In a (Employee.assignments e0) ->
                     Assignment.employee a = k1
                     /\ exists q1, nth_error (store p (project_with q k)
                                                (Schedule.projects s))
                                             (Assignment.project a) = Some q1
                                   /\ In k1 (Project.assigned_employees q1)
                                   /\ Assignment.time_slot a = Project.time_slot q1).
    { intros e0 Hk0 Hin0.
      destruct (H2 k1 e0 a Hk0 Hin0) as (Hk & q1 & Hq1 & Hin1 & Hts1).
      split; [exact Hk|].
      destruct (Hproj _ _ _ Hq1 Hin1) as (q1' & Hq1' & Hin1' & Hts1').
      exists q1'. split; [exact Hq1'|]. split; [exact Hin1' | congruence]. }
    destruct (Nat.eq_dec k1 k) as [E | E].
    + subst k1. rewrite (nth_error_store_same _ _ _ _ He) in Hk1.
      inversion Hk1; subst e1. clear Hk1.
      rewrite Hasg in Hin. apply in_app_or in Hin.
      destruct Hin as [Hin | [Hin | []]]; [exact (Hold e He Hin)|].
      subst a. cbn. split; [reflexivity|].
      exists (project_with q k).
      rewrite (nth_error_store_same _ _ _ _ Hq). split; [reflexivity|].
      split; [rewrite Hass; apply in_or_app; right; left; reflexivity|].
      symmetry. exact Hts.
    + rewrite (nth_error_store_other _ _ _ _ E) in Hk1.
      exact (Hold e1 Hk1 Hin).
Qed.

(** X10.  A run of either strategy keeps the two sides of every
    assignment in agreement: afterwards each assignee of a project holds
    an assignment to that project for the slot of the project, and each
    assignment held by an employee names him and a project that lists him,
    provided this was so before the run. *)
Theorem run_keeps_back_references (strategy : SchedulingStrategy) (w : World) :
  back_references_consistent (schedule_of w) ->
  exists r w',
    strategy_schedule strategy w = (Ok r, w')
    /\ back_references_consistent (schedule_of w').
Proof.
  intros Hw.
  destruct (strategy_inv back_references_consistent
              commit_keeps_back_references strategy w)
    as (r & w' & Hrun & Hinv).
  exists r, w'. split; [exact Hrun | exact (Hinv Hw)].
Qed.

Lemma run_keeps_back_references_witness :
  back_references_consistent full_team
  /\ exists r w',
       strategy_schedule (Greedy GreedyScheduler.default)
                         (mkWorld full_team seeded) = (Ok r, w')
       /\ back_references_consistent (schedule_of w').
Proof.
  assert (H : back_references_consistent full_team).
  { split.
    - intros [|p] q k Hq Hin; cbn in Hq.
      + inversion Hq; subst q. destruct Hin.
      + destruct p; discriminate.
    - intros k e a Hk Hin.
      assert (He : Employee.assignments e = []).
      { apply nth_error_In in Hk. cbn in Hk.
        destruct Hk as [E | [E | [E | [E | [E | []]]]]]; subst e; reflexivity. }
      rewrite He in Hin. destruct Hin. }
  split; [exact H|].
  exact (run_keeps_back_references (Greedy GreedyScheduler.default)
           (mkWorld full_team seeded) H).
Defined.

(** ** A run only appends *)

Lemma Forall2_same {A} (R : A -> A -> Prop) (l : list A) :
  (forall x, R x x) -> Forall2 R l l.
Proof. intros H. induction l; constructor; auto. Qed.

Lemma Forall2_store {A} (R : A -> A -> Prop) (l0 l : list A) (k : nat)
    (x y : A) :
  Forall2 R l0 l -> nth_error l k = Some x ->
  (forall x0, R x0 x -> R x0 y) ->
  Forall2 R l0 (store k y l).
Proof.
  intros H. revert k. induction H as [|a b l0 l Hab H IH]; intros k Hk Hxy.
  - constructor.
  - destruct k; cbn in *.
    + inversion Hk; subst. constructor; [apply Hxy; exact Hab | exact H].
    + constructor; [exact Hab | apply IH; assumption].
Qed.

Lemma employee_extends_refl (e : Employee.t) : employee_extends e e.
Proof.
  repeat split. exists []. rewrite app_nil_r. reflexivity.
Qed.

Lemma project_extends_refl (q : Project.t) : project_extends q q.
Proof.
  repeat split. exists []. rewrite app_nil_r. reflexivity.
Qed.

(** A commit appends one assignment and one assignee. *)
Lemma commit_extends (s0 s : Schedule.t) (p : pref) (q : Project.t)
    (k : eref) (e : Employee.t) :
  schedule_extends s0 s ->
  nth_error (Schedule.projects s) p = Some q ->
  nth_error (Schedule.employees s) k = Some e ->
  Project.can_assign_employee (Schedule.employees s) q k e = true ->
  schedule_extends s0 (committed s p q k e).
Proof.
  intros [He Hp] Hq Hk Hc. unfold schedule_extends, committed.
  cbn [Schedule.employees Schedule.projects].
  destruct (can_assign_not_full _ _ _ _ Hc) as (_ & _ & _ & Hav).
  split.
  - apply (Forall2_store _ _ _ _ e); [exact He | exact Hk|].
    intros e0 (H1 & H2 & H3 & H4 & l & H5).
    destruct (employee_with_accepted e k p q Hav) as (G1 & G2 & G3 & G4 & G5).
    unfold employee_extends. rewrite G1, G2, G3, G4, G5, H5.
    repeat split; try assumption.
    eexists. rewrite <- app_assoc. reflexivity.
  - apply (Forall2_store _ _ _ _ q); [exact Hp | exact Hq|].
    intros q0 (H1 & H2 & H3 & H4 & H5 & H6 & l & H7).
    destruct (project_with_fields q k)
      as (G1 & G2 & G3 & G4 & G5 & G6 & G7 & _).
    unfold project_extends. rewrite G1, G2, G3, G4, G5, G6, G7, H7.
    repeat split; try assumption.
    eexists. rewrite <- app_assoc. reflexivity.
Qed.

(** X11.  A run of either strategy only appends: the schedule keeps its
    employees and projects in place, with the same ids, names, skills,
    unavailable slots, time slots, required skills and priorities; the
    assignments an employee had and the assignees a project had are still
    there, in order, before whatever the run added. *)
Theorem run_only_appends (strategy : SchedulingStrategy) (w : World) :
  exists r w',
    strategy_schedule strategy w = (Ok r, w')
    /\ schedule_extends (schedule_of w) (schedule_of w').
Proof.
  destruct (strategy_inv (schedule_extends (schedule_of w))
              (commit_extends (schedule_of w)) strategy w)
    as (r & w' & Hrun & Hinv).
  exists r, w'. split; [exact Hrun|]. apply Hinv. split.
  - apply Forall2_same. apply employee_extends_refl.
  - apply Forall2_same. apply project_extends_refl.
Qed.

(** ** An accepted assignment covers a missing skill *)

Lemma ref_has_skill_store (emps : list Employee.t) (k : eref)
    (e e' : Employee.t) (r : SkillType) (j : eref) :
  nth_error emps k = Some e ->
  Employee.skills e' = Employee.skills e ->
  Project.ref_has_skill (store k e' emps) r j = Project.ref_has_skill emps r j.
Proof.
  intros Hk Hs. unfold Project.ref_has_skill.
  destruct (Nat.eq_dec j k) as [E | E].
  - subst j. rewrite (nth_error_store_same _ _ _ _ Hk), Hk.
    unfold Employee.has_skill. rewrite Hs. reflexivity.
  - rewrite (nth_error_store_other _ _ _ _ E). reflexivity.
Qed.

Lemma existsb_same {A} (f g : A -> bool) (l : list A) :
  (forall x, f x = g x) -> existsb f l = existsb g l.
Proof.
  intros H. induction l as [|a l IH]; [reflexivity|].
  cbn. rewrite H, IH. reflexivity.
Qed.

Lemma filter_twice {A} (f g : A -> bool) (l : list A) :
  filter g (filter f l) = filter (fun x => f x && g x) l.
Proof.
  induction l as [|a l IH]; [reflexivity|]. cbn.
  destruct (f a); cbn; [destruct (g a)|]; rewrite IH; reflexivity.
Qed.

Lemma filter_shorter {A} (f : A -> bool) (l : list A) (x : A) :
  In x l -> f x = false -> (length (filter f l) < length l)%nat.
Proof.
  induction l as [|a l IH]; intros Hin Hx; [destruct Hin|].
  cbn. pose proof (filter_length_le f l) as Hle.
  destruct Hin as [E | Hin].
  - subst a. rewrite Hx. lia.
  - specialize (IH Hin Hx). destruct (f a); cbn; lia.
Qed.

(** X12.  When [assign_employee] accepts an employee, the employee is
    appended to the assignees, at least one missing skill of the project
    becomes covered and none becomes missing, the employee holds the new
    assignment for the slot of the project, and the project is marked
    [SCHEDULED] if this was its fifth assignee. *)
Theorem accepted_assignment_covers_a_skill (emps : list Employee.t) (p : pref)
    (q : Project.t) (k : eref) (e : Employee.t) :
  nth_error emps k = Some e ->
  fst (Project.assign_employee emps p q k e) = Ok tt ->
  let emps' := fst (snd (Project.assign_employee emps p q k e)) in
  let q' := snd (snd (Project.assign_employee emps p q k e)) in
  Project.assigned_employees q' = Project.assigned_employees q ++ [k]
  /\ (length (Project.get_missing_skills emps' q')
      < length (Project.get_missing_skills emps q))%nat
  /\ (forall r, In r (Project.get_missing_skills emps' q') ->
                In r (Project.get_missing_skills emps q)
                /\ Employee.has_skill e r = false)
  /\ (exists e', nth_error emps' k = Some e'
                 /\ Employee.assignments e'
                    = Employee.assignments e
                      ++ [Assignment.mk k p (Project.time_slot q)])
  /\ (length (Project.assigned_employees q') = 5%nat ->
      Project.status q' = SCHEDULED).
Proof.
  intros Hk Hok.
  destruct (Project.can_assign_employee emps q k e) eqn:Hc;
    [|rewrite (project_assign_refused _ p _ _ _ Hc) in Hok; discriminate].
  pose proof (project_assign_accepted _ p _ _ _ Hc) as Hrun.
  cbn zeta in Hrun. rewrite Hrun. cbn [fst snd]. clear Hrun Hok.
  change (if Project.is_fully_staffed _ then _ else _) with (project_with q k).
  change (snd (Employee.add_assignment e _)) with (employee_with e k p q).
  destruct (can_assign_not_full _ _ _ _ Hc) as (_ & _ & Hmiss & Hav).
  destruct (employee_with_accepted e k p q Hav) as (_ & _ & Hsk & _ & Hasg).
  destruct (project_with_fields q k)
    as (_ & _ & _ & Hreq & _ & _ & Hass & Hfull & _).
  assert (Hm : Project.get_missing_skills
                 (store k (employee_with e k p q) emps) (project_with q k)
               = filter (fun r => negb (Employee.has_skill e r))
                        (Project.get_missing_skills emps q)).
  { unfold Project.get_missing_skills. rewrite Hreq, Hass.
    rewrite filter_twice. apply filter_ext. intros r.
    rewrite existsb_app. cbn [existsb]. rewrite orb_false_r, negb_orb.
    rewrite (ref_has_skill_store emps k e _ r k Hk Hsk).
    unfold Project.ref_has_skill at 2. rewrite Hk.
    f_equal. f_equal.
    apply existsb_same. intros j.
    apply (ref_has_skill_store emps k e _ r j Hk Hsk). }
  split; [exact Hass|]. rewrite Hm. split; [|split; [|split]].
  - apply existsb_exists in Hmiss. destruct Hmiss as (r & Hr & Hhas).
    apply (filter_shorter _ _ r Hr). rewrite Hhas. reflexivity.
  - intros r Hr. apply filter_In in Hr. destruct Hr as [Hr Hn].
    split; [exact Hr|]. apply negb_true_iff. exact Hn.
  - exists (employee_with e k p q).
    rewrite (nth_error_store_same _ _ _ _ Hk). split; [reflexivity | exact Hasg].
  - intros H5. apply Hfull. unfold Project.is_fully_staffed. rewrite H5.
    reflexivity.
Qed.

Lemma accepted_assignment_covers_a_skill_witness :
  let emps := Schedule.employees full_team in
  let emps' := fst (snd (Project.assign_employee emps 0%nat news 1%nat a_producer)) in
  let q' := snd (snd (Project.assign_employee emps 0%nat news 1%nat a_producer)) in
  Project.assigned_employees q' = [1%nat]
  /\ (length (Project.get_missing_skills emps' q')
      < length (Project.get_missing_skills emps news))%nat.
Proof.
  intros emps emps' q'.
  destruct (accepted_assignment_covers_a_skill emps 0%nat news 1%nat a_producer
              eq_refl eq_refl) as (H1 & H2 & _).
  split; assumption.
Defined.

(** ** Adding to a schedule and looking up *)

Lemma find_snoc {A} (f : A -> bool) (l : list A) (x : A) :
  find f (l ++ [x])
  = match find f l with
    | Some y => Some y
    | None => if f x then Some x else None
    end.
Proof.
  induction l as [|a l IH]; cbn; [reflexivity|].
  destruct (f a); [reflexivity | exact IH].
Qed.

Lemma existsb_find_none {A} (f : A -> bool) (l : list A) :
  existsb f l = false <-> find f l = None.
Proof.
  induction l as [|a l IH]; cbn; [tauto|].
  destruct (f a); cbn; [split; discriminate | exact IH].
Qed.

(** X13.  [add_employee] refuses an employee whose id is already in the
    schedule and leaves the schedule unchanged; otherwise it appends the
    employee, who is then the one found under his id, while the lookup of
    every other id and the projects are as before. *)
Theorem add_employee_then_lookup (s : Schedule.t) (e : Employee.t) :
  match Schedule.add_employee s e with
  | (Ok _, s') =>
      Schedule.get_employee_by_id s (Employee.id e) = None
      /\ Schedule.employees s' = Schedule.employees s ++ [e]
      /\ Schedule.projects s' = Schedule.projects s
      /\ Schedule.get_employee_by_id s' (Employee.id e) = Some e
      /\ forall i, i <> Employee.id e ->
           Schedule.get_employee_by_id s' i = Schedule.get_employee_by_id s i
  | (Raise x, s') =>
      s' = s
      /\ x = ValueError (EmployeeIdExists (Employee.id e))
      /\ Schedule.get_employee_by_id s (Employee.id e) <> None
  end.
Proof.
  unfold Schedule.add_employee, Schedule.get_employee_by_id.
  destruct (existsb _ (Schedule.employees s)) eqn:Hex.
  - repeat split. intros Hn. apply existsb_find_none in Hn. congruence.
  - pose proof (proj1 (existsb_find_none _ _) Hex) as Hn.
    cbn [Schedule.employees Schedule.projects].
    repeat split; [exact Hn | |].
    + rewrite find_snoc, Hn, Z.eqb_refl. reflexivity.
    + intros i Hi. rewrite find_snoc.
      destruct (find (fun e0 => Employee.id e0 =? i) (Schedule.employees s));
        [reflexivity|].
      replace (Employee.id e =? i) with false; [reflexivity|].
      symmetry. apply Z.eqb_neq. congruence.
Qed.

(** X14.  [add_project] refuses a project whose id is already in the
    schedule and leaves the schedule unchanged; otherwise it appends the
    project, which is then the one found under its id, while the lookup
    of every other id and the employees are as before. *)
Theorem add_project_then_lookup (s : Schedule.t) (q : Project.t) :
  match Schedule.add_project s q with
  | (Ok _, s') =>
      Schedule.get_project_by_id s (Project.id q) = None
      /\ Schedule.projects s' = Schedule.projects s ++ [q]
      /\ Schedule.employees s' = Schedule.employees s
      /\ Schedule.get_project_by_id s' (Project.id q) = Some q
      /\ forall i, i <> Project.id q ->
           Schedule.get_project_by_id s' i = Schedule.get_project_by_id s i
  | (Raise x, s') =>
      s' = s
      /\ x = ValueError (ProjectIdExists (Project.id q))
      /\ Schedule.get_project_by_id s (Project.id q) <> None
  end.
Proof.
  unfold Schedule.add_project, Schedule.get_project_by_id.
  destruct (existsb _ (Schedule.projects s)) eqn:Hex.
  - repeat split. intros Hn. apply existsb_find_none in Hn. congruence.
  - pose proof (proj1 (existsb_find_none _ _) Hex) as Hn.
    cbn [Schedule.employees Schedule.projects].
    repeat split; [exact Hn | |].
    + rewrite find_snoc, Hn, Z.eqb_refl. reflexivity.
    + intros i Hi. rewrite find_snoc.
      destruct (find (fun q0 => Project.id q0 =? i) (Schedule.projects s));
        [reflexivity|].
      replace (Project.id q =? i) with false; [reflexivity|].
      symmetry. apply Z.eqb_neq. congruence.
Qed.

(** ** Sorting *)

Section Insertion.

Variable A : Type.
Variable le : A -> A -> bool.
Hypothesis le_total : forall x y, le x y = false -> le y x = true.
Hypothesis le_trans : forall x y z, le x y = true -> le y z = true -> le x z = true.

Lemma insert_by_sorted (x : A) (l : list A) :
  StronglySorted (fun a b => le a b = true) l ->
  StronglySorted (fun a b => le a b = true) (insert_by le x l).
Proof.
  induction 1 as [|y l Hl IH Hy]; cbn.
  - constructor; constructor.
  - destruct (le x y) eqn:Hxy.
    + constructor; [constructor; assumption|].
      constructor; [exact Hxy|].
      eapply Forall_impl; [|exact Hy]. intros z Hz.
      exact (le_trans _ _ _ Hxy Hz).
    + constructor; [exact IH|].
      apply Forall_forall. intros z Hz.
      apply (Permutation_in _ (insert_by_perm le x l)) in Hz.
      destruct Hz as [E | Hz].
      * subst z. apply le_total. exact Hxy.
      * rewrite Forall_forall in Hy. apply Hy. exact Hz.
Qed.

Lemma sort_by_sorted (l : list A) :
  StronglySorted (fun a b => le a b = true) (sort_by le l).
Proof.
  induction l as [|x l IH]; cbn; [constructor|].
  apply insert_by_sorted. exact IH.
Qed.

End Insertion.

Lemma StronglySorted_weaken {A} (R R' : A -> A -> Prop) (l : list A) :
  (forall x y, R x y -> R' x y) -> StronglySorted R l -> StronglySorted R' l.
Proof.
  intros H. induction 1 as [|a l Hl IH Ha]; constructor; [exact IH|].
  eapply Forall_impl; [|exact Ha]. intros y. apply H.
Qed.

Lemma map_fst_enumerate {A} (l : list A) :
  map fst (enumerate l) = seq 0 (length l).
Proof.
  unfold enumerate. generalize 0%nat.
  induction l as [|a l IH]; intros n; cbn; [reflexivity|].
  rewrite IH. reflexivity.
Qed.

Lemma sorted_projects_perm (s : Schedule.t) :
  Permutation (GreedyScheduler.sorted_projects s)
              (seq 0 (length (Schedule.projects s))).
Proof.
  unfold GreedyScheduler.sorted_projects.
  rewrite <- map_fst_enumerate. apply Permutation_map. apply sort_by_perm.
Qed.

(** X15.  The scheduler takes every project of the schedule exactly once,
    in descending priority, and in ascending start among projects of the
    same priority. *)
Theorem projects_are_taken_by_priority (s : Schedule.t) :
  Permutation (GreedyScheduler.sorted_projects s)
              (seq 0 (length (Schedule.projects s)))
  /\ exists l,
       GreedyScheduler.sorted_projects s = map fst l
       /\ Permutation l (enumerate (Schedule.projects s))
       /\ StronglySorted visited_before l.
Proof.
  unfold GreedyScheduler.sorted_projects. split.
  - rewrite <- map_fst_enumerate. apply Permutation_map. apply sort_by_perm.
  - eexists. split; [reflexivity|]. split; [apply sort_by_perm|].
    apply (StronglySorted_weaken
             (fun x y => GreedyScheduler.by_priority_then_start x y = true));
      [|apply sort_by_sorted].
    + intros x y H. unfold GreedyScheduler.by_priority_then_start in H.
      cbn [fst snd] in H. unfold visited_before.
      apply orb_true_iff in H. destruct H as [H | H].
      * apply Z.ltb_lt in H. lia.
      * apply andb_true_iff in H. destruct H as [H1 H2].
        apply Z.eqb_eq in H1. apply Z.leb_le in H2. lia.
    + intros x y H. unfold GreedyScheduler.by_priority_then_start in *.
      cbn [fst snd] in *.
      apply orb_false_iff in H. destruct H as [H1 H2].
      apply Z.ltb_ge in H1. apply andb_false_iff in H2.
      apply orb_true_iff.
      destruct (Z.eq_dec (- Project.priority (snd y)) (- Project.priority (snd x)))
        as [E | E].
      * right. rewrite E, Z.eqb_refl. cbn.
        destruct H2 as [H2 | H2]; [apply Z.eqb_neq in H2; lia|].
        apply Z.leb_gt in H2. apply Z.leb_le. lia.
      * left. apply Z.ltb_lt. lia.
    + intros x y z H1 H2. unfold GreedyScheduler.by_priority_then_start in *.
      cbn [fst snd] in *.
      rewrite orb_true_iff, andb_true_iff, Z.ltb_lt, Z.eqb_eq, Z.leb_le in *.
      lia.
Qed.

(** ** The best candidate *)

Lemma score_all_draws (g : GreedyScheduler.t)
    (cands : list (eref * Employee.t)) (q : Project.t) (w : World) :
  exists scored,
    GreedyScheduler.score_all g cands q w
    = (Ok scored,
       mkWorld (schedule_of w)
               (Random.mk (Random.outputs (generator_of w))
                          (Random.cursor (generator_of w) + length cands)))
    /\ map snd scored = cands.
Proof.
  revert w. induction cands as [|c cands IH]; intros w; cbn.
  - exists []. rewrite Nat.add_0_r. destruct w as [s [o c]]. split; reflexivity.
  - unfold bind.
    match goal with
    | |- context [GreedyScheduler.score_all g cands q ?w1] =>
        destruct (IH w1) as (scored & Hrun & Hm)
    end.
    rewrite Hrun. unfold ret.
    eexists. split.
    + cbn [schedule_of generator_of Random.outputs Random.cursor length].
      rewrite Nat.add_succ_r. reflexivity.
    + cbn [map snd]. rewrite Hm. reflexivity.
Qed.

(** X16.  Without candidates the selection raises; a lone candidate is
    selected without a draw from the generator; with two candidates or
    more, one value is drawn per candidate, in order, and the selected
    candidate is one whose score no other candidate's exceeds. *)
Theorem best_candidate_has_highest_score (g : GreedyScheduler.t)
    (cands : list (eref * Employee.t)) (q : Project.t) (w : World) :
  match cands with
  | [] =>
      GreedyScheduler._select_best_employee g cands q w
      = (Raise (ValueError NoCandidatesAvailable), w)
  | [only] =>
      GreedyScheduler._select_best_employee g cands q w = (Ok only, w)
  | _ :: _ :: _ =>
      exists scored best score w',
        GreedyScheduler.score_all g cands q w = (Ok scored, w')
        /\ GreedyScheduler._select_best_employee g cands q w = (Ok best, w')
        /\ schedule_of w' = schedule_of w
        /\ Random.outputs (generator_of w') = Random.outputs (generator_of w)
        /\ Random.cursor (generator_of w')
           = (Random.cursor (generator_of w) + length cands)%nat
        /\ map snd scored = cands
        /\ In (score, best) scored
        /\ forall x, In x scored -> (fst x <= score)%Q
  end.
Proof.
  destruct cands as [|c1 [|c2 cands]]; [reflexivity | reflexivity |].
  destruct (score_all_draws g (c1 :: c2 :: cands) q w) as (scored & Hrun & Hm).
  unfold GreedyScheduler._select_best_employee, bind. rewrite Hrun.
  pose proof (sort_by_perm GreedyScheduler.by_score_desc scored) as Hperm.
  pose proof (sort_by_sorted _ GreedyScheduler.by_score_desc) as Hsorted.
  specialize (Hsorted
    (fun x y H => proj2 (Qle_bool_iff _ _)
       (Qlt_le_weak _ _ (Qnot_le_lt _ _
          (fun H' => eq_true_false_abs _ (proj2 (Qle_bool_iff _ _) H') H))))
    (fun x y z H1 H2 => proj2 (Qle_bool_iff _ _)
       (Qle_trans _ _ _ (proj1 (Qle_bool_iff _ _) H2) (proj1 (Qle_bool_iff _ _) H1)))
    scored).
  destruct (sort_by GreedyScheduler.by_score_desc scored) as [|b rest] eqn:Hsort.
  - apply Permutation_nil in Hperm. subst scored. discriminate Hm.
  - exists scored, (snd b), (fst b). eexists.
    split; [reflexivity|]. split; [reflexivity|].
    cbn [schedule_of generator_of Random.outputs Random.cursor].
    repeat split; [exact Hm | |].
    + apply (Permutation_in _ Hperm). left. destruct b. reflexivity.
    + intros x Hx. apply (Permutation_in _ (Permutation_sym Hperm)) in Hx.
      inversion Hsorted as [|? ? _ Hfa]; subst.
      destruct Hx as [E | Hx]; [subst; apply Qle_refl|].
      rewrite Forall_forall in Hfa. specialize (Hfa x Hx).
      apply Qle_bool_iff. exact Hfa.
Qed.

(** ** The two validators *)

Lemma overlapping_pairs_cons_nil (a : Assignment.t) (l : list Assignment.t) :
  ConflictDetector.overlapping_pairs (a :: l) = []
  <-> (forall x, In x l ->
         TimeSlot.overlaps_with (Assignment.time_slot a)
                                (Assignment.time_slot x) = false)
      /\ ConflictDetector.overlapping_pairs l = [].
Proof.
  cbn [ConflictDetector.overlapping_pairs]. split.
  - intros H. apply app_eq_nil in H. destruct H as [H1 H2].
    split; [|exact H2]. apply map_eq_nil in H1.
    intros x Hx.
    destruct (TimeSlot.overlaps_with _ (Assignment.time_slot x)) eqn:E;
      [|reflexivity].
    assert (Hin : In x (filter (fun b => TimeSlot.overlaps_with
                                           (Assignment.time_slot a)
                                           (Assignment.time_slot b)) l))
      by (apply filter_In; tauto).
    rewrite H1 in Hin. destruct Hin.
  - intros [H1 H2]. rewrite H2, app_nil_r.
    rewrite filter_none; [reflexivity | exact H1].
Qed.

Lemma adjacent_nil_of_pairs_nil (n : string) (l : list Assignment.t) :
  ConflictDetector.overlapping_pairs l = [] ->
  Schedule.adjacent_overlaps n l = [].
Proof.
  induction l as [|a l IH]; [reflexivity|].
  intros H. apply overlapping_pairs_cons_nil in H. destruct H as [H1 H2].
  cbn [Schedule.adjacent_overlaps]. destruct l as [|b l]; [reflexivity|].
  rewrite (H1 b (or_introl eq_refl)). cbn [app]. apply IH. exact H2.
Qed.

Lemma pairs_nil_of_adjacent_nil (n : string) (l : list Assignment.t) :
  StronglySorted (fun x y => Schedule.by_start x y = true) l ->
  Forall (fun a => TimeSlot.valid (Assignment.time_slot a)) l ->
  Schedule.adjacent_overlaps n l = [] ->
  ConflictDetector.overlapping_pairs l = [].
Proof.
  induction 1 as [|a l Hl IH Ha]; intros Hv Hadj; [reflexivity|].
  inversion Hv as [|? ? Hva Hvl]; subst.
  apply overlapping_pairs_cons_nil.
  destruct l as [|b l]; [split; [intros x []|reflexivity]|].
  cbn [Schedule.adjacent_overlaps] in Hadj.
  apply app_eq_nil in Hadj. destruct Hadj as [Hab Hrest].
  split; [|apply IH; assumption].
  assert (Hd : TimeSlot.overlaps_with (Assignment.time_slot a)
                                      (Assignment.time_slot b) = false)
    by (destruct (TimeSlot.overlaps_with _ _); [discriminate | reflexivity]).
  inversion Hvl as [|? ? Hvb _]; subst.
  inversion Hl as [|? ? _ Hb]; subst.
  inversion Ha as [|? ? Hab' Hal]; subst.
  assert (Hend : TimeSlot.end_ (Assignment.time_slot a)
                 <= TimeSlot.start (Assignment.time_slot b)).
  { unfold TimeSlot.overlaps_with in Hd. apply negb_false_iff in Hd.
    apply orb_true_iff in Hd. rewrite Z.geb_leb, !Z.leb_le in Hd.
    unfold Schedule.by_start in Hab'. apply Z.leb_le in Hab'.
    unfold TimeSlot.valid in Hvb. lia. }
  intros x [E | Hx]; [subst; exact Hd|].
  rewrite Forall_forall in Hb. specialize (Hb x Hx).
  unfold Schedule.by_start in Hb. apply Z.leb_le in Hb.
  unfold TimeSlot.overlaps_with. apply negb_false_iff. apply orb_true_iff.
  left. apply Z.leb_le. lia.
Qed.

Lemma by_start_sorted (l : list Assignment.t) :
  StronglySorted (fun x y => Schedule.by_start x y = true)
                 (sort_by Schedule.by_start l).
Proof.
  apply sort_by_sorted; unfold Schedule.by_start.
  - intros x y H. apply Z.leb_gt in H. apply Z.leb_le. lia.
  - intros x y z H1 H2. apply Z.leb_le in H1, H2. apply Z.leb_le. lia.
Qed.

Lemma flat_map_nil {A B} (f : A -> list B) (l : list A) :
  flat_map f l = [] <-> Forall (fun x => f x = []) l.
Proof.
  induction l as [|a l IH]; cbn.
  - split; [constructor | reflexivity].
  - split.
    + intros H. apply app_eq_nil in H. destruct H as [H1 H2].
      constructor; [exact H1 | apply IH; exact H2].
    + intros H. inversion H as [|? ? H1 H2]; subst.
      rewrite H1. apply IH. exact H2.
Qed.

Lemma valid_iff_no_errors (s : Schedule.t) :
  Schedule.valid (Schedule.validate_schedule s) = true
  <-> Forall (fun e => Schedule.employee_errors e = []) (Schedule.employees s).
Proof.
  rewrite <- flat_map_nil. unfold Schedule.validate_schedule.
  cbn [Schedule.valid].
  destruct (flat_map Schedule.employee_errors (Schedule.employees s));
    split; try reflexivity; discriminate.
Qed.

(** X17.  When every assigned slot is well formed, [validate_schedule]
    (which compares neighbours only, in order of start) calls a schedule
    valid exactly when the conflict detector (which compares all pairs)
    finds no conflict for any employee. *)
Theorem validate_agrees_with_conflict_detector (s : Schedule.t) :
  all_slots_valid s ->
  (Schedule.valid (Schedule.validate_schedule s) = true
   <-> Forall (fun e => ConflictDetector.find_employee_conflicts e = [])
              (Schedule.employees s)).
Proof.
  intros Hv. rewrite valid_iff_no_errors. unfold all_slots_valid in Hv.
  rewrite !Forall_forall in *. split; intros H e He; specialize (H e He).
  - unfold ConflictDetector.find_employee_conflicts.
    change ConflictDetector.by_start with Schedule.by_start.
    apply (pairs_nil_of_adjacent_nil (Employee.name e));
      [apply by_start_sorted | | exact H].
    apply Forall_forall. intros a Ha.
    apply (Permutation_in _ (sort_by_perm _ _)) in Ha.
    specialize (Hv e He). rewrite Forall_forall in Hv. exact (Hv a Ha).
  - apply adjacent_nil_of_pairs_nil. exact H.
Qed.

(** After the run on the two projects that touch, every employee holds
    two assignments and both validators accept; on a schedule with a
    double-booked employee both refuse. *)
Lemma validate_agrees_with_conflict_detector_witness :
  let after_run :=
    schedule_of (snd (GreedyScheduler.schedule GreedyScheduler.default
                        (mkWorld two_projects seeded))) in
  let overbooked := Schedule.mk [double_booked; a_producer] [news; sports] in
  (map (fun e => length (Employee.assignments e)) (Schedule.employees after_run)
   = [2; 2; 2; 2; 2]%nat
   /\ Schedule.valid (Schedule.validate_schedule after_run) = true
   /\ (Schedule.valid (Schedule.validate_schedule after_run) = true
       <-> Forall (fun e => ConflictDetector.find_employee_conflicts e = [])
                  (Schedule.employees after_run)))
  /\ (Schedule.valid (Schedule.validate_schedule overbooked) = false
      /\ (Schedule.valid (Schedule.validate_schedule overbooked) = true
          <-> Forall (fun e => ConflictDetector.find_employee_conflicts e = [])
                     (Schedule.employees overbooked))).
Proof.
  intros after_run overbooked. split.
  - split; [vm_compute; reflexivity|]. split; [vm_compute; reflexivity|].
    apply (validate_agrees_with_conflict_detector after_run).
    vm_compute. repeat constructor.
  - split; [vm_compute; reflexivity|].
    apply (validate_agrees_with_conflict_detector overbooked).
    vm_compute. repeat constructor.
Defined.

Lemma greedy_statistics (g : GreedyScheduler.t) (w w' : World) (r : Results) :
  GreedyScheduler.schedule g w = (Ok r, w') ->
  statistics r = GreedyScheduler._calculate_statistics (schedule_of w').
Proof.
  unfold GreedyScheduler.schedule, bind. intros H.
  destruct (GreedyScheduler.projects_loop _ _ _ _ w) as [[[n failed]|e] w1];
    [|discriminate].
  destruct failed; inversion H; subst; reflexivity.
Qed.

Lemma strategy_statistics (strategy : SchedulingStrategy) (w w' : World)
    (r : Results) :
  strategy_schedule strategy w = (Ok r, w') ->
  statistics r = GreedyScheduler._calculate_statistics (schedule_of w').
Proof.
  destruct strategy as [g | o]; cbn.
  - apply greedy_statistics.
  - intros H.
    destruct (optimized_runs_greedy o w)
      as (ro & rg & w1 & Ho & Hg & _ & _ & _ & _ & _ & Hs).
    rewrite H in Ho. inversion Ho; subst ro w1.
    rewrite Hs. exact (greedy_statistics _ _ _ _ Hg).
Qed.

Lemma filter_negb_nil {A} (f : A -> bool) (l : list A) :
  filter (fun x => negb (f x)) l = [] <-> length (filter f l) = length l.
Proof.
  induction l as [|a l IH]; cbn; [tauto|].
  pose proof (filter_length_le f l) as Hle.
  destruct (f a); cbn.
  - rewrite IH. split; intros H; lia.
  - split; [discriminate | lia].
Qed.

(** X18.  After a run of either strategy on a schedule whose employees
    are free of conflicts, [validate_schedule] calls the schedule valid
    and lists no error; it counts the fully staffed projects the
    statistics of the run count, and it warns about unstaffed projects
    exactly when not all projects are fully staffed. *)
Theorem run_is_validated (strategy : SchedulingStrategy) (w : World) :
  all_conflict_free (schedule_of w) ->
  exists r w',
    strategy_schedule strategy w = (Ok r, w')
    /\ let v := Schedule.validate_schedule (schedule_of w') in
       Schedule.valid v = true
       /\ Schedule.errors v = []
       /\ Schedule.stats_fully_staffed_projects (Schedule.stats v)
          = fully_staffed_projects (statistics r)
       /\ (Schedule.validation_warnings v = []
           <-> fully_staffed_projects (statistics r)
               = total_projects (statistics r)).
Proof.
  intros Hw.
  destruct (strategy_inv all_conflict_free commit_keeps_conflict_free strategy w)
    as (r & w' & Hrun & Hinv).
  specialize (Hinv Hw). exists r, w'. split; [exact Hrun|].
  rewrite (strategy_statistics _ _ _ _ Hrun).
  assert (Hvalid : Schedule.valid (Schedule.validate_schedule (schedule_of w')) = true).
  { apply valid_iff_no_errors. unfold all_conflict_free in Hinv.
    eapply Forall_impl; [|exact Hinv]. intros e He.
    apply adjacent_nil_of_pairs_nil.
    exact (conflict_free_no_conflicts e He). }
  cbn zeta. split; [exact Hvalid|]. split; [|split].
  - unfold Schedule.validate_schedule in *. cbn [Schedule.valid Schedule.errors] in *.
    destruct (flat_map _ _); [reflexivity | discriminate].
  - reflexivity.
  - unfold Schedule.validate_schedule, GreedyScheduler._calculate_statistics.
    cbn [Schedule.validation_warnings fully_staffed_projects total_projects].
    rewrite <- filter_negb_nil. unfold Schedule.get_unscheduled_projects.
    destruct (filter _ _); split; try reflexivity; discriminate.
Qed.

Lemma run_is_validated_witness :
  all_conflict_free full_team
  /\ exists r w',
       strategy_schedule (Greedy GreedyScheduler.default)
                         (mkWorld full_team seeded) = (Ok r, w')
       /\ Schedule.valid (Schedule.validate_schedule (schedule_of w')) = true.
Proof.
  assert (H : all_conflict_free full_team) by (repeat constructor).
  split; [exact H|].
  destruct (run_is_validated (Greedy GreedyScheduler.default)
              (mkWorld full_team seeded) H) as (r & w' & Hrun & Hv & _).
  exists r, w'. split; assumption.
Defined.

(** ** The report of the optimized strategy *)

Lemma Qlt_bool_irrefl (x : Q) : Qlt_bool x x = false.
Proof.
  unfold Qlt_bool. apply negb_false_iff. apply Qle_bool_iff. apply Qle_refl.
Qed.

Lemma improvement_loop_fixed (o : OptimizedScheduler.t) (its : list nat)
    (n : nat) (w : World) :
  OptimizedScheduler.improvement_loop o its
    (Schedule.get_total_cost (schedule_of w), n) w
  = (Ok (Schedule.get_total_cost (schedule_of w), n), w).
Proof.
  induction its as [|it its IH]; cbn; [reflexivity|].
  unfold bind, OptimizedScheduler.improvement_step.
  cbn [OptimizedScheduler._attempt_improvement ret fst snd].
  rewrite Qlt_bool_irrefl. exact IH.
Qed.

(** X20.  The optimized strategy adds its report exactly when the greedy
    pass staffed every project; the report then gives the total cost of
    the schedule both as initial and as final cost, no improvement made
    and an improvement of zero.  When a project failed, the greedy
    result is returned as it is, without a report. *)
Theorem optimized_reports_no_improvement (o : OptimizedScheduler.t) (w : World) :
  exists r w',
    OptimizedScheduler.schedule o w = (Ok r, w')
    /\ match optimization r with
       | Some report =>
           success r = true
           /\ failed_projects r = []
           /\ initial_cost report = Schedule.get_total_cost (schedule_of w')
           /\ final_cost report = initial_cost report
           /\ improvements_made report = 0%nat
           /\ (improvement report == 0)%Q
           /\ (improvement_percentage report == 0)%Q
       | None =>
           success r = false
           /\ failed_projects r <> []
           /\ GreedyScheduler.schedule (OptimizedScheduler.greedy_scheduler o) w
              = (Ok r, w')
       end.
Proof.
  destruct (greedy_returns (OptimizedScheduler.greedy_scheduler o) w)
    as (rg & w' & Hg).
  assert (Hshape : optimization rg = None
                   /\ (success rg = true -> failed_projects rg = [])
                   /\ (success rg = false -> failed_projects rg <> [])).
  { unfold GreedyScheduler.schedule, bind in Hg.
    destruct (GreedyScheduler.projects_loop _ _ _ _ w) as [[[n failed]|e] w1];
      [|discriminate].
    destruct failed; inversion Hg; subst; cbn; repeat split;
      try discriminate; reflexivity. }
  destruct Hshape as (Hnone & Hs1 & Hs2).
  unfold OptimizedScheduler.schedule, OptimizedScheduler.schedule_body.
  unfold bind at 1. rewrite Hg.
  destruct (success rg) eqn:Hsucc; cbn [negb].
  - unfold bind. rewrite improvement_loop_fixed.
    eexists. exists w'. split; [reflexivity|].
    cbn [optimization success failed_projects initial_cost final_cost
         improvements_made improvement improvement_percentage fst snd].
    split; [reflexivity|]. split; [exact (Hs1 eq_refl)|].
    split; [reflexivity|]. split; [reflexivity|]. split; [reflexivity|].
    split; [lra|].
    destruct (Qlt_bool 0 _); [|reflexivity].
    unfold Qdiv. ring.
  - exists rg, w'. cbn [ret]. split; [reflexivity|]. rewrite Hnone.
    split; [exact Hsucc|]. split; [exact (Hs2 eq_refl) | reflexivity].
Qed.

(** ** The cost of one assignment *)

(** X21.  The cost of an assignment with a well-formed slot lies between
    its hours at the regular rate and its hours at the overtime rate; an
    assignment of at most 8 hours that is the only one of its employee on
    its day costs its hours at the regular rate. *)
Theorem assignment_cost_bounds (a : Assignment.t) (e : Employee.t) :
  TimeSlot.valid (Assignment.time_slot a) ->
  let hours := TimeSlot.duration_hours (Assignment.time_slot a) in
  (hours <= Assignment_get_cost a e)%Q
  /\ (Assignment_get_cost a e <= (13 # 10) * hours)%Q
  /\ ((forall b, In b (Employee.assignments e) ->
         date (TimeSlot.start (Assignment.time_slot b))
         = date (TimeSlot.start (Assignment.time_slot a)) ->
         Assignment_eqb b a = true) ->
      (hours <= 8)%Q ->
      (Assignment_get_cost a e == hours)%Q).
Proof.
  intros Hv hours. pose proof (duration_hours_positive _ Hv) as Hpos.
  fold hours in Hpos. unfold Assignment_get_cost. fold hours.
  set (daily := py_sum _).
  unfold Employee.cls_MAX_REGULAR_HOURS_PER_DAY, Employee.cls_REGULAR_RATE,
    Employee.cls_OVERTIME_RATE.
  assert (Hgen : forall d : Q,
            let '(regular, overtime) :=
              if Qlt_bool d 8
              then (Qmin hours (8 - d), Qmax 0 (hours - Qmin hours (8 - d)))
              else (0%Q, hours) in
            (hours <= regular * 1 + overtime * (13 # 10))%Q
            /\ (regular * 1 + overtime * (13 # 10) <= (13 # 10) * hours)%Q
            /\ ((d == 0)%Q -> (hours <= 8)%Q ->
                (regular * 1 + overtime * (13 # 10) == hours)%Q)).
  { intros d. unfold Qlt_bool. destruct (Qle_bool 8 d) eqn:E; cbn [negb].
    - apply Qle_bool_iff in E. repeat split; try lra.
    - assert (Hd : (d < 8)%Q).
      { destruct (Qlt_le_dec d 8) as [H | H]; [exact H|].
        apply Qle_bool_iff in H. congruence. }
      destruct (Q.min_spec hours (8 - d)) as [[H1 E1] | [H1 E1]];
        rewrite E1.
      + destruct (Q.max_spec 0 (hours - hours)) as [[H2 E2] | [H2 E2]];
          rewrite E2; repeat split; lra.
      + destruct (Q.max_spec 0 (hours - (8 - d))) as [[H2 E2] | [H2 E2]];
          rewrite E2; repeat split; try lra. }
  specialize (Hgen daily).
  destruct (if Qlt_bool daily 8 then _ else _) as [regular overtime].
  destruct Hgen as (H1 & H2 & H3). split; [exact H1|]. split; [exact H2|].
  intros Halone H8. apply H3; [|exact H8].
  subst daily. rewrite filter_none; [reflexivity|].
  intros b Hb.
  destruct (date (TimeSlot.start (Assignment.time_slot b))
            =? date (TimeSlot.start (Assignment.time_slot a))) eqn:Ed;
    [|reflexivity].
  apply Z.eqb_eq in Ed. rewrite (Halone b Hb Ed). reflexivity.
Qed.

Lemma assignment_cost_bounds_witness :
  let e := snd (Employee.add_assignment fresh_editor commit_5h) in
  (TimeSlot.duration_hours slot_5h <= Assignment_get_cost commit_5h e)%Q
  /\ (Assignment_get_cost commit_5h e
      <= (13 # 10) * TimeSlot.duration_hours slot_5h)%Q.
Proof.
  intros e.
  destruct (assignment_cost_bounds commit_5h e) as (H1 & H2 & _);
    [reflexivity|].
  split; assumption.
Defined.

(** ** Hours after a run *)

(** A commit keeps the totals adding up and the slots dyadic. *)
Lemma commit_keeps_dyadic_hours (s : Schedule.t) (p : pref) (q : Project.t)
    (k : eref) (e : Employee.t) :
  dyadic_hour_totals s ->
  nth_error (Schedule.projects s) p = Some q ->
  nth_error (Schedule.employees s) k = Some e ->
  Project.can_assign_employee (Schedule.employees s) q k e = true ->
  dyadic_hour_totals (committed s p q k e).
Proof.
  intros [Hp He] Hq Hk Hc. unfold dyadic_hour_totals, committed.
  cbn [Schedule.employees Schedule.projects].
  rewrite Forall_forall in Hp. pose proof (Hp q (nth_error_In _ _ Hq)) as Hwq.
  rewrite Forall_forall in He. pose proof (He e (nth_error_In _ _ Hk)) as [Hce Hwe].
  destruct (can_assign_not_full _ _ _ _ Hc) as (_ & _ & _ & Hav).
  split.
  - apply Forall_store; [|apply Forall_forall; exact Hp].
    destruct (project_with_fields q k) as (_ & _ & G3 & _).
    rewrite G3. exact Hwq.
  - apply Forall_store; [|apply Forall_forall; exact He].
    split.
    + apply add_assignment_hours_consistent. exact Hce.
    + destruct (employee_with_accepted e k p q Hav) as (_ & _ & _ & _ & G5).
      rewrite G5. apply Forall_app. split; [exact Hwe|].
      constructor; [exact Hwq | constructor].
Qed.

(** X26.  A run of either strategy on projects whose slots last dyadic
    hours (whole, half and quarter hours among them, on which the float
    arithmetic of the code is exact), from employees as the constructor
    leaves them: afterwards every employee holds such slots only, and his
    regular and overtime totals add up to the hours of the assignments he
    holds. *)
Theorem run_keeps_hours_totals (strategy : SchedulingStrategy) (w : World) :
  Forall newly_constructed (Schedule.employees (schedule_of w)) ->
  Forall (fun q => dyadic_hours (Project.time_slot q) = true)
         (Schedule.projects (schedule_of w)) ->
  exists r w',
    strategy_schedule strategy w = (Ok r, w')
    /\ Forall (fun e =>
                 hours_consistent e
                 /\ Forall (fun a => dyadic_hours (Assignment.time_slot a) = true)
                           (Employee.assignments e))
              (Schedule.employees (schedule_of w')).
Proof.
  intros He Hp.
  destruct (strategy_inv dyadic_hour_totals commit_keeps_dyadic_hours strategy w)
    as (r & w' & Hrun & Hinv).
  exists r, w'. split; [exact Hrun|].
  apply Hinv. split; [exact Hp|].
  eapply Forall_impl; [|exact He].
  intros e Hn. split; [apply newly_constructed_hours_consistent; exact Hn|].
  destruct Hn as (Ha & _). rewrite Ha. constructor.
Qed.

(** The run on the two projects that touch: five employees with nine
    hours each, recorded as three regular and six overtime. *)
Lemma run_keeps_hours_totals_witness :
  let w := mkWorld two_projects seeded in
  let run := strategy_schedule (Optimized OptimizedScheduler.default) w in
  map (fun e => (Qred (Employee.regular_hours_worked e),
                 Qred (Employee.overtime_hours_worked e),
                 length (Employee.assignments e)))
      (Schedule.employees (schedule_of (snd run)))
  = repeat (3%Q, 6%Q, 2%nat) 5
  /\ exists r w',
       run = (Ok r, w')
       /\ Forall (fun e =>
                    hours_consistent e
                    /\ Forall (fun a => dyadic_hours (Assignment.time_slot a) = true)
                              (Employee.assignments e))
                 (Schedule.employees (schedule_of w')).
Proof.
  intros w run. split; [vm_compute; reflexivity|].
  apply (run_keeps_hours_totals (Optimized OptimizedScheduler.default) w).
  - repeat constructor.
  - repeat constructor.
Defined.

(** ** The staffing report of a project *)

Lemma existsb_flat_map {A B} (f : B -> bool) (h : A -> list B) (l : list A) :
  existsb f (flat_map h l) = existsb (fun x => existsb f (h x)) l.
Proof.
  induction l as [|a l IH]; [reflexivity|].
  cbn. rewrite existsb_app, IH. reflexivity.
Qed.

(** X22.  [validate_project_staffing] calls a project valid exactly when
    it has five assignees, whatever skills they cover; it reports errors
    exactly when it has not; and its warnings name, in order, the skills
    [get_missing_skills] returns. *)
Theorem staffing_report_names_missing_skills (emps : list Employee.t)
    (q : Project.t) :
  let report := ConflictDetector.validate_project_staffing emps q in
  ConflictDetector.staffing_valid report = Project.is_fully_staffed q
  /\ (ConflictDetector.staffing_errors report = []
      <-> length (Project.assigned_employees q) = 5%nat)
  /\ ConflictDetector.staffing_warnings report
     = map (fun r => ConflictDetector.SkillNotCovered (SkillType_value r))
           (Project.get_missing_skills emps q).
Proof.
  unfold ConflictDetector.validate_project_staffing.
  cbn [ConflictDetector.staffing_valid ConflictDetector.staffing_errors
       ConflictDetector.staffing_warnings].
  split; [reflexivity|]. split.
  - unfold Project.is_fully_staffed.
    destruct (length (Project.assigned_employees q) =? 5)%nat eqn:E.
    + apply Nat.eqb_eq in E. tauto.
    + apply Nat.eqb_neq in E. split; [discriminate | contradiction].
  - f_equal. unfold Project.get_missing_skills. apply filter_ext. intros r.
    f_equal. rewrite existsb_flat_map. apply existsb_same. intros k.
    unfold Project.ref_has_skill, Employee.has_skill.
    destruct (nth_error emps k); reflexivity.
Qed.

(** ** The count of scheduled projects *)

Lemma store_store {A} (k : nat) (x y : A) (l : list A) :
  store k x (store k y l) = store k x l.
Proof.
  revert k. induction l as [|a l IH]; intros k; [reflexivity|].
  destruct k; cbn; [reflexivity|]. rewrite IH. reflexivity.
Qed.

Lemma count_after_store {A} (f : A -> bool) (p : nat) (x y : A) (l : list A) :
  nth_error l p = Some x -> f x = false ->
  length (filter f (store p y l))
  = (length (filter f l) + (if f y then 1 else 0))%nat.
Proof.
  revert p. induction l as [|a l IH]; intros p Hp Hx.
  - destruct p; discriminate.
  - destruct p; cbn in *.
    + inversion Hp; subst a. rewrite Hx. destruct (f y); cbn; lia.
    + specialize (IH p Hp Hx). destruct (f a); cbn; lia.
Qed.

Section Staffing.

Variable g : GreedyScheduler.t.
Variable p : pref.

Lemma skills_loop_staffing (skills : list SkillType) (w : World)
    (q : Project.t) :
  project_at w p = Some q ->
  (length (Project.assigned_employees q) + length skills <= 5)%nat ->
  exists b w' q',
    GreedyScheduler.skills_loop g p skills w = (Ok b, w')
    /\ project_at w' p = Some q'
    /\ Project.is_fully_staffed q' = b
    /\ Schedule.projects (schedule_of w')
       = store p q' (Schedule.projects (schedule_of w)).
Proof.
  revert w q. induction skills as [|skill rest IH]; intros w q Hq Hlen;
    cbn [GreedyScheduler.skills_loop].
  - rewrite Hq. exists (Project.is_fully_staffed q), w, q.
    repeat split; [exact Hq|]. symmetry. apply store_same. exact Hq.
  - rewrite Hq. cbn [length] in Hlen.
    assert (Hnf : Project.is_fully_staffed q = false)
      by (unfold Project.is_fully_staffed; apply Nat.eqb_neq; lia).
    destruct (Schedule.get_available_employees _ _ skill) as [|c cs] eqn:Hav.
    { exists false, w, q. repeat split; [exact Hq | exact Hnf|].
      symmetry. apply store_same. exact Hq. }
    destruct (select_best_spec g (c :: cs) q w) as (best & w1 & Hsel & Hs1 & _);
      [discriminate|].
    unfold bind at 1. rewrite Hsel.
    assert (Hq1 : project_at w1 p = Some q)
      by (unfold project_at in *; rewrite Hs1; exact Hq).
    destruct best as [k e]. unfold bind, try_except.
    destruct (Project.can_assign_employee
                (Schedule.employees (schedule_of w1)) q k e) eqn:Hc.
    + rewrite (assign_employee_accepted _ _ _ _ _ Hq1 Hc).
      set (w2 := mkWorld (committed (schedule_of w1) p q k e) (generator_of w1)).
      assert (Hq2 : project_at w2 p = Some (project_with q k)).
      { unfold project_at, w2, committed. cbn.
        apply (nth_error_store_same _ _ _ _ Hq1). }
      destruct (project_with_fields q k) as (_ & _ & _ & _ & _ & _ & Ha & _).
      destruct (IH w2 (project_with q k) Hq2) as (b & w' & q' & Hrun & Hq' & Hb & Hp).
      { rewrite Ha, length_app. cbn. lia. }
      exists b, w', q'. repeat split; try assumption.
      rewrite Hp. unfold w2, committed. cbn. rewrite store_store, Hs1.
      reflexivity.
    + rewrite (assign_employee_refused _ _ _ _ _ Hq1 Hc).
      destruct (IH w1 q Hq1) as (b & w' & q' & Hrun & Hq' & Hb & Hp); [lia|].
      exists b, w', q'. repeat split; try assumption.
      rewrite Hp, Hs1. reflexivity.
Qed.

Lemma schedule_project_staffing (w : World) (q : Project.t) :
  project_at w p = Some q -> unstaffed q ->
  exists b w' q',
    GreedyScheduler._schedule_project g p w = (Ok b, w')
    /\ project_at w' p = Some q'
    /\ Project.is_fully_staffed q' = b
    /\ Schedule.projects (schedule_of w')
       = store p q' (Schedule.projects (schedule_of w)).
Proof.
  intros Hq [Ha Hr]. unfold GreedyScheduler._schedule_project. rewrite Hq.
  apply (skills_loop_staffing _ w q Hq). rewrite Ha. cbn.
  unfold Project.get_missing_skills.
  pose proof (filter_length_le
                (fun required_skill =>
                   negb (existsb (Project.ref_has_skill
                                    (Schedule.employees (schedule_of w))
                                    required_skill)
                                 (Project.assigned_employees q)))
                (Project.required_skills q)).
  lia.
Qed.

End Staffing.

Lemma projects_loop_staffing (g : GreedyScheduler.t) (l : list pref) (n : nat)
    (failed : list FailedProject) (w : World) :
  NoDup l ->
  (forall p, In p l -> exists q, project_at w p = Some q /\ unstaffed q) ->
  exists n' failed' w',
    GreedyScheduler.projects_loop g l n failed w = (Ok (n', failed'), w')
    /\ (n' + staffed_count (schedule_of w)
        = n + staffed_count (schedule_of w'))%nat
    /\ length (Schedule.projects (schedule_of w'))
       = length (Schedule.projects (schedule_of w)).
Proof.
  revert n failed w. induction l as [|p rest IH]; intros n failed w Hnd Hl.
  - exists n, failed, w. cbn. repeat split.
  - inversion Hnd as [|? ? Hp Hrest]; subst.
    destruct (Hl p (or_introl eq_refl)) as (q & Hq & Hu).
    cbn [GreedyScheduler.projects_loop]. rewrite Hq.
    assert (Hnf : Project.is_fully_staffed q = false)
      by (destruct Hu as [Ha _]; unfold Project.is_fully_staffed;
          rewrite Ha; reflexivity).
    rewrite Hnf.
    destruct (schedule_project_staffing g p w q Hq Hu)
      as (b & w1 & q1 & Hrun & Hq1 & Hb & Hps).
    unfold bind. rewrite Hrun.
    assert (Hcount : staffed_count (schedule_of w1)
                     = (staffed_count (schedule_of w)
                        + (if b then 1 else 0))%nat).
    { unfold staffed_count. rewrite Hps.
      rewrite (count_after_store _ _ q q1 _ Hq Hnf), Hb. reflexivity. }
    assert (Hlen1 : length (Schedule.projects (schedule_of w1))
                    = length (Schedule.projects (schedule_of w)))
      by (rewrite Hps; apply store_length).
    assert (Hl1 : forall p', In p' rest ->
              exists q', project_at w1 p' = Some q' /\ unstaffed q').
    { intros p' Hin. destruct (Hl p' (or_intror Hin)) as (q' & Hq' & Hu').
      exists q'. split; [|exact Hu'].
      unfold project_at in *. rewrite Hps.
      rewrite nth_error_store_other; [exact Hq'|].
      intros E. subst p'. contradiction. }
    destruct b.
    + destruct (IH (n + 1)%nat failed w1 Hrest Hl1)
        as (n' & f' & w' & Hrun' & Hc & Hlen).
      exists n', f', w'. split; [exact Hrun'|]. split; lia.
    + rewrite Hq1.
      match goal with
      | |- context [GreedyScheduler.projects_loop g rest n ?f w1] =>
          destruct (IH n f w1 Hrest Hl1) as (n' & f' & w' & Hrun' & Hc & Hlen)
      end.
      exists n', f', w'. split; [exact Hrun'|]. split; lia.
Qed.

Lemma strategy_as_greedy (strategy : SchedulingStrategy) (w : World) :
  exists g r rg w',
    strategy_schedule strategy w = (Ok r, w')
    /\ GreedyScheduler.schedule g w = (Ok rg, w')
    /\ scheduled_projects r = scheduled_projects rg
    /\ failed_projects r = failed_projects rg
    /\ statistics r = statistics rg.
Proof.
  destruct strategy as [g | o]; cbn.
  - destruct (greedy_returns g w) as (r & w' & Hg).
    exists g, r, r, w'. repeat split; exact Hg.
  - destruct (optimized_runs_greedy o w)
      as (ro & rg & w' & Ho & Hg & _ & _ & H1 & H2 & _ & H3).
    exists (OptimizedScheduler.greedy_scheduler o), ro, rg, w'.
    repeat split; assumption.
Qed.

(** X23.  On a schedule whose projects have no assignee yet, the number
    of scheduled projects a run of either strategy reports is the number
    of fully staffed projects of the schedule it leaves, and the reported
    failures are all the other projects. *)
Theorem scheduled_count_is_staffed_count (strategy : SchedulingStrategy)
    (w : World) :
  Forall unstaffed (Schedule.projects (schedule_of w)) ->
  exists r w',
    strategy_schedule strategy w = (Ok r, w')
    /\ scheduled_projects r = staffed_count (schedule_of w')
    /\ scheduled_projects r = fully_staffed_projects (statistics r)
    /\ (scheduled_projects r + length (failed_projects r)
        = total_projects (statistics r))%nat.
Proof.
  intros Hw.
  destruct (strategy_as_greedy strategy w)
    as (g & r & rg & w' & Hrun & Hg & H1 & H2 & H3).
  exists r, w'. split; [exact Hrun|]. rewrite H1, H2, H3.
  rewrite (greedy_statistics _ _ _ _ Hg).
  assert (Hnd : NoDup (GreedyScheduler.sorted_projects (schedule_of w))).
  { apply (Permutation_NoDup
             (Permutation_sym
                (sorted_projects_perm (schedule_of w)))).
    apply seq_NoDup. }
  assert (Hl : forall p, In p (GreedyScheduler.sorted_projects (schedule_of w)) ->
             exists q, project_at w p = Some q /\ unstaffed q).
  { intros p Hp. apply sorted_projects_in in Hp.
    unfold project_at.
    destruct (nth_error (Schedule.projects (schedule_of w)) p) as [q|] eqn:Hq;
      [|apply nth_error_None in Hq; lia].
    exists q. split; [reflexivity|].
    rewrite Forall_forall in Hw. apply Hw.
    apply nth_error_In with (n := p). exact Hq. }
  destruct (projects_loop_staffing g _ 0%nat [] w Hnd Hl)
    as (n' & failed' & w1 & Hloop & Hc & Hlen).
  destruct (projects_loop_counts g _ 0%nat [] w (sorted_projects_in _))
    as (n2 & failed2 & w2 & Hloop2 & Hc2).
  rewrite Hloop in Hloop2. inversion Hloop2; subst n2 failed2 w2.
  rewrite sorted_projects_length in Hc2. cbn [length] in Hc2.
  assert (H0 : staffed_count (schedule_of w) = 0%nat).
  { unfold staffed_count. rewrite filter_none; [reflexivity|].
    intros q Hq. rewrite Forall_forall in Hw.
    destruct (Hw q Hq) as [Ha _]. unfold Project.is_fully_staffed.
    rewrite Ha. reflexivity. }
  unfold GreedyScheduler.schedule, bind in Hg. rewrite Hloop in Hg.
  assert (Hr : scheduled_projects rg = n' /\ failed_projects rg = failed'
               /\ w' = w1)
    by (destruct failed'; inversion Hg; subst; repeat split).
  destruct Hr as (Hr1 & Hr2 & Hr3). subst w1.
  rewrite Hr1, Hr2.
  unfold GreedyScheduler._calculate_statistics.
  cbn [fully_staffed_projects total_projects].
  fold (staffed_count (schedule_of w')).
  repeat split; lia.
Qed.

Lemma scheduled_count_is_staffed_count_witness :
  Forall unstaffed (Schedule.projects full_team)
  /\ exists r w',
       strategy_schedule (Greedy GreedyScheduler.default)
                         (mkWorld full_team seeded) = (Ok r, w')
       /\ scheduled_projects r = staffed_count (schedule_of w').
Proof.
  assert (H : Forall unstaffed (Schedule.projects full_team)).
  { repeat constructor. }
  split; [exact H|].
  destruct (scheduled_count_is_staffed_count (Greedy GreedyScheduler.default)
              (mkWorld full_team seeded) H) as (r & w' & Hrun & Hc & _).
  exists r, w'. split; assumption.
Defined.

(** ** Assignees *)

(** X24.  A run of either strategy never puts an employee twice on a
    project: if the assignees of every project are distinct before the
    run, they are distinct after it. *)
Theorem assignees_stay_distinct (strategy : SchedulingStrategy) (w : World) :
  assignees_distinct (schedule_of w) ->
  exists r w',
    strategy_schedule strategy w = (Ok r, w')
    /\ assignees_distinct (schedule_of w').
Proof.
  intros Hw.
  destruct (strategy_inv assignees_distinct) with (strategy := strategy) (w := w)
    as (r & w' & Hrun & Hinv).
  - intros s p q k e Hs Hq _ Hc. unfold assignees_distinct in *. cbn.
    apply (Forall_store_at _ _ q); [exact Hq | | exact Hs].
    intros Hnd. destruct (can_assign_not_full _ _ _ _ Hc) as (_ & Hnotin & _).
    destruct (project_with_fields q k) as (_ & _ & _ & _ & _ & _ & Ha & _).
    rewrite Ha. apply NoDup_snoc; [exact Hnd|].
    intros Hin.
    assert (existsb (Nat.eqb k) (Project.assigned_employees q) = true)
      by (apply existsb_exists; exists k; split;
          [exact Hin | apply Nat.eqb_refl]).
    congruence.
  - exists r, w'. split; [exact Hrun | exact (Hinv Hw)].
Qed.

Lemma assignees_stay_distinct_witness :
  assignees_distinct full_team
  /\ exists r w',
       strategy_schedule (Greedy GreedyScheduler.default)
                         (mkWorld full_team seeded) = (Ok r, w')
       /\ assignees_distinct (schedule_of w').
Proof.
  assert (H : assignees_distinct full_team) by (repeat constructor).
  split; [exact H|].
  exact (assignees_stay_distinct (Greedy GreedyScheduler.default)
           (mkWorld full_team seeded) H).
Defined.

(** ** Five assignees cover the five skills *)

Lemma missing_skills_frame (emps : list Employee.t) (k : eref)
    (e e' : Employee.t) (q : Project.t) :
  nth_error emps k = Some e ->
  Employee.skills e' = Employee.skills e ->
  Project.get_missing_skills (store k e' emps) q
  = Project.get_missing_skills emps q.
Proof.
  intros Hk Hs. unfold Project.get_missing_skills.
  apply filter_ext. intros r. f_equal. apply existsb_same. intros j.
  apply (ref_has_skill_store emps k e e' r j Hk Hs).
Qed.

Lemma missing_skills_after_commit (emps : list Employee.t) (p : pref)
    (q : Project.t) (k : eref) (e : Employee.t) :
  nth_error emps k = Some e ->
  Project.can_assign_employee emps q k e = true ->
  (length (Project.get_missing_skills
             (store k (employee_with e k p q) emps) (project_with q k))
   < length (Project.get_missing_skills emps q))%nat.
Proof.
  intros Hk Hc.
  destruct (can_assign_not_full _ _ _ _ Hc) as (_ & _ & Hmiss & _).
  rewrite (missing_skills_frame emps k e _ _ Hk (employee_with_skills e k p q)).
  destruct (project_with_fields q k) as (_ & _ & _ & Hreq & _ & _ & Hass & _).
  unfold Project.get_missing_skills. rewrite Hreq, Hass.
  apply existsb_exists in Hmiss. destruct Hmiss as (r & Hr & Hhas).
  unfold Project.get_missing_skills in Hr. apply filter_In in Hr.
  destruct Hr as [Hr Hcov].
  assert (Hsub : forall x,
            negb (existsb (Project.ref_has_skill emps x)
                          (Project.assigned_employees q ++ [k]))
            = negb (existsb (Project.ref_has_skill emps x)
                            (Project.assigned_employees q))
              && negb (Employee.has_skill e x)).
  { intros x. rewrite existsb_app. cbn [existsb].
    rewrite orb_false_r, negb_orb. unfold Project.ref_has_skill at 2.
    rewrite Hk. reflexivity. }
  rewrite (filter_ext _ _ Hsub), <- filter_twice.
  apply (filter_shorter _ _ r).
  - apply filter_In. split; assumption.
  - rewrite Hhas. reflexivity.
Qed.

(** X25.  A run of either strategy keeps, for every project, at most as
    many missing skills as it has room for assignees below five; hence on
    a schedule whose projects start without assignees and require five
    skills at most, every project with five assignees after the run has
    no missing skill. *)
Theorem five_assignees_cover_all_skills (strategy : SchedulingStrategy)
    (w : World) :
  Forall unstaffed (Schedule.projects (schedule_of w)) ->
  exists r w',
    strategy_schedule strategy w = (Ok r, w')
    /\ room_for_missing_skills (schedule_of w')
    /\ forall q, In q (Schedule.projects (schedule_of w')) ->
         Project.is_fully_staffed q = true ->
         Project.get_missing_skills (Schedule.employees (schedule_of w')) q = [].
Proof.
  intros Hw.
  destruct (strategy_inv room_for_missing_skills) with (strategy := strategy)
    (w := w) as (r & w' & Hrun & Hinv).
  - intros s p q k e Hs Hq Hk Hc. unfold room_for_missing_skills in *.
    cbn [committed Schedule.employees Schedule.projects].
    apply (Forall_store_at _ _ q); [exact Hq | |].
    + intros Hle.
      pose proof (missing_skills_after_commit _ p q k e Hk Hc) as Hlt.
      destruct (project_with_fields q k) as (_ & _ & _ & _ & _ & _ & Ha & _).
      rewrite Ha, length_app. cbn [length].
      rewrite (missing_skills_frame _ k e _ q Hk (employee_with_skills e k p q))
        in Hle. lia.
    + eapply Forall_impl; [|exact Hs]. intros q1 H1.
      rewrite (missing_skills_frame _ k e _ q1 Hk (employee_with_skills e k p q)).
      exact H1.
  - assert (H0 : room_for_missing_skills (schedule_of w)).
    { unfold room_for_missing_skills. eapply Forall_impl; [|exact Hw].
      intros q [Ha Hr].
      assert (H0 : length (Project.assigned_employees q) = 0%nat)
        by (rewrite Ha; reflexivity).
      unfold Project.get_missing_skills.
      pose proof (filter_length_le
                    (fun required_skill =>
                       negb (existsb (Project.ref_has_skill
                                        (Schedule.employees (schedule_of w))
                                        required_skill)
                                     (Project.assigned_employees q)))
                    (Project.required_skills q)).
      lia. }
    specialize (Hinv H0). exists r, w'. split; [exact Hrun|].
    split; [exact Hinv|]. intros q Hq Hfull.
    unfold room_for_missing_skills in Hinv. rewrite Forall_forall in Hinv.
    specialize (Hinv q Hq). unfold Project.is_fully_staffed in Hfull.
    apply Nat.eqb_eq in Hfull.
    destruct (Project.get_missing_skills _ q); [reflexivity|].
    cbn [length] in Hinv. lia.
Qed.

Lemma five_assignees_cover_all_skills_witness :
  Forall unstaffed (Schedule.projects full_team)
  /\ exists r w',
       strategy_schedule (Greedy GreedyScheduler.default)
                         (mkWorld full_team seeded) = (Ok r, w')
       /\ room_for_missing_skills (schedule_of w').
Proof.
  assert (H : Forall unstaffed (Schedule.projects full_team))
    by (repeat constructor).
  split; [exact H|].
  destruct (five_assignees_cover_all_skills (Greedy GreedyScheduler.default)
              (mkWorld full_team seeded) H) as (r & w' & Hrun & Hroom & _).
  exists r, w'. split; assumption.
Defined.
(** ** Under-staffed projects and the rest of the run *)

Lemma schedule_extends_refl (s : Schedule.t) : schedule_extends s s.
Proof.
  split; apply Forall2_same;
    [apply employee_extends_refl | apply project_extends_refl].
Qed.

(** The attempt on a project returns, and only appends to the schedule. *)
Lemma schedule_project_extends (g : GreedyScheduler.t) (p : pref) (w : World) :
  exists b w1,
    GreedyScheduler._schedule_project g p w = (Ok b, w1)
    /\ schedule_extends (schedule_of w) (schedule_of w1).
Proof.
  destruct (schedule_project_inv (schedule_extends (schedule_of w))
              (commit_extends (schedule_of w)) g p w) as (b & w1 & Hrun & Hinv).
  exists b, w1. split; [exact Hrun|]. apply Hinv. apply schedule_extends_refl.
Qed.

(** One turn of the loop on a project that is not fully staffed: whether
    the attempt succeeds or not, the loop goes on with the projects that
    follow, from the schedule the attempt left. *)
Lemma projects_loop_step (g : GreedyScheduler.t) (p : pref) (rest : list pref)
    (n : nat) (failed : list FailedProject) (w : World) (q : Project.t) :
  project_at w p = Some q ->
  Project.is_fully_staffed q = false ->
  exists b w1 q1,
    GreedyScheduler._schedule_project g p w = (Ok b, w1)
    /\ schedule_extends (schedule_of w) (schedule_of w1)
    /\ project_at w1 p = Some q1
    /\ GreedyScheduler.projects_loop g (p :: rest) n failed w
       = if b then GreedyScheduler.projects_loop g rest (n + 1)%nat failed w1
         else GreedyScheduler.projects_loop g rest n
                (failed ++ [GreedyScheduler.failed_entry
                              (Schedule.employees (schedule_of w1)) q1])
                w1.
Proof.
  intros Hq Hfull.
  destruct (schedule_project_extends g p w) as (b & w1 & Hrun & Hext).
  assert (Hq1 : exists q1, project_at w1 p = Some q1).
  { unfold project_at in *.
    destruct (nth_error (Schedule.projects (schedule_of w1)) p) as [q1|] eqn:E;
      [exists q1; reflexivity|].
    apply nth_error_None in E.
    rewrite <- (Forall2_length (proj2 Hext)) in E.
    apply nth_error_None in E. congruence. }
  destruct Hq1 as (q1 & Hq1).
  exists b, w1, q1. split; [exact Hrun|]. split; [exact Hext|].
  split; [exact Hq1|].
  cbn [GreedyScheduler.projects_loop]. rewrite Hq, Hfull.
  unfold bind. rewrite Hrun. destruct b; [reflexivity|].
  rewrite Hq1. reflexivity.
Qed.

(** The loop over [l1 ++ l2] is the loop over [l2] started where the loop
    over [l1] ended, with the failures recorded so far: no outcome on
    [l1] ends it. *)
Lemma projects_loop_app (g : GreedyScheduler.t) (l1 l2 : list pref) (n : nat)
    (failed : list FailedProject) (w : World) :
  exists n1 failed1 w1,
    GreedyScheduler.projects_loop g l1 n failed w = (Ok (n1, failed1), w1)
    /\ (exists more, failed1 = failed ++ more)
    /\ GreedyScheduler.projects_loop g (l1 ++ l2) n failed w
       = GreedyScheduler.projects_loop g l2 n1 failed1 w1.
Proof.
  revert n failed w. induction l1 as [|p rest IH]; intros n failed w.
  - exists n, failed, w. split; [reflexivity|]. split; [|reflexivity].
    exists []. rewrite app_nil_r. reflexivity.
  - cbn [GreedyScheduler.projects_loop app].
    destruct (project_at w p) as [q|] eqn:Hq; [|apply IH].
    destruct (Project.is_fully_staffed q) eqn:Hfull; [apply IH|].
    destruct (schedule_project_extends g p w) as (b & w1 & Hrun & _).
    unfold bind. rewrite Hrun. destruct b; [apply IH|].
    destruct (project_at w1 p) as [q1|]; [|apply IH].
    match goal with
    | |- context [GreedyScheduler.projects_loop g rest n ?f w1] =>
        destruct (IH n f w1) as (n1 & f1 & w2 & Hl & (more & Hmore) & Happ)
    end.
    exists n1, f1, w2. split; [exact Hl|]. split; [|exact Happ].
    eexists. rewrite Hmore, <- app_assoc. reflexivity.
Qed.

(** C7.  A run returns normally and counts every project as scheduled
    or as failed.  With a single project without assignees, and employees
    free for its slot who hold exactly one skill each, one for every
    required skill but [X], the project is reported as failed, the missing
    skills are [X] and the skills declared after it, and the holders of
    the skills declared before [X] are on the project, each with the one
    new assignment; when [X] is declared last, the entry names [X] alone
    and all four employees are on the project.  The run continues with the
    projects that follow: the loop over the projects is never ended by
    what happened to the earlier ones, the failures recorded so far are
    kept, and after a project could not be staffed its entry is recorded
    and the loop goes on with the remaining projects, from the schedule
    the attempt left, where the assignments it made are retained. *)
Theorem understaffed_project_is_reported (g : GreedyScheduler.t) (w : World) :
  (exists r w',
     GreedyScheduler.schedule g w = (Ok r, w')
     /\ (scheduled_projects r + length (failed_projects r)
         = length (Schedule.projects (schedule_of w)))%nat)
  /\ (forall (q0 : Project.t) (pre post : list SkillType) (X : SkillType),
       Schedule.projects (schedule_of w) = [q0] ->
       Project.assigned_employees q0 = [] ->
       Project.required_skills q0 = pre ++ X :: post ->
       NoDup (pre ++ X :: post) ->
       length (pre ++ X :: post) = 5%nat ->
       Permutation (map Employee.skills (Schedule.employees (schedule_of w)))
                   (map (fun r => [r]) (pre ++ post)) ->
       Forall (fun e => Employee.is_available e (Project.time_slot q0) = true)
              (Schedule.employees (schedule_of w)) ->
       exists r ks w',
         GreedyScheduler.schedule g w = (Ok r, w')
         /\ success r = false
         /\ scheduled_projects r = 0%nat
         /\ failed_projects r
            = [mkFailed (Project.id q0) (Project.name q0)
                        (map SkillType_value (X :: post))]
         /\ after_commits (Schedule.employees (schedule_of w)) q0 pre ks
                          (schedule_of w')
         /\ length ks = length pre
         /\ (all_conflict_free (schedule_of w) ->
             all_conflict_free (schedule_of w')))
  /\ (forall (l1 l2 : list pref),
        GreedyScheduler.sorted_projects (schedule_of w) = l1 ++ l2 ->
        exists n1 failed1 w1 r w',
          GreedyScheduler.projects_loop g l1 0%nat [] w
          = (Ok (n1, failed1), w1)
          /\ GreedyScheduler.projects_loop g l2 n1 failed1 w1
             = (Ok (scheduled_projects r, failed_projects r), w')
          /\ (exists more, failed_projects r = failed1 ++ more)
          /\ GreedyScheduler.schedule g w = (Ok r, w'))
  /\ (forall (p : pref) (rest : list pref) (n : nat)
             (failed : list FailedProject) (q : Project.t),
        project_at w p = Some q ->
        Project.is_fully_staffed q = false ->
        exists b w1 q1,
          GreedyScheduler._schedule_project g p w = (Ok b, w1)
          /\ schedule_extends (schedule_of w) (schedule_of w1)
          /\ project_at w1 p = Some q1
          /\ GreedyScheduler.projects_loop g (p :: rest) n failed w
             = if b then
                 GreedyScheduler.projects_loop g rest (n + 1)%nat failed w1
               else
                 GreedyScheduler.projects_loop g rest n
                   (failed ++ [GreedyScheduler.failed_entry
                                 (Schedule.employees (schedule_of w1)) q1])
                   w1).
Proof.
  split; [apply schedule_counts|]. split; [|split].
  - intros q0 pre post X Hps Hasg Hreq Hnd Hlen Hperm Hfree.
    destruct (U_run g _ q0 pre post X Hasg Hreq Hnd Hlen Hperm Hfree w eq_refl Hps)
      as (r & ks & w' & Hrun & Hsucc & Hsched & Hfailed & St & _).
    exists r, ks, w'. repeat (split; [assumption|]).
    split; [exact (Forall2_length (proj1 (proj2 St)))|].
    destruct (schedule_inv all_conflict_free commit_keeps_conflict_free g w)
      as (r1 & w1 & Hrun1 & Hinv).
    rewrite Hrun in Hrun1. inversion Hrun1; subst. exact Hinv.
  - intros l1 l2 Hsplit.
    destruct (projects_loop_app g l1 l2 0%nat [] w)
      as (n1 & f1 & w1 & Hl1 & _ & Happ).
    destruct (projects_loop_app g l2 [] n1 f1 w1)
      as (n2 & f2 & w2 & Hl2 & Hmore & _).
    assert (Hr : exists r,
               GreedyScheduler.schedule g w = (Ok r, w2)
               /\ scheduled_projects r = n2 /\ failed_projects r = f2).
    { unfold GreedyScheduler.schedule, bind. rewrite Hsplit, Happ, Hl2.
      destruct f2 as [|x f2]; eexists; repeat split. }
    destruct Hr as (r & Hrun & Hn & Hf).
    exists n1, f1, w1, r, w2. rewrite Hn, Hf.
    split; [exact Hl1|]. split; [exact Hl2|]. split; [exact Hmore | exact Hrun].
  - intros p rest n failed q. apply projects_loop_step.
Qed.

(** Nobody does audio: the single project is reported with that one
    skill.  The engineer is away in the morning and there are two
    projects: the first is reported as missing the audio engineer, with
    its four assignees, and the second, taken next, is fully staffed. *)
Lemma understaffed_project_is_reported_witness :
  (exists r ks w',
     GreedyScheduler.schedule GreedyScheduler.default
       (mkWorld no_engineer seeded) = (Ok r, w')
     /\ success r = false
     /\ scheduled_projects r = 0%nat
     /\ failed_projects r = [mkFailed 7 "News" ["Audio Engineer"%string]]
     /\ after_commits (Schedule.employees no_engineer) news
          [PRODUCER; EDITOR; GRAPHICS_DESIGNER; COLORIST] ks (schedule_of w')
     /\ length ks = 4%nat
     /\ (all_conflict_free no_engineer -> all_conflict_free (schedule_of w')))
  /\ (let w := mkWorld engineer_away seeded in
      (exists n1 failed1 w1 r w',
         GreedyScheduler.projects_loop GreedyScheduler.default [0%nat] 0%nat [] w
         = (Ok (n1, failed1), w1)
         /\ GreedyScheduler.projects_loop GreedyScheduler.default [1%nat]
              n1 failed1 w1
            = (Ok (scheduled_projects r, failed_projects r), w')
         /\ (exists more, failed_projects r = failed1 ++ more)
         /\ GreedyScheduler.schedule GreedyScheduler.default w = (Ok r, w'))
      /\ (exists b w1 q1,
            GreedyScheduler._schedule_project GreedyScheduler.default 0%nat w
            = (Ok b, w1)
            /\ schedule_extends (schedule_of w) (schedule_of w1)
            /\ project_at w1 0%nat = Some q1
            /\ GreedyScheduler.projects_loop GreedyScheduler.default
                 [0%nat; 1%nat] 0%nat [] w
               = if b then
                   GreedyScheduler.projects_loop GreedyScheduler.default
                     [1%nat] 1%nat [] w1
                 else
                   GreedyScheduler.projects_loop GreedyScheduler.default
                     [1%nat] 0%nat
                     [GreedyScheduler.failed_entry
                        (Schedule.employees (schedule_of w1)) q1]
                     w1)
      /\ fst (GreedyScheduler._schedule_project GreedyScheduler.default
                0%nat w) = Ok false
      /\ (let '(r, w') := GreedyScheduler.schedule GreedyScheduler.default w in
          option_map (fun x => (success x, scheduled_projects x,
                                failed_projects x))
                     (match r with Ok x => Some x | Raise _ => None end)
          = Some (false, 1%nat,
                  [mkFailed 7 "News" ["Audio Engineer"%string]])
          /\ map Project.assigned_employees
                 (Schedule.projects (schedule_of w'))
             = [[1; 0; 2; 3]; [1; 0; 2; 3; 4]]%nat)).
Proof.
  split.
  - refine (proj1 (proj2 (understaffed_project_is_reported
                            GreedyScheduler.default
                            (mkWorld no_engineer seeded)))
              news [PRODUCER; EDITOR; GRAPHICS_DESIGNER; COLORIST] []
              AUDIO_ENGINEER _ _ _ _ _ _ _).
    + reflexivity.
    + reflexivity.
    + reflexivity.
    + repeat constructor; cbn; intuition discriminate.
    + reflexivity.
    + cbn. apply perm_swap.
    + repeat constructor.
  - intros w.
    pose proof (understaffed_project_is_reported GreedyScheduler.default w)
      as (_ & _ & Hsplit & Hstep).
    split; [exact (Hsplit [0%nat] [1%nat] eq_refl)|].
    split; [exact (Hstep 0%nat [1%nat] 0%nat [] news eq_refl eq_refl)|].
    split; [vm_compute; reflexivity|].
    vm_compute. split; reflexivity.
Defined.

(** With the uncovered skill declared first the run stops at it: the entry
    lists the five skills and nobody is on the project. *)
Lemma uncovered_skill_declared_first :
  (let '(r, w') := GreedyScheduler.schedule GreedyScheduler.default
                     (mkWorld no_producer seeded) in
   option_map failed_projects
              (match r with Ok x => Some x | Raise _ => None end)
   = Some [mkFailed 7 "News" (map SkillType_value all_five)]
   /\ map Project.assigned_employees (Schedule.projects (schedule_of w')) = [[]])
  /\ ~ reports_only_uncovered_skill.
Proof.
  split; [vm_compute; split; reflexivity|].
  intros H.
  destruct (H GreedyScheduler.default (mkWorld no_producer seeded) news PRODUCER)
    as (r & w' & q' & Hrun & Hfailed & _).
  - reflexivity.
  - reflexivity.
  - reflexivity.
  - repeat constructor; cbn; intuition discriminate.
  - left. reflexivity.
  - reflexivity.
  - intros r Hr Hne. destruct r.
    + contradiction.
    + exists an_editor. split; [cbn; tauto | reflexivity].
    + exists a_designer. split; [cbn; tauto | reflexivity].
    + exists a_colorist. split; [cbn; tauto | reflexivity].
    + exists an_engineer. split; [cbn; tauto | reflexivity].
  - intros e [E | [E | [E | [E | []]]]]; subst e; reflexivity.
  - vm_compute in Hrun. inversion Hrun; subst r. cbn in Hfailed.
    discriminate Hfailed.
Qed.

